(** * Recurrent actor / critic networks of the MAPPO implementation

    A shallow embedding of
    [onpolicy/algorithms/r_mappo/algorithm/r_actor_critic.py]:
    the classes [R_Actor] and [R_Critic], their constructors and their
    [forward] / [evaluate_actions] methods.

    Tensors are logical values: a shape and the row-major list of the
    elements.  Strides and storage sharing are not represented, so [view]
    is the logical reshape of a contiguous tensor.  Python exceptions are an
    error result; the module object and the standard output are the state
    threaded through every method. *)

From Stdlib Require Import String List ZArith Bool Arith Lia.
Import ListNotations.

Set Implicit Arguments.

(* ------------------------------------------------------------------ *)
(** ** Results and the state-and-exception monad *)

Inductive exn : Type :=
| AttributeError (attr : string)
| IndexError
| RuntimeError
| ZeroDivisionError
| ExternalError (code : nat).

Inductive result (A : Type) : Type :=
| Ok (a : A)
| Err (e : exn).

Arguments Ok {A} a.
Arguments Err {A} e.

Definition is_ok {A} (r : result A) : bool :=
  match r with Ok _ => true | Err _ => false end.

Definition rbind {A B} (r : result A) (f : A -> result B) : result B :=
  match r with
  | Ok a => f a
  | Err e => Err e
  end.

(** A computation over a state [S]: the state survives an exception, as
    the effects of a Python call do. *)
Definition M (S A : Type) : Type := S -> result A * S.

Definition ret {S A} (a : A) : M S A := fun s => (Ok a, s).

Definition bind {S A B} (m : M S A) (f : A -> M S B) : M S B :=
  fun s =>
    match m s with
    | (Ok a, s') => f a s'
    | (Err e, s') => (Err e, s')
    end.

Definition raise {S A} (e : exn) : M S A := fun s => (Err e, s).

Definition lift {S A} (r : result A) : M S A := fun s => (r, s).

Declare Scope py_scope.
Delimit Scope py_scope with py.
Notation "x <- c ;; k" := (bind c (fun x => k))
  (at level 61, c at next level, right associativity) : py_scope.
Notation "' pat <- c ;; k" := (bind c (fun x => match x with pat => k end))
  (at level 61, pat pattern, c at next level, right associativity) : py_scope.
Notation "c ;; k" := (bind c (fun _ => k))
  (at level 61, right associativity) : py_scope.

(* ------------------------------------------------------------------ *)
(** ** Tensors *)

Record Tensor (A : Type) : Type := mkTensor {
  shape : list nat;
  data : list A
}.

Definition numel_of (sh : list nat) : nat := fold_right Nat.mul 1 sh.

Definition numel {A} (t : Tensor A) : nat := numel_of (shape t).

Definition tmap {A B} (f : A -> B) (t : Tensor A) : Tensor B :=
  mkTensor (shape t) (map f (data t)).

(** [t.size(0)] *)
Definition size0 {A} (t : Tensor A) : result nat :=
  match shape t with
  | b :: _ => Ok b
  | [] => Err IndexError
  end.

(** Upper bound of the Python slice [:stop] on a dimension of [n]
    entries: a negative [stop] counts from the end, and the bound is
    clipped to [0 .. n]. *)
Definition slice_stop (stop : Z) (n : nat) : nat :=
  if (stop <? 0)%Z
  then Z.to_nat (Z.max 0 (Z.of_nat n + stop))
  else Nat.min (Z.to_nat stop) n.

(** Of [rows] consecutive blocks of [width] elements, keep the first
    [keep] elements of each. *)
Fixpoint take_rows {A} (rows width keep : nat) (d : list A) : list A :=
  match rows with
  | O => []
  | S r => firstn keep d ++ take_rows r width keep (skipn width d)
  end.

(** [t[:, :stop]] *)
Definition getitem_cols {A} (t : Tensor A) (stop : Z) : result (Tensor A) :=
  match shape t with
  | b :: w :: rest =>
      let k := slice_stop stop w in
      Ok (mkTensor (b :: k :: rest)
                   (take_rows b (w * numel_of rest) (k * numel_of rest) (data t)))
  | _ => Err IndexError
  end.

(** The sizes [view] computes from its arguments for a tensor of [n]
    elements: at most one argument may be [-1], and it is inferred. *)
Definition infer_size (dims : list Z) (n : nat) : result (list nat) :=
  if existsb (fun d => (d <? -1)%Z) dims then Err RuntimeError
  else
    let known := numel_of (map Z.to_nat (filter (fun d => negb (d =? -1)%Z) dims)) in
    match count_occ Z.eq_dec dims (-1)%Z with
    | O => if known =? n then Ok (map Z.to_nat dims) else Err RuntimeError
    | S O =>
        if (0 <? known) && (n mod known =? 0)
        then Ok (map (fun d => if (d =? -1)%Z then n / known else Z.to_nat d) dims)
        else Err RuntimeError
    | _ => Err RuntimeError
    end.

(** [t.view(d1, ..., dn)] *)
Definition view {A} (t : Tensor A) (dims : list Z) : result (Tensor A) :=
  rbind (infer_size dims (numel t)) (fun sh => Ok (mkTensor sh (data t))).

(** [t.unsqueeze(1)] *)
Definition unsqueeze1 {A} (t : Tensor A) : result (Tensor A) :=
  match shape t with
  | b :: rest => Ok (mkTensor (b :: 1 :: rest) (data t))
  | [] => Err IndexError
  end.

(** [torch.sum] of a boolean mask: the number of set entries. *)
Definition sum_mask (t : Tensor bool) : nat :=
  length (filter (fun b => b) (data t)).

(** Python's [a // b] on integers. *)
Definition floordiv (a b : Z) : result Z :=
  if (b =? 0)%Z then Err ZeroDivisionError else Ok (a / b)%Z.

(* ------------------------------------------------------------------ *)
(** ** Configuration *)

Inductive Device : Type := cpu | cuda.

Inductive CellKind : Type := LSTM | GRU.

Inductive InitMethod : Type := xavier_uniform_ | orthogonal_.

(** The fields of [args] the two classes read. *)
Record Args (Gain : Type) : Type := mkArgs {
  a_hidden_size : Z;
  a_env_name : string;
  a_gain : Gain;
  a_use_orthogonal : bool;
  a_use_policy_active_masks : bool;
  a_use_naive_recurrent_policy : bool;
  a_use_recurrent_policy : bool;
  a_use_rims_policy_LSTM : bool;
  a_use_rims_policy_GRU : bool;
  a_use_lstm_policy : bool;
  a_recurrent_N : Z;
  a_num_units : Z;
  a_use_popart : bool
}.

(* ------------------------------------------------------------------ *)
(** ** Standard output *)

(** What a [print] call shows after its label. *)
Inductive Printed (E : Type) : Type :=
| PStr (s : string)
| PTensor (t : Tensor E)
| PMask (t : Tensor bool)
| PCount (n : nat).

Arguments PStr {E} s.
Arguments PTensor {E} t.
Arguments PMask {E} t.
Arguments PCount {E} n.

Definition Event (E : Type) : Type := (string * Printed E)%type.

(** The state a method runs in: the receiver object and the standard
    output written so far. *)
Record World (O E : Type) : Type := mkWorld {
  self : O;
  stdout : list (Event E)
}.

Definition print_out {E} (label : string) (v : Printed E) : M (list (Event E)) unit :=
  fun out => (Ok tt, out ++ [(label, v)]).

Definition print {O E} (label : string) (v : Printed E) : M (World O E) unit :=
  fun w => (Ok tt, mkWorld (self w) (stdout w ++ [(label, v)])).

(** Reading an attribute that [__init__] always assigns. *)
Definition attr {O E A} (f : O -> A) : M (World O E) A :=
  fun w => (Ok (f (self w)), w).

(* ------------------------------------------------------------------ *)
(** ** The collaborators imported from [onpolicy.algorithms.utils]

    The encoder, the recurrent cells, the action heads and the value heads
    are other modules of the package.  Each is an object type with a
    fallible constructor and a call that may change the object or raise. *)

Class Externals : Type := {
  Elt : Type;
  Gain : Type;
  (** the element-wise cast of [.to(dtype=torch.float32)] *)
  to_float32 : Elt -> Elt;
  isnan : Elt -> bool;
  (** [torch.cuda.is_available()] *)
  cuda_is_available : bool;

  ObsSpace : Type;
  ActionSpace : Type;
  get_shape_from_obs_space : ObsSpace -> list nat;

  (** [self.base]: the [nn.Sequential] convolution stack or an [MLPBase] *)
  Encoder : Type;
  Sequential_conv : Encoder;
  MLPBase : Args Gain -> list nat -> result Encoder;
  Encoder_call : Encoder -> Tensor Elt -> result (Tensor Elt) * Encoder;

  (** [RIMCell(device, input_size, hidden_size, num_units, k, rnn_cell,
      input_value_size=, comm_value_size=)] *)
  RIMCell : Type;
  RIMCell_new : Device -> Z -> Z -> Z -> Z -> CellKind -> Z -> Z -> result RIMCell;
  RIMCell_call : RIMCell -> Tensor Elt -> Tensor Elt -> Tensor Elt ->
                 result (Tensor Elt * Tensor Elt) * RIMCell;

  (** [RNNLayer(inputs_dim, outputs_dim, recurrent_N, use_orthogonal)] *)
  RNNLayer : Type;
  RNNLayer_new : Z -> Z -> Z -> bool -> result RNNLayer;
  RNNLayer_call : RNNLayer -> Tensor Elt -> Tensor Elt -> Tensor Elt ->
                  result (Tensor Elt * Tensor Elt) * RNNLayer;

  (** the two [ACTLayer] classes, [mpe_act] and [multiwalker_act] *)
  ACTLayer : Type;
  mpe_act : ActionSpace -> Z -> bool -> Gain -> result ACTLayer;
  multiwalker_act : ActionSpace -> Z -> bool -> Gain -> result ACTLayer;
  ACTLayer_call : ACTLayer -> Tensor Elt -> option (Tensor Elt) -> bool ->
                  result (Tensor Elt * Tensor Elt) * ACTLayer;
  ACTLayer_evaluate_actions :
    ACTLayer -> Tensor Elt -> Tensor Elt -> option (Tensor Elt) -> option (Tensor Elt) ->
    result (Tensor Elt * Tensor Elt) * ACTLayer;

  (** [self.v_out]: a [PopArt] layer or an [nn.Linear], passed through
      [init] *)
  ValueHead : Type;
  PopArt : Z -> Z -> Device -> result ValueHead;
  Linear : Z -> Z -> result ValueHead;
  init : ValueHead -> InitMethod -> ValueHead;
  ValueHead_call : ValueHead -> Tensor Elt -> result (Tensor Elt) * ValueHead
}.

(** [self.rnn] holds either cell class; which one is decided when the
    object is built, and a call dispatches on the object found there. *)
Inductive RecurrentUnit `{Externals} : Type :=
| RIMCell_obj (cell : RIMCell)
| RNNLayer_obj (layer : RNNLayer).

Definition RecurrentUnit_call `{Externals} (u : RecurrentUnit)
    (x a b : Tensor Elt) : result (Tensor Elt * Tensor Elt) * RecurrentUnit :=
  match u with
  | RIMCell_obj cell =>
      let (r, cell') := RIMCell_call cell x a b in (r, RIMCell_obj cell')
  | RNNLayer_obj layer =>
      let (r, layer') := RNNLayer_call layer x a b in (r, RNNLayer_obj layer')
  end.

(** Modelled from the spec: [check] of [onpolicy.algorithms.utils.util]
    followed by [.to(dtype=float32, device=...)], the conversion of an
    input "to the network's numeric precision and compute device".  An
    array and a tensor are the same logical value here, so [check] is the
    identity and [to] casts every element. *)
Definition check `{Externals} (x : Tensor Elt) : Tensor Elt := x.

Definition to `{Externals} (x : Tensor Elt) : Tensor Elt := tmap to_float32 x.

Local Open Scope py_scope.
Local Open Scope string_scope.
Local Open Scope bool_scope.

(* ------------------------------------------------------------------ *)
(** ** [class R_Actor] *)

Module R_Actor.
Section WithExternals.
Context `{Externals}.

Record obj : Type := mkObj {
  hidden_size : Z;
  _env_name : string;
  _gain : Gain;
  _use_orthogonal : bool;
  _use_policy_active_masks : bool;
  _use_naive_recurrent_policy : bool;
  _use_recurrent_policy : bool;
  _use_rims_policy_LSTM : bool;
  _use_rims_policy_GRU : bool;
  _use_lstm_policy : bool;
  _recurrent_N : Z;
  _num_units : Z;
  tpdv : Device;
  base : Encoder;
  rnn : option RecurrentUnit;  (* [None]: the attribute was never assigned *)
  act : option ACTLayer        (* [None]: the attribute was never assigned *)
}.

Definition set_base (b : Encoder) (o : obj) : obj :=
  mkObj (hidden_size o) (_env_name o) (_gain o) (_use_orthogonal o)
        (_use_policy_active_masks o) (_use_naive_recurrent_policy o)
        (_use_recurrent_policy o) (_use_rims_policy_LSTM o)
        (_use_rims_policy_GRU o) (_use_lstm_policy o) (_recurrent_N o)
        (_num_units o) (tpdv o) b (rnn o) (act o).

Definition set_rnn (r : option RecurrentUnit) (o : obj) : obj :=
  mkObj (hidden_size o) (_env_name o) (_gain o) (_use_orthogonal o)
        (_use_policy_active_masks o) (_use_naive_recurrent_policy o)
        (_use_recurrent_policy o) (_use_rims_policy_LSTM o)
        (_use_rims_policy_GRU o) (_use_lstm_policy o) (_recurrent_N o)
        (_num_units o) (tpdv o) (base o) r (act o).

Definition set_act (a : option ACTLayer) (o : obj) : obj :=
  mkObj (hidden_size o) (_env_name o) (_gain o) (_use_orthogonal o)
        (_use_policy_active_masks o) (_use_naive_recurrent_policy o)
        (_use_recurrent_policy o) (_use_rims_policy_LSTM o)
        (_use_rims_policy_GRU o) (_use_lstm_policy o) (_recurrent_N o)
        (_num_units o) (tpdv o) (base o) (rnn o) a.

Definition W : Type := World obj Elt.

(** [self.base(x)] *)
Definition call_base (x : Tensor Elt) : M W (Tensor Elt) :=
  fun w =>
    let (r, b') := Encoder_call (base (self w)) x in
    (r, mkWorld (set_base b' (self w)) (stdout w)).

(** [self.rnn(x, a, b)] *)
Definition call_rnn (x a b : Tensor Elt) : M W (Tensor Elt * Tensor Elt) :=
  fun w =>
    match rnn (self w) with
    | None => (Err (AttributeError "rnn"), w)
    | Some u =>
        let (r, u') := RecurrentUnit_call u x a b in
        (r, mkWorld (set_rnn (Some u') (self w)) (stdout w))
    end.

(** [self.act(x, available_actions, deterministic)] *)
Definition call_act (x : Tensor Elt) (available_actions : option (Tensor Elt))
    (deterministic : bool) : M W (Tensor Elt * Tensor Elt) :=
  fun w =>
    match act (self w) with
    | None => (Err (AttributeError "act"), w)
    | Some a =>
        let (r, a') := ACTLayer_call a x available_actions deterministic in
        (r, mkWorld (set_act (Some a') (self w)) (stdout w))
    end.

(** [self.act.evaluate_actions(x, action, available_actions,
    active_masks=...)] *)
Definition call_act_evaluate_actions (x action : Tensor Elt)
    (available_actions active_masks : option (Tensor Elt)) :
    M W (Tensor Elt * Tensor Elt) :=
  fun w =>
    match act (self w) with
    | None => (Err (AttributeError "act"), w)
    | Some a =>
        let (r, a') :=
          ACTLayer_evaluate_actions a x action available_actions active_masks in
        (r, mkWorld (set_act (Some a') (self w)) (stdout w))
    end.

(** [R_Actor.__init__].  [self.to(device)] moves the parameters only and
    is not represented. *)
Definition __init__ (args : Args Gain) (obs_space : ObsSpace)
    (action_space : ActionSpace) (device : Device) :
    M (list (Event Elt)) obj :=
  let hidden_size := a_hidden_size args in
  let _env_name := a_env_name args in
  print_out "environment: " (PStr _env_name) ;;
  let _gain := a_gain args in
  let _use_orthogonal := a_use_orthogonal args in
  let _use_policy_active_masks := a_use_policy_active_masks args in
  let _use_naive_recurrent_policy := a_use_naive_recurrent_policy args in
  let _use_recurrent_policy := a_use_recurrent_policy args in
  let _use_rims_policy_LSTM := a_use_rims_policy_LSTM args in
  let _use_rims_policy_GRU := a_use_rims_policy_GRU args in
  let _use_lstm_policy := a_use_lstm_policy args in
  let _recurrent_N := a_recurrent_N args in
  let _num_units := a_num_units args in
  let tpdv := device in
  let obs_shape := get_shape_from_obs_space obs_space in
  let base1 := Sequential_conv in
  let base2 := MLPBase in
  base <- (if (length obs_shape =? 3)%nat then ret base1
           else lift (base2 args obs_shape)) ;;
  rnn <- (if _use_naive_recurrent_policy || _use_recurrent_policy then
            if _use_rims_policy_LSTM then
              per_unit <- lift (floordiv hidden_size _num_units) ;;
              comm <- lift (floordiv hidden_size _num_units) ;;
              cell <- lift (RIMCell_new (if cuda_is_available then cuda else cpu)
                              hidden_size per_unit _num_units 1 LSTM 64 comm) ;;
              ret (Some (RIMCell_obj cell))
            else if _use_rims_policy_GRU then
              per_unit <- lift (floordiv hidden_size _num_units) ;;
              comm <- lift (floordiv hidden_size _num_units) ;;
              cell <- lift (RIMCell_new (if cuda_is_available then cuda else cpu)
                              hidden_size per_unit _num_units 1 GRU 64 comm) ;;
              ret (Some (RIMCell_obj cell))
            else if _use_lstm_policy then
              layer <- lift (RNNLayer_new hidden_size hidden_size _recurrent_N
                               _use_orthogonal) ;;
              ret (Some (RNNLayer_obj layer))
            else ret None
          else ret None) ;;
  act <- (if String.eqb _env_name "MPE-simple.spread" then
            a <- lift (mpe_act action_space hidden_size _use_orthogonal _gain) ;;
            ret (Some a)
          else if String.eqb _env_name "SISL-multiwalker" then
            a <- lift (multiwalker_act action_space hidden_size _use_orthogonal _gain) ;;
            ret (Some a)
          else ret None) ;;
  ret (mkObj hidden_size _env_name _gain _use_orthogonal
             _use_policy_active_masks _use_naive_recurrent_policy
             _use_recurrent_policy _use_rims_policy_LSTM _use_rims_policy_GRU
             _use_lstm_policy _recurrent_N _num_units tpdv base rnn act).

(** [R_Actor.forward] *)
Definition forward (obs rnn_states masks : Tensor Elt)
    (available_actions : option (Tensor Elt)) (deterministic : bool) :
    M W (Tensor Elt * Tensor Elt * Tensor Elt) :=
  let obs := to (check obs) in
  let rnn_states := to (check rnn_states) in
  let masks := to (check masks) in
  let available_actions :=
    match available_actions with
    | Some a => Some (to (check a))
    | None => None
    end in
  print "main forward method: obs before base" (PTensor obs) ;;
  let obs_isnan_mask := tmap isnan obs in
  print "main forward method: nan mask obs" (PMask obs_isnan_mask) ;;
  let obs_num_nans := sum_mask obs_isnan_mask in
  print "main forward method: number of nans" (PCount obs_num_nans) ;;
  actor_features <- call_base obs ;;
  naive <- attr _use_naive_recurrent_policy ;;
  recurrent <- attr _use_recurrent_policy ;;
  rims_LSTM <- attr _use_rims_policy_LSTM ;;
  rims_GRU <- attr _use_rims_policy_GRU ;;
  lstm <- attr _use_lstm_policy ;;
  '(actor_features, rnn_states) <-
    (if naive || recurrent then
       if rims_LSTM || rims_GRU then
         hidden_size <- attr hidden_size ;;
         _num_units <- attr _num_units ;;
         let half := (hidden_size / 2)%Z in
         hidden0 <- lift (getitem_cols rnn_states hidden_size) ;;
         hidden1 <- lift (getitem_cols rnn_states hidden_size) ;;
         n0 <- lift (size0 hidden0) ;;
         hidden0 <- lift (view hidden0 [Z.of_nat n0; _num_units; (-1)%Z]) ;;
         n1 <- lift (size0 hidden1) ;;
         hidden1 <- lift (view hidden0 [Z.of_nat n1; _num_units; (-1)%Z]) ;;
         actor_features <- lift (unsqueeze1 actor_features) ;;
         '(hidden0, hidden1) <- call_rnn actor_features hidden0 hidden1 ;;
         n0 <- lift (size0 hidden0) ;;
         actor_features <- lift (view hidden0 [Z.of_nat n0; (-1)%Z]) ;;
         n1 <- lift (size0 hidden1) ;;
         rnn_states <- lift (view hidden1 [Z.of_nat n1; 1%Z; (-1)%Z]) ;;
         ret (actor_features, rnn_states)
       else if lstm then
         call_rnn actor_features rnn_states masks
       else ret (actor_features, rnn_states)
     else ret (actor_features, rnn_states)) ;;
  '(actions, action_log_probs) <-
    call_act actor_features available_actions deterministic ;;
  ret (actions, action_log_probs, rnn_states).

(** [R_Actor.evaluate_actions] *)
Definition evaluate_actions (obs rnn_states action masks : Tensor Elt)
    (available_actions active_masks : option (Tensor Elt)) :
    M W (Tensor Elt * Tensor Elt) :=
  let obs := to (check obs) in
  let rnn_states := to (check rnn_states) in
  let action := to (check action) in
  let masks := to (check masks) in
  let available_actions :=
    match available_actions with
    | Some a => Some (to (check a))
    | None => None
    end in
  let active_masks :=
    match active_masks with
    | Some a => Some (to (check a))
    | None => None
    end in
  print "evaluate actions: obs before base" (PTensor obs) ;;
  let obs_isnan_mask := tmap isnan obs in
  print "evaluate actions: nan mask obs" (PMask obs_isnan_mask) ;;
  let obs_num_nans := sum_mask obs_isnan_mask in
  print "evaluate actions: number of nans" (PCount obs_num_nans) ;;
  actor_features <- call_base obs ;;
  naive <- attr _use_naive_recurrent_policy ;;
  recurrent <- attr _use_recurrent_policy ;;
  rims_LSTM <- attr _use_rims_policy_LSTM ;;
  rims_GRU <- attr _use_rims_policy_GRU ;;
  lstm <- attr _use_lstm_policy ;;
  '(actor_features, rnn_states) <-
    (if naive || recurrent then
       if rims_LSTM || rims_GRU then
         hidden_size <- attr hidden_size ;;
         _num_units <- attr _num_units ;;
         let half := (hidden_size / 2)%Z in
         hidden0 <- lift (getitem_cols rnn_states hidden_size) ;;
         hidden1 <- lift (getitem_cols rnn_states hidden_size) ;;
         n0 <- lift (size0 hidden0) ;;
         hidden0 <- lift (view hidden0 [Z.of_nat n0; _num_units; (-1)%Z]) ;;
         n1 <- lift (size0 hidden1) ;;
         hidden1 <- lift (view hidden0 [Z.of_nat n1; _num_units; (-1)%Z]) ;;
         actor_features <- lift (unsqueeze1 actor_features) ;;
         '(hidden0, hidden1) <- call_rnn actor_features hidden0 hidden1 ;;
         n0 <- lift (size0 hidden0) ;;
         actor_features <- lift (view hidden0 [Z.of_nat n0; (-1)%Z]) ;;
         n1 <- lift (size0 hidden1) ;;
         rnn_states <- lift (view hidden1 [Z.of_nat n1; 1%Z; (-1)%Z]) ;;
         ret (actor_features, rnn_states)
       else if lstm then
         call_rnn actor_features rnn_states masks
       else ret (actor_features, rnn_states)
     else ret (actor_features, rnn_states)) ;;
  use_active <- attr _use_policy_active_masks ;;
  '(action_log_probs, dist_entropy) <-
    call_act_evaluate_actions actor_features action available_actions
      (if use_active then active_masks else None) ;;
  ret (action_log_probs, dist_entropy).

End WithExternals.
End R_Actor.

(* ------------------------------------------------------------------ *)
(** ** [class R_Critic] *)

Module R_Critic.
Section WithExternals.
Context `{Externals}.

Record obj : Type := mkObj {
  hidden_size : Z;
  _use_orthogonal : bool;
  _use_naive_recurrent_policy : bool;
  _use_recurrent_policy : bool;
  _use_rims_policy_LSTM : bool;
  _use_rims_policy_GRU : bool;
  _use_lstm_policy : bool;
  _recurrent_N : Z;
  _use_popart : bool;
  _num_units : Z;
  tpdv : Device;
  base : Encoder;
  rnn : option RecurrentUnit;  (* [None]: the attribute was never assigned *)
  v_out : ValueHead
}.

Definition set_base (b : Encoder) (o : obj) : obj :=
  mkObj (hidden_size o) (_use_orthogonal o) (_use_naive_recurrent_policy o)
        (_use_recurrent_policy o) (_use_rims_policy_LSTM o)
        (_use_rims_policy_GRU o) (_use_lstm_policy o) (_recurrent_N o)
        (_use_popart o) (_num_units o) (tpdv o) b (rnn o) (v_out o).

Definition set_rnn (r : option RecurrentUnit) (o : obj) : obj :=
  mkObj (hidden_size o) (_use_orthogonal o) (_use_naive_recurrent_policy o)
        (_use_recurrent_policy o) (_use_rims_policy_LSTM o)
        (_use_rims_policy_GRU o) (_use_lstm_policy o) (_recurrent_N o)
        (_use_popart o) (_num_units o) (tpdv o) (base o) r (v_out o).

Definition set_v_out (v : ValueHead) (o : obj) : obj :=
  mkObj (hidden_size o) (_use_orthogonal o) (_use_naive_recurrent_policy o)
        (_use_recurrent_policy o) (_use_rims_policy_LSTM o)
        (_use_rims_policy_GRU o) (_use_lstm_policy o) (_recurrent_N o)
        (_use_popart o) (_num_units o) (tpdv o) (base o) (rnn o) v.

Definition W : Type := World obj Elt.

(** [self.base(x)] *)
Definition call_base (x : Tensor Elt) : M W (Tensor Elt) :=
  fun w =>
    let (r, b') := Encoder_call (base (self w)) x in
    (r, mkWorld (set_base b' (self w)) (stdout w)).

(** [self.rnn(x, a, b)] *)
Definition call_rnn (x a b : Tensor Elt) : M W (Tensor Elt * Tensor Elt) :=
  fun w =>
    match rnn (self w) with
    | None => (Err (AttributeError "rnn"), w)
    | Some u =>
        let (r, u') := RecurrentUnit_call u x a b in
        (r, mkWorld (set_rnn (Some u') (self w)) (stdout w))
    end.

(** [self.v_out(x)] *)
Definition call_v_out (x : Tensor Elt) : M W (Tensor Elt) :=
  fun w =>
    let (r, v') := ValueHead_call (v_out (self w)) x in
    (r, mkWorld (set_v_out v' (self w)) (stdout w)).

(** [R_Critic.__init__].  The two [self.to(device)] calls move the
    parameters only and are not represented. *)
Definition __init__ (args : Args Gain) (obs_space : ObsSpace)
    (device : Device) : M (list (Event Elt)) obj :=
  let hidden_size := a_hidden_size args in
  let _use_orthogonal := a_use_orthogonal args in
  let _use_naive_recurrent_policy := a_use_naive_recurrent_policy args in
  let _use_recurrent_policy := a_use_recurrent_policy args in
  let _use_rims_policy_LSTM := a_use_rims_policy_LSTM args in
  let _use_rims_policy_GRU := a_use_rims_policy_GRU args in
  let _use_lstm_policy := a_use_lstm_policy args in
  let _recurrent_N := a_recurrent_N args in
  let _use_popart := a_use_popart args in
  let _num_units := a_num_units args in
  let tpdv := device in
  let init_method := if _use_orthogonal then orthogonal_ else xavier_uniform_ in
  let obs_shape := get_shape_from_obs_space obs_space in
  let base1 := Sequential_conv in
  let base2 := MLPBase in
  base <- (if (length obs_shape =? 3)%nat then ret base1
           else lift (base2 args obs_shape)) ;;
  rnn <- (if _use_naive_recurrent_policy || _use_recurrent_policy then
            if _use_rims_policy_LSTM then
              per_unit <- lift (floordiv hidden_size _num_units) ;;
              comm <- lift (floordiv hidden_size _num_units) ;;
              cell <- lift (RIMCell_new (if cuda_is_available then cuda else cpu)
                              hidden_size per_unit _num_units 1 LSTM 64 comm) ;;
              ret (Some (RIMCell_obj cell))
            else if _use_rims_policy_GRU then
              per_unit <- lift (floordiv hidden_size _num_units) ;;
              comm <- lift (floordiv hidden_size _num_units) ;;
              cell <- lift (RIMCell_new (if cuda_is_available then cuda else cpu)
                              hidden_size per_unit _num_units 1 GRU 64 comm) ;;
              ret (Some (RIMCell_obj cell))
            else if _use_lstm_policy then
              layer <- lift (RNNLayer_new hidden_size hidden_size _recurrent_N
                               _use_orthogonal) ;;
              ret (Some (RNNLayer_obj layer))
            else ret None
          else ret None) ;;
  let init_ := fun m => init m init_method in
  v_out <- (if _use_popart then
              m <- lift (PopArt hidden_size 1 device) ;; ret (init_ m)
            else
              m <- lift (Linear hidden_size 1) ;; ret (init_ m)) ;;
  ret (mkObj hidden_size _use_orthogonal _use_naive_recurrent_policy
             _use_recurrent_policy _use_rims_policy_LSTM _use_rims_policy_GRU
             _use_lstm_policy _recurrent_N _use_popart _num_units tpdv
             base rnn v_out).

(** [R_Critic.forward] *)
Definition forward (obs rnn_states masks : Tensor Elt) :
    M W (Tensor Elt * Tensor Elt) :=
  let obs := to (check obs) in
  let rnn_states := to (check rnn_states) in
  let masks := to (check masks) in
  critic_features <- call_base obs ;;
  naive <- attr _use_naive_recurrent_policy ;;
  recurrent <- attr _use_recurrent_policy ;;
  rims_LSTM <- attr _use_rims_policy_LSTM ;;
  rims_GRU <- attr _use_rims_policy_GRU ;;
  lstm <- attr _use_lstm_policy ;;
  '(critic_features, rnn_states) <-
    (if naive || recurrent then
       if rims_LSTM || rims_GRU then
         hidden_size <- attr hidden_size ;;
         _num_units <- attr _num_units ;;
         let half := (hidden_size / 2)%Z in
         hidden0 <- lift (getitem_cols rnn_states hidden_size) ;;
         hidden1 <- lift (getitem_cols rnn_states hidden_size) ;;
         n0 <- lift (size0 hidden0) ;;
         hidden0 <- lift (view hidden0 [Z.of_nat n0; _num_units; (-1)%Z]) ;;
         n1 <- lift (size0 hidden1) ;;
         hidden1 <- lift (view hidden0 [Z.of_nat n1; _num_units; (-1)%Z]) ;;
         critic_features <- lift (unsqueeze1 critic_features) ;;
         '(hidden0, hidden1) <- call_rnn critic_features hidden0 hidden1 ;;
         n0 <- lift (size0 hidden0) ;;
         critic_features <- lift (view hidden0 [Z.of_nat n0; (-1)%Z]) ;;
         n1 <- lift (size0 hidden1) ;;
         rnn_states <- lift (view hidden1 [Z.of_nat n1; 1%Z; (-1)%Z]) ;;
         ret (critic_features, rnn_states)
       else if lstm then
         call_rnn critic_features rnn_states masks
       else ret (critic_features, rnn_states)
     else ret (critic_features, rnn_states)) ;;
  values <- call_v_out critic_features ;;
  ret (values, rnn_states).

End WithExternals.
End R_Critic.

(* ------------------------------------------------------------------ *)
(** ** The recurrent memory unit as the specification words it

    Section 4.2 of the specification names the variants of the recurrent
    stage and the order in which the flags are tried; section 4.5 composes
    encoder, recurrent stage and head.  The definitions of this module
    follow those words.  They are compared with the methods above, which
    follow the source. *)

Module Spec.

Inductive Variant : Type :=
| MultiModuleLSTM
| MultiModuleGRU
| SimpleRecurrent
| Disabled.

(** "highest-priority check order is Multi-Module-LSTM, then
    Multi-Module-GRU, then Simple-Recurrent -- first match wins" *)
Definition first_match (rims_LSTM rims_GRU lstm : bool) : Variant :=
  if rims_LSTM then MultiModuleLSTM
  else if rims_GRU then MultiModuleGRU
  else if lstm then SimpleRecurrent
  else Disabled.

Definition selected (naive recurrent rims_LSTM rims_GRU lstm : bool) : Variant :=
  if naive || recurrent then first_match rims_LSTM rims_GRU lstm else Disabled.

Section Stages.
Context `{Externals} {S : Type}.
Variable call_unit :
  Tensor Elt -> Tensor Elt -> Tensor Elt -> M S (Tensor Elt * Tensor Elt).

(** "the packed HiddenState tensor is split into two sub-states, each
    reshaped to (batch, num_units, hidden_size/num_units)", both "derived
    from the same slice of the packed tensor". *)
Definition split_packed_state (hidden_size num_units : Z)
    (state : Tensor Elt) : result (Tensor Elt * Tensor Elt) :=
  rbind (getitem_cols state hidden_size) (fun slice =>
  rbind (size0 slice) (fun batch =>
  rbind (view slice [Z.of_nat batch; num_units; (-1)%Z]) (fun sub =>
  Ok (sub, sub)))).

(** "flattened back into embedding (from hidden)" *)
Definition flatten_hidden (hidden : Tensor Elt) : result (Tensor Elt) :=
  rbind (size0 hidden) (fun batch => view hidden [Z.of_nat batch; (-1)%Z]).

(** "and packed HiddenState (from cell)" *)
Definition pack_cell (cell : Tensor Elt) : result (Tensor Elt) :=
  rbind (size0 cell) (fun batch => view cell [Z.of_nat batch; 1%Z; (-1)%Z]).

Definition MultiModule (hidden_size num_units : Z)
    (embedding state : Tensor Elt) : M S (Tensor Elt * Tensor Elt) :=
  '(hidden, cell) <- lift (split_packed_state hidden_size num_units state) ;;
  x <- lift (unsqueeze1 embedding) ;;
  '(hidden', cell') <- call_unit x hidden cell ;;
  e <- lift (flatten_hidden hidden') ;;
  s <- lift (pack_cell cell') ;;
  ret (e, s).

Definition recurrent_stage (v : Variant) (hidden_size num_units : Z)
    (embedding state mask : Tensor Elt) : M S (Tensor Elt * Tensor Elt) :=
  match v with
  | MultiModuleLSTM | MultiModuleGRU =>
      MultiModule hidden_size num_units embedding state
  | SimpleRecurrent => call_unit embedding state mask
  | Disabled => ret (embedding, state)
  end.

End Stages.

Section Composition.
Context `{Externals}.

Definition convert (x : option (Tensor Elt)) : option (Tensor Elt) :=
  option_map (fun t => to (check t)) x.

(** The diagnostic output on the observation. *)
Definition diagnostics {O} (method : string) (obs : Tensor Elt) :
    M (World O Elt) unit :=
  print (method ++ ": obs before base") (PTensor obs) ;;
  print (method ++ ": nan mask obs") (PMask (tmap isnan obs)) ;;
  print (method ++ ": number of nans") (PCount (sum_mask (tmap isnan obs))).

Definition actor_variant (o : R_Actor.obj) : Variant :=
  selected (R_Actor._use_naive_recurrent_policy o)
           (R_Actor._use_recurrent_policy o)
           (R_Actor._use_rims_policy_LSTM o)
           (R_Actor._use_rims_policy_GRU o)
           (R_Actor._use_lstm_policy o).

Definition critic_variant (o : R_Critic.obj) : Variant :=
  selected (R_Critic._use_naive_recurrent_policy o)
           (R_Critic._use_recurrent_policy o)
           (R_Critic._use_rims_policy_LSTM o)
           (R_Critic._use_rims_policy_GRU o)
           (R_Critic._use_lstm_policy o).

(** Steps 1 to 3 of section 4.5 for the actor, with the variant [v]. *)
Definition Actor_embed (v : Variant) (method : string)
    (obs hidden mask : Tensor Elt) : M R_Actor.W (Tensor Elt * Tensor Elt) :=
  diagnostics method (to (check obs)) ;;
  embedding <- R_Actor.call_base (to (check obs)) ;;
  hidden_size <- attr R_Actor.hidden_size ;;
  num_units <- attr R_Actor._num_units ;;
  recurrent_stage R_Actor.call_rnn v hidden_size num_units
    embedding (to (check hidden)) (to (check mask)).

(** [Actor.act] *)
Definition Actor_act (v : Variant) (obs hidden mask : Tensor Elt)
    (available_actions : option (Tensor Elt)) (deterministic : bool) :
    M R_Actor.W (Tensor Elt * Tensor Elt * Tensor Elt) :=
  '(embedding, new_hidden) <- Actor_embed v "main forward method" obs hidden mask ;;
  '(action, log_prob) <-
    R_Actor.call_act embedding (convert available_actions) deterministic ;;
  ret (action, log_prob, new_hidden).

(** [Actor.evaluate], the head being handed [active_mask]. *)
Definition Actor_evaluate (v : Variant) (obs hidden action mask : Tensor Elt)
    (available_actions active_mask : option (Tensor Elt)) :
    M R_Actor.W (Tensor Elt * Tensor Elt) :=
  '(embedding, _) <- Actor_embed v "evaluate actions" obs hidden mask ;;
  R_Actor.call_act_evaluate_actions embedding (to (check action))
    (convert available_actions) active_mask.

(** [Critic.estimate] *)
Definition Critic_estimate (v : Variant) (obs hidden mask : Tensor Elt) :
    M R_Critic.W (Tensor Elt * Tensor Elt) :=
  embedding <- R_Critic.call_base (to (check obs)) ;;
  hidden_size <- attr R_Critic.hidden_size ;;
  num_units <- attr R_Critic._num_units ;;
  '(embedding, new_hidden) <-
    recurrent_stage R_Critic.call_rnn v hidden_size num_units
      embedding (to (check hidden)) (to (check mask)) ;;
  value <- R_Critic.call_v_out embedding ;;
  ret (value, new_hidden).

End Composition.
End Spec.

(* ------------------------------------------------------------------ *)
(** ** The stages of the two constructors

    What [__init__] assigns to [self.base], [self.rnn] and [self.act], as
    results: the constructors change nothing but the object they build. *)

Section Construction.
Context `{Externals}.

Definition build_base (args : Args Gain) (obs_space : ObsSpace) : result Encoder :=
  if (length (get_shape_from_obs_space obs_space) =? 3)%nat
  then Ok Sequential_conv
  else MLPBase args (get_shape_from_obs_space obs_space).

Definition build_cell (kind : CellKind) (args : Args Gain) : result RecurrentUnit :=
  rbind (floordiv (a_hidden_size args) (a_num_units args)) (fun per_unit =>
  rbind (RIMCell_new (if cuda_is_available then cuda else cpu)
           (a_hidden_size args) per_unit (a_num_units args) 1 kind 64 per_unit)
        (fun cell => Ok (RIMCell_obj cell))).

Definition build_layer (args : Args Gain) : result RecurrentUnit :=
  rbind (RNNLayer_new (a_hidden_size args) (a_hidden_size args)
           (a_recurrent_N args) (a_use_orthogonal args))
        (fun layer => Ok (RNNLayer_obj layer)).

Definition build_unit (v : Spec.Variant) (args : Args Gain) :
    result (option RecurrentUnit) :=
  match v with
  | Spec.MultiModuleLSTM => rbind (build_cell LSTM args) (fun u => Ok (Some u))
  | Spec.MultiModuleGRU => rbind (build_cell GRU args) (fun u => Ok (Some u))
  | Spec.SimpleRecurrent => rbind (build_layer args) (fun u => Ok (Some u))
  | Spec.Disabled => Ok None
  end.

Definition args_variant (args : Args Gain) : Spec.Variant :=
  Spec.selected (a_use_naive_recurrent_policy args) (a_use_recurrent_policy args)
                (a_use_rims_policy_LSTM args) (a_use_rims_policy_GRU args)
                (a_use_lstm_policy args).

Definition build_head (args : Args Gain) (action_space : ActionSpace) :
    result (option ACTLayer) :=
  if String.eqb (a_env_name args) "MPE-simple.spread" then
    rbind (mpe_act action_space (a_hidden_size args) (a_use_orthogonal args)
             (a_gain args)) (fun a => Ok (Some a))
  else if String.eqb (a_env_name args) "SISL-multiwalker" then
    rbind (multiwalker_act action_space (a_hidden_size args)
             (a_use_orthogonal args) (a_gain args)) (fun a => Ok (Some a))
  else Ok None.

Definition build_v_out (args : Args Gain) (device : Device) : result ValueHead :=
  rbind (if a_use_popart args then PopArt (a_hidden_size args) 1 device
         else Linear (a_hidden_size args) 1)
        (fun m => Ok (init m (if a_use_orthogonal args then orthogonal_
                              else xavier_uniform_))).

(** The actor a successful construction returns. *)
Definition actor_of (args : Args Gain) (device : Device) (b : Encoder)
    (r : option RecurrentUnit) (a : option ACTLayer) : R_Actor.obj :=
  R_Actor.mkObj (a_hidden_size args) (a_env_name args) (a_gain args)
    (a_use_orthogonal args) (a_use_policy_active_masks args)
    (a_use_naive_recurrent_policy args) (a_use_recurrent_policy args)
    (a_use_rims_policy_LSTM args) (a_use_rims_policy_GRU args)
    (a_use_lstm_policy args) (a_recurrent_N args) (a_num_units args)
    device b r a.

(** The critic a successful construction returns. *)
Definition critic_of (args : Args Gain) (device : Device) (b : Encoder)
    (r : option RecurrentUnit) (v : ValueHead) : R_Critic.obj :=
  R_Critic.mkObj (a_hidden_size args) (a_use_orthogonal args)
    (a_use_naive_recurrent_policy args) (a_use_recurrent_policy args)
    (a_use_rims_policy_LSTM args) (a_use_rims_policy_GRU args)
    (a_use_lstm_policy args) (a_recurrent_N args) (a_use_popart args)
    (a_num_units args) device b r v.

(** The collaborators of a call leave their own object as it was. *)
Definition Encoder_pure : Prop :=
  forall e x, snd (Encoder_call e x) = e.
Definition RIMCell_pure : Prop :=
  forall c x a b, snd (RIMCell_call c x a b) = c.
Definition RNNLayer_pure : Prop :=
  forall l x a b, snd (RNNLayer_call l x a b) = l.
Definition ACTLayer_pure_when_deterministic : Prop :=
  forall a x av, snd (ACTLayer_call a x av true) = a.
Definition ACTLayer_evaluate_pure : Prop :=
  forall a x y av am, snd (ACTLayer_evaluate_actions a x y av am) = a.
Definition ValueHead_pure : Prop :=
  forall v x, snd (ValueHead_call v x) = v.

End Construction.

(* ------------------------------------------------------------------ *)
(** ** Sample collaborators

    A small instance on which the methods run: integer elements, an
    encoder that returns its input, cells that return the sub-states they
    are given, heads that return the embedding.  A [RIMCell] records the
    arguments it was built with. *)

Module Sample.

Record Cell : Type := mkCell {
  input_size : Z;
  unit_size : Z;
  units : Z;
  top_k : Z;
  kind : CellKind;
  input_value_size : Z;
  comm_value_size : Z
}.

#[export] Instance collaborators : Externals := {|
  Elt := Z;
  Gain := Z;
  to_float32 := fun z => z;
  isnan := fun _ => false;
  cuda_is_available := false;
  ObsSpace := list nat;
  ActionSpace := nat;
  get_shape_from_obs_space := fun s => s;
  Encoder := unit;
  Sequential_conv := tt;
  MLPBase := fun _ _ => Ok tt;
  Encoder_call := fun e x => (Ok x, e);
  RIMCell := Cell;
  RIMCell_new := fun _ i h n k c v cv => Ok (mkCell i h n k c v cv);
  RIMCell_call := fun c _ hs cs => (Ok (hs, cs), c);
  RNNLayer := unit;
  RNNLayer_new := fun _ _ _ _ => Ok tt;
  RNNLayer_call := fun l x h _ => (Ok (x, h), l);
  ACTLayer := string;
  mpe_act := fun _ _ _ _ => Ok "mpe_act";
  multiwalker_act := fun _ _ _ _ => Ok "multiwalker_act";
  ACTLayer_call := fun a x _ _ => (Ok (x, x), a);
  ACTLayer_evaluate_actions := fun a x y _ am =>
    (Ok (y, match am with Some m => m | None => x end), a);
  ValueHead := unit;
  PopArt := fun _ _ _ => Ok tt;
  Linear := fun _ _ => Ok tt;
  init := fun v _ => v;
  ValueHead_call := fun v x => (Ok x, v)
|}.

Definition args (env : string) (hidden units : Z)
    (naive recurrent rims_LSTM rims_GRU lstm : bool) : Args Z :=
  mkArgs hidden env 1%Z true true naive recurrent rims_LSTM rims_GRU lstm
         1%Z units false.

(** A [rows] by [cols] matrix holding [0, 1, 2, ...]. *)
Definition iota (rows cols : nat) : Tensor Z :=
  mkTensor [rows; cols] (map Z.of_nat (seq 0 (rows * cols))).

Definition actor (env : string) (hidden units : Z)
    (naive recurrent rims_LSTM rims_GRU lstm : bool) : result R_Actor.obj :=
  fst (R_Actor.__init__
         (args env hidden units naive recurrent rims_LSTM rims_GRU lstm)
         [4] 5 cpu []).

Definition critic (hidden units : Z)
    (naive recurrent rims_LSTM rims_GRU lstm : bool) : result R_Critic.obj :=
  fst (R_Critic.__init__
         (args "MPE-simple.spread" hidden units naive recurrent rims_LSTM rims_GRU lstm)
         [4] cpu []).

(** The objects the constructors return on these collaborators. *)
Definition built_actor (env : string) (hidden units : Z)
    (naive recurrent rims_LSTM rims_GRU lstm : bool) : R_Actor.obj :=
  match actor env hidden units naive recurrent rims_LSTM rims_GRU lstm with
  | Ok o => o
  | Err _ =>
      actor_of (args env hidden units naive recurrent rims_LSTM rims_GRU lstm)
        cpu tt None None
  end.

Definition built_critic (hidden units : Z)
    (naive recurrent rims_LSTM rims_GRU lstm : bool) : R_Critic.obj :=
  match critic hidden units naive recurrent rims_LSTM rims_GRU lstm with
  | Ok o => o
  | Err _ =>
      critic_of (args "MPE-simple.spread" hidden units naive recurrent
                   rims_LSTM rims_GRU lstm) cpu tt None tt
  end.

(** An actor and a critic on the Multi-Module path: hidden size 8 in 4
    units. *)
Definition rims_actor : R_Actor.W :=
  mkWorld (built_actor "MPE-simple.spread" 8 4 false true true false false) [].

Definition rims_critic : R_Critic.W :=
  mkWorld (built_critic 8 4 false true false true false) [].

(** An actor without a recurrent policy. *)
Definition plain_actor : R_Actor.W :=
  mkWorld (built_actor "MPE-simple.spread" 8 4 false false false false false) [].

(** An actor for an environment that is not one of the two known. *)
Definition headless_actor : R_Actor.W :=
  mkWorld (built_actor "football" 8 4 false false false false false) [].


End Sample.

(* ------------------------------------------------------------------ *)
(** ** Vocabulary of the properties *)

Section Vocabulary.
Context `{Externals}.

(** The two tests that guard the Multi-Module block of [R_Actor.forward]
    and [R_Actor.evaluate_actions]. *)
Definition actor_takes_rims_path (o : R_Actor.obj) : bool :=
  (R_Actor._use_naive_recurrent_policy o || R_Actor._use_recurrent_policy o)
  && (R_Actor._use_rims_policy_LSTM o || R_Actor._use_rims_policy_GRU o).

(** The same two tests in [R_Critic.forward]. *)
Definition critic_takes_rims_path (o : R_Critic.obj) : bool :=
  (R_Critic._use_naive_recurrent_policy o || R_Critic._use_recurrent_policy o)
  && (R_Critic._use_rims_policy_LSTM o || R_Critic._use_rims_policy_GRU o).

(** A recurrent policy is requested. *)
Definition requested (args : Args Gain) : bool :=
  a_use_naive_recurrent_policy args || a_use_recurrent_policy args.

(** The number of variant flags that are set. *)
Definition variants_set (args : Args Gain) : nat :=
  (if a_use_rims_policy_LSTM args then 1 else 0)
  + (if a_use_rims_policy_GRU args then 1 else 0)
  + (if a_use_lstm_policy args then 1 else 0).

(** A Multi-Module variant is the one the constructor builds. *)
Definition selects_multi_module (args : Args Gain) : bool :=
  requested args && (a_use_rims_policy_LSTM args || a_use_rims_policy_GRU args).

(** The kind of cell the constructor asks for: the LSTM test comes first. *)
Definition cell_kind (args : Args Gain) : CellKind :=
  if a_use_rims_policy_LSTM args then LSTM else GRU.

(** The attributes of an actor that are not sub-modules. *)
Definition actor_settings (o : R_Actor.obj) :=
  (R_Actor.hidden_size o, R_Actor._env_name o, R_Actor._gain o,
   R_Actor._use_orthogonal o, R_Actor._use_policy_active_masks o,
   R_Actor._use_naive_recurrent_policy o, R_Actor._use_recurrent_policy o,
   R_Actor._use_rims_policy_LSTM o, R_Actor._use_rims_policy_GRU o,
   R_Actor._use_lstm_policy o, R_Actor._recurrent_N o, R_Actor._num_units o,
   R_Actor.tpdv o).

(** The attributes of a critic that are not sub-modules. *)
Definition critic_settings (o : R_Critic.obj) :=
  (R_Critic.hidden_size o, R_Critic._use_orthogonal o,
   R_Critic._use_naive_recurrent_policy o, R_Critic._use_recurrent_policy o,
   R_Critic._use_rims_policy_LSTM o, R_Critic._use_rims_policy_GRU o,
   R_Critic._use_lstm_policy o, R_Critic._recurrent_N o,
   R_Critic._use_popart o, R_Critic._num_units o, R_Critic.tpdv o).

(** Entry [(i, j)] of a matrix with rows of [width] entries. *)
Definition entry (t : Tensor Elt) (width i j : nat) : option Elt :=
  nth_error (data t) (i * width + j).

(** Two packed states agree on the first [k] columns of each of their
    [rows] rows. *)
Definition agree_on_columns (rows k : nat) (s1 : Tensor Elt) (w1 : nat)
    (s2 : Tensor Elt) (w2 : nat) : Prop :=
  forall i j, i < rows -> j < k ->
    entry s1 w1 i j = entry s2 w2 i j.

End Vocabulary.

Section Effects.
Context {O E : Type}.

(** [m] leaves the part [f] of the receiver object as it found it. *)
Definition preserves {A B} (f : O -> B) (m : M (World O E) A) : Prop :=
  forall w, f (self (snd (m w))) = f (self w).

(** [m] leaves the receiver object as it found it. *)
Definition keeps_self {A} (m : M (World O E) A) : Prop :=
  preserves (fun o => o) m.

(** What [m] returns, and what it makes of the receiver, depends on the
    receiver only and not on what was printed before. *)
Definition ignores_stdout {A} (m : M (World O E) A) : Prop :=
  forall w w', self w = self w' ->
    fst (m w) = fst (m w') /\ self (snd (m w)) = self (snd (m w')).

End Effects.

(** The two statements of the specification's error section that the
    constructors are tested against, for given collaborators. *)

(** "hidden_size not divisible by num_units when Multi-Module cell
    selected: fatal at construction." *)
Definition indivisible_is_fatal (X : Externals) : Prop :=
  forall (args : Args Gain) obs_space action_space device out,
    selects_multi_module args = true ->
    (a_hidden_size args mod a_num_units args <> 0)%Z ->
    is_ok (fst (R_Actor.__init__ args obs_space action_space device out)) = false.

(** "Invalid recurrent configuration (zero or conflicting variants
    selected when a recurrent policy is requested): fatal at
    construction." *)
Definition invalid_selection_is_fatal (X : Externals) : Prop :=
  forall (args : Args Gain) obs_space action_space device out,
    requested args = true ->
    variants_set args <> 1 ->
    is_ok (fst (R_Actor.__init__ args obs_space action_space device out)) = false
    /\ is_ok (fst (R_Critic.__init__ args obs_space device out)) = false.


(* ------------------------------------------------------------------ *)
(** ** Vocabulary of the further properties *)

Section Branches.
Context `{Externals}.

(** The tests that lead to the [elif self._use_lstm_policy] branch of
    [R_Actor.forward] and [R_Actor.evaluate_actions]. *)
Definition actor_takes_simple_path (o : R_Actor.obj) : bool :=
  (R_Actor._use_naive_recurrent_policy o || R_Actor._use_recurrent_policy o)
  && negb (R_Actor._use_rims_policy_LSTM o || R_Actor._use_rims_policy_GRU o)
  && R_Actor._use_lstm_policy o.

(** The same tests in [R_Critic.forward]. *)
Definition critic_takes_simple_path (o : R_Critic.obj) : bool :=
  (R_Critic._use_naive_recurrent_policy o || R_Critic._use_recurrent_policy o)
  && negb (R_Critic._use_rims_policy_LSTM o || R_Critic._use_rims_policy_GRU o)
  && R_Critic._use_lstm_policy o.

(** A recurrent policy is requested and none of the branches is taken. *)
Definition actor_takes_no_branch (o : R_Actor.obj) : bool :=
  (R_Actor._use_naive_recurrent_policy o || R_Actor._use_recurrent_policy o)
  && negb (R_Actor._use_rims_policy_LSTM o || R_Actor._use_rims_policy_GRU o)
  && negb (R_Actor._use_lstm_policy o).

Definition critic_takes_no_branch (o : R_Critic.obj) : bool :=
  (R_Critic._use_naive_recurrent_policy o || R_Critic._use_recurrent_policy o)
  && negb (R_Critic._use_rims_policy_LSTM o || R_Critic._use_rims_policy_GRU o)
  && negb (R_Critic._use_lstm_policy o).

(** The class of the object found in [self.rnn]. *)
Inductive UnitClass : Type := no_unit | rim_cell | rnn_layer.

Definition unit_class (r : option RecurrentUnit) : UnitClass :=
  match r with
  | None => no_unit
  | Some (RIMCell_obj _) => rim_cell
  | Some (RNNLayer_obj _) => rnn_layer
  end.

(** The class of unit a branch of [forward] calls. *)
Definition variant_class (v : Spec.Variant) : UnitClass :=
  match v with
  | Spec.MultiModuleLSTM | Spec.MultiModuleGRU => rim_cell
  | Spec.SimpleRecurrent => rnn_layer
  | Spec.Disabled => no_unit
  end.

(** The three lines [forward] and [evaluate_actions] print. *)
Definition diagnostic_lines (method : string) (obs : Tensor Elt) :
    list (Event Elt) :=
  [((method ++ ": obs before base")%string, PTensor (to (check obs)));
   ((method ++ ": nan mask obs")%string, PMask (tmap isnan (to (check obs))));
   ((method ++ ": number of nans")%string,
    PCount (sum_mask (tmap isnan (to (check obs)))))].

End Branches.

Section Output.
Context {O E : Type}.

(** Whether it returns or raises, [m] adds the lines [evs] to the
    standard output and nothing else. *)
Definition prints {A} (m : M (World O E) A) (evs : list (Event E)) : Prop :=
  forall w, stdout (snd (m w)) = (stdout w ++ evs)%list.

End Output.

(** Further objects built on the sample collaborators. *)
Module MoreSamples.

(** An actor and a critic on the Simple-Recurrent path. *)
Definition simple_actor : R_Actor.W :=
  mkWorld (Sample.built_actor "MPE-simple.spread" 8 4 false true false false true) [].

Definition simple_critic : R_Critic.W :=
  mkWorld (Sample.built_critic 8 4 false true false false true) [].

(** A recurrent policy requested with no variant flag. *)
Definition flagless_actor : R_Actor.W :=
  mkWorld (Sample.built_actor "MPE-simple.spread" 8 4 false true false false false) [].

Definition flagless_critic : R_Critic.W :=
  mkWorld (Sample.built_critic 8 4 false true false false false) [].

(** A critic without a recurrent policy. *)
Definition plain_critic : R_Critic.W :=
  mkWorld (Sample.built_critic 8 4 false false false false false) [].

(** A hidden state of rank one, one with no rows, and a stacked one of
    two layers. *)
Definition flat_state : Tensor Z := mkTensor [8] [0; 1; 2; 3; 4; 5; 6; 7]%Z.

Definition empty_state : Tensor Z := mkTensor [0; 8] [].

Definition stacked_state : Tensor Z :=
  mkTensor [2; 2; 8] (map Z.of_nat (seq 0 32)).

(** The state [forward] of the Multi-Module actor returns for
    [iota 2 10]. *)
Definition returned_state : Tensor Z :=
  mkTensor [2; 1; 8]
    [0; 1; 2; 3; 4; 5; 6; 7; 10; 11; 12; 13; 14; 15; 16; 17]%Z.

(** The sample collaborators with an encoder that raises. *)
Definition broken_encoder : Externals := {|
  Elt := Z;
  Gain := Z;
  to_float32 := fun z => z;
  isnan := fun _ => false;
  cuda_is_available := false;
  ObsSpace := list nat;
  ActionSpace := nat;
  get_shape_from_obs_space := fun s => s;
  Encoder := unit;
  Sequential_conv := tt;
  MLPBase := fun _ _ => Ok tt;
  Encoder_call := fun e _ => (Err (ExternalError 1), e);
  RIMCell := Sample.Cell;
  RIMCell_new := fun _ i h n k c v cv => Ok (Sample.mkCell i h n k c v cv);
  RIMCell_call := fun c _ hs cs => (Ok (hs, cs), c);
  RNNLayer := unit;
  RNNLayer_new := fun _ _ _ _ => Ok tt;
  RNNLayer_call := fun l x h _ => (Ok (x, h), l);
  ACTLayer := string;
  mpe_act := fun _ _ _ _ => Ok "mpe_act";
  multiwalker_act := fun _ _ _ _ => Ok "multiwalker_act";
  ACTLayer_call := fun a x _ _ => (Ok (x, x), a);
  ACTLayer_evaluate_actions := fun a x y _ am =>
    (Ok (y, match am with Some m => m | None => x end), a);
  ValueHead := unit;
  PopArt := fun _ _ _ => Ok tt;
  Linear := fun _ _ => Ok tt;
  init := fun v _ => v;
  ValueHead_call := fun v x => (Ok x, v)
|}.

(** An actor and a critic on these collaborators, Multi-Module path. *)
Definition broken_actor : @R_Actor.W broken_encoder :=
  mkWorld
    (@actor_of broken_encoder
       (Sample.args "MPE-simple.spread" 8 4 false true true false false)
       cpu tt (Some (@RIMCell_obj broken_encoder (Sample.mkCell 8 2 4 1 LSTM 64 2)))
       (Some "mpe_act")) [].

Definition broken_critic : @R_Critic.W broken_encoder :=
  mkWorld
    (@critic_of broken_encoder
       (Sample.args "MPE-simple.spread" 8 4 false true true false false)
       cpu tt (Some (@RIMCell_obj broken_encoder (Sample.mkCell 8 2 4 1 LSTM 64 2)))
       tt) [].

End MoreSamples.

(* ================================================================== *)
(** * Properties *)

Local Close Scope string_scope.
Unset Implicit Arguments.

(** ** Reshaping *)

(** The sizes [view(b, nu, -1)] computes, in closed form. *)
Lemma infer_size_batch_units (b : nat) (nu : Z) (n : nat) :
  infer_size [Z.of_nat b; nu; (-1)%Z] n =
  if (0 <? nu)%Z && (0 <? b) && (n mod (b * Z.to_nat nu) =? 0)
  then Ok [b; Z.to_nat nu; n / (b * Z.to_nat nu)]
  else Err RuntimeError.
Proof.
  unfold infer_size. simpl.
  destruct (Z.ltb_spec (Z.of_nat b) (-1)); [lia|].
  destruct (Z.eq_dec (Z.of_nat b) (-1)); [lia|].
  destruct (Z.eqb_spec (Z.of_nat b) (-1)); [lia|].
  simpl. rewrite Nat2Z.id.
  destruct (Z.ltb_spec nu (-1)); simpl.
  { destruct (Z.ltb_spec 0 nu); [lia|reflexivity]. }
  destruct (Z.eq_dec nu (-1)) as [->|Hnu]; [reflexivity|].
  destruct (Z.eqb_spec nu (-1)); [contradiction|].
  simpl. rewrite Nat.mul_1_r.
  destruct (Z.ltb_spec 0 nu) as [Hpos|Hnpos]; simpl.
  - destruct (Nat.ltb_spec 0 b) as [Hb|Hb]; simpl.
    + destruct (Nat.ltb_spec 0 (b * Z.to_nat nu)) as [_|Hk]; [|nia].
      reflexivity.
    + assert (b = 0) by lia; subst b. reflexivity.
  - replace (Z.to_nat nu) with 0 by lia.
    rewrite Nat.mul_0_r. reflexivity.
Qed.

Lemma infer_size_batch_flat (b n : nat) :
  infer_size [Z.of_nat b; (-1)%Z] n =
  if (0 <? b) && (n mod b =? 0) then Ok [b; n / b] else Err RuntimeError.
Proof.
  unfold infer_size. simpl.
  destruct (Z.ltb_spec (Z.of_nat b) (-1)); [lia|].
  destruct (Z.eq_dec (Z.of_nat b) (-1)); [lia|].
  destruct (Z.eqb_spec (Z.of_nat b) (-1)); [lia|].
  simpl. rewrite Nat2Z.id, Nat.mul_1_r. reflexivity.
Qed.

Lemma infer_size_batch_one (b n : nat) :
  infer_size [Z.of_nat b; 1%Z; (-1)%Z] n =
  if (0 <? b) && (n mod b =? 0) then Ok [b; 1; n / b] else Err RuntimeError.
Proof.
  rewrite infer_size_batch_units. simpl.
  change (Pos.to_nat 1) with 1. rewrite Nat.mul_1_r. reflexivity.
Qed.

(** A tensor already of shape (b, nu, q) is its own [view(b, nu, -1)]. *)
Lemma view_batch_units_again {A} (s h : Tensor A) (b : nat) (nu : Z) :
  view s [Z.of_nat b; nu; (-1)%Z] = Ok h ->
  view h [Z.of_nat b; nu; (-1)%Z] = Ok h.
Proof.
  unfold view. rewrite !infer_size_batch_units.
  destruct (Z.ltb_spec 0 nu) as [Hnu|]; [|discriminate].
  destruct (Nat.ltb_spec 0 b) as [Hb|]; [|discriminate].
  destruct (Nat.eqb_spec (numel s mod (b * Z.to_nat nu)) 0) as [Hm|];
    [|discriminate].
  simpl. intros [= <-]. unfold numel. simpl.
  set (k := b * Z.to_nat nu) in *.
  assert (Hk : k <> 0) by (unfold k; nia).
  assert (Hn : b * (Z.to_nat nu * (numel_of (shape s) / k * 1)) = numel_of (shape s)).
  { rewrite Nat.mul_1_r, Nat.mul_assoc. fold k.
    symmetry. apply Nat.Div0.div_exact; assumption. }
  rewrite Hn. fold (numel s). rewrite Hm. simpl. reflexivity.
Qed.

(** ** The methods refine the specification's stages *)

Ltac unfold_py :=
  unfold Spec.Actor_act, Spec.Actor_evaluate, Spec.Critic_estimate,
    Spec.Actor_embed, Spec.diagnostics, Spec.recurrent_stage,
    Spec.MultiModule, Spec.split_packed_state, Spec.flatten_hidden,
    Spec.pack_cell, Spec.convert, option_map,
    bind, ret, lift, raise, attr, print, rbind.

(** The source slices twice and reshapes the second sub-state from the
    first; both reshapes give the same tensor. *)
Ltac split_state :=
  match goal with
  | |- context [getitem_cols ?t ?h] =>
      destruct (getitem_cols t h) as [slice|?]; [|reflexivity];
      destruct (size0 slice) as [batch|?]; [|reflexivity];
      match goal with
      | |- context [view slice ?d] =>
          let Hv := fresh "Hv" in
          destruct (view slice d) as [sub|?] eqn:Hv; [|reflexivity];
          rewrite (view_batch_units_again _ _ _ _ Hv)
      end
  end.

Ltac plain x :=
  lazymatch x with
  | match _ with Ok _ => _ | Err _ => _ end => fail
  | match _ with Some _ => _ | None => _ end => fail
  | let (_, _) := _ in _ => fail
  | if _ then _ else _ => fail
  | _ => idtac
  end.

Ltac crunch :=
  repeat (cbv beta iota;
          match goal with
          | |- ?x = ?x => reflexivity
          | p : (_ * _)%type |- _ => destruct p
          | |- context [match ?x with Ok _ => _ | Err _ => _ end] =>
              plain x; destruct x
          | |- context [match ?x with Some _ => _ | None => _ end] =>
              plain x; destruct x
          | |- context [let (_, _) := ?x in _] => plain x; destruct x
          end);
  try reflexivity.

Section Refinement.
Context `{Externals}.

Lemma actor_forward_refines obs rnn_states masks av det (w : R_Actor.W) :
  R_Actor.forward obs rnn_states masks av det w =
  Spec.Actor_act (Spec.actor_variant (self w)) obs rnn_states masks av det w.
Proof.
  unfold R_Actor.forward. unfold_py.
  unfold R_Actor.call_base. simpl.
  destruct (Encoder_call (R_Actor.base (self w)) (to (check obs)))
    as [[feats|e] b']; [|reflexivity].
  destruct w as [o out]. destruct o. simpl.
  unfold Spec.actor_variant, Spec.selected, Spec.first_match; simpl.
  destruct (_use_naive_recurrent_policy || _use_recurrent_policy);
    [|reflexivity].
  destruct _use_rims_policy_LSTM, _use_rims_policy_GRU, _use_lstm_policy;
    simpl; try reflexivity; split_state; crunch.
Qed.

(** [evaluate_actions], with the test of [_use_policy_active_masks] still
    at the place where the source makes it. *)
Lemma actor_evaluate_staged obs rnn_states action masks av am (w : R_Actor.W) :
  R_Actor.evaluate_actions obs rnn_states action masks av am w =
  ('(embedding, _) <-
     Spec.Actor_embed (Spec.actor_variant (self w)) "evaluate actions"
       obs rnn_states masks ;;
   use_active <- attr R_Actor._use_policy_active_masks ;;
   R_Actor.call_act_evaluate_actions embedding (to (check action))
     (Spec.convert av) (if use_active then Spec.convert am else None)) w.
Proof.
  unfold R_Actor.evaluate_actions. unfold_py.
  unfold R_Actor.call_base. simpl.
  destruct (Encoder_call (R_Actor.base (self w)) (to (check obs)))
    as [[feats|e] b']; [|reflexivity].
  destruct w as [o out]. destruct o. simpl.
  unfold Spec.actor_variant, Spec.selected, Spec.first_match; simpl.
  destruct (_use_naive_recurrent_policy || _use_recurrent_policy);
    [|crunch].
  destruct _use_rims_policy_LSTM, _use_rims_policy_GRU, _use_lstm_policy;
    simpl; try (crunch; fail); split_state; crunch.
Qed.

Lemma critic_forward_refines obs rnn_states masks (w : R_Critic.W) :
  R_Critic.forward obs rnn_states masks w =
  Spec.Critic_estimate (Spec.critic_variant (self w)) obs rnn_states masks w.
Proof.
  unfold R_Critic.forward. unfold_py.
  unfold R_Critic.call_base. simpl.
  destruct (Encoder_call (R_Critic.base (self w)) (to (check obs)))
    as [[feats|e] b']; [|reflexivity].
  destruct w as [o out]. destruct o. simpl.
  unfold Spec.critic_variant, Spec.selected, Spec.first_match; simpl.
  destruct (_use_naive_recurrent_policy || _use_recurrent_policy);
    [|reflexivity].
  destruct _use_rims_policy_LSTM, _use_rims_policy_GRU, _use_lstm_policy;
    simpl; try reflexivity; split_state; crunch.
Qed.

End Refinement.

(** ** The constructors, stage by stage *)

Section ConstructionLemmas.
Context `{Externals}.

Lemma actor_init_stages (args : Args Gain) obs_space action_space device out :
  R_Actor.__init__ args obs_space action_space device out =
  (rbind (build_base args obs_space) (fun b =>
   rbind (build_unit (args_variant args) args) (fun r =>
   rbind (build_head args action_space) (fun a =>
   Ok (actor_of args device b r a)))),
   out ++ [("environment: "%string, PStr (a_env_name args))]).
Proof.
  unfold R_Actor.__init__, build_base, build_unit, build_cell, build_layer,
    build_head, args_variant, Spec.selected, Spec.first_match, actor_of,
    print_out, bind, ret, lift, rbind.
  destruct args; simpl.
  destruct (length (get_shape_from_obs_space obs_space) =? 3);
    [|destruct (MLPBase _ _); [|reflexivity]].
  all: destruct (a_use_naive_recurrent_policy0 || a_use_recurrent_policy0);
    [destruct a_use_rims_policy_LSTM0, a_use_rims_policy_GRU0,
       a_use_lstm_policy0|].
  all: repeat (cbv beta iota;
         match goal with
         | |- ?x = ?x => reflexivity
         | |- context [match ?x with Ok _ => _ | Err _ => _ end] =>
             plain x; destruct x
         | |- context [if ?x then _ else _] => plain x; destruct x
         end).
Qed.

Lemma critic_init_stages (args : Args Gain) obs_space device out :
  R_Critic.__init__ args obs_space device out =
  (rbind (build_base args obs_space) (fun b =>
   rbind (build_unit (args_variant args) args) (fun r =>
   rbind (build_v_out args device) (fun v =>
   Ok (critic_of args device b r v)))),
   out).
Proof.
  unfold R_Critic.__init__, build_base, build_unit, build_cell, build_layer,
    build_v_out, args_variant, Spec.selected, Spec.first_match, critic_of,
    bind, ret, lift, rbind.
  destruct args; simpl.
  destruct (length (get_shape_from_obs_space obs_space) =? 3);
    [|destruct (MLPBase _ _); [|reflexivity]].
  all: destruct (a_use_naive_recurrent_policy0 || a_use_recurrent_policy0);
    [destruct a_use_rims_policy_LSTM0, a_use_rims_policy_GRU0,
       a_use_lstm_policy0|].
  all: repeat (cbv beta iota;
         match goal with
         | |- ?x = ?x => reflexivity
         | |- context [match ?x with Ok _ => _ | Err _ => _ end] =>
             plain x; destruct x
         | |- context [if ?x then _ else _] => plain x; destruct x
         end).
Qed.

End ConstructionLemmas.

(** ** What a method does to the receiver *)

Section EffectLemmas.
Context {O E : Type}.

Lemma preserves_ret {A B} (f : O -> B) (a : A) :
  preserves f (ret a : M (World O E) A).
Proof. intros w. reflexivity. Qed.

Lemma preserves_lift {A B} (f : O -> B) (r : result A) :
  preserves f (lift r : M (World O E) A).
Proof. intros w. reflexivity. Qed.

Lemma preserves_attr {A B} (f : O -> B) (g : O -> A) :
  preserves f (attr g : M (World O E) A).
Proof. intros w. reflexivity. Qed.

Lemma preserves_print {B} (f : O -> B) label (v : Printed E) :
  preserves f (print label v : M (World O E) unit).
Proof. intros w. reflexivity. Qed.

Lemma preserves_bind {A A' B} (f : O -> B) (m : M (World O E) A)
    (k : A -> M (World O E) A') :
  preserves f m -> (forall a, preserves f (k a)) -> preserves f (bind m k).
Proof.
  intros Hm Hk w. unfold bind. specialize (Hm w).
  destruct (m w) as [[a|e] w']; simpl in *.
  - rewrite Hk. exact Hm.
  - exact Hm.
Qed.

Lemma ignores_stdout_ret {A} (a : A) :
  ignores_stdout (ret a : M (World O E) A).
Proof. intros w w' Hw. split; [reflexivity|exact Hw]. Qed.

Lemma ignores_stdout_lift {A} (r : result A) :
  ignores_stdout (lift r : M (World O E) A).
Proof. intros w w' Hw. split; [reflexivity|exact Hw]. Qed.

Lemma ignores_stdout_attr {A} (g : O -> A) :
  ignores_stdout (attr g : M (World O E) A).
Proof. intros w w' Hw. unfold attr; simpl. rewrite Hw. split; reflexivity. Qed.

Lemma ignores_stdout_print label (v : Printed E) :
  ignores_stdout (print label v : M (World O E) unit).
Proof. intros w w' Hw. split; [reflexivity|exact Hw]. Qed.

Lemma ignores_stdout_bind {A A'} (m : M (World O E) A)
    (k : A -> M (World O E) A') :
  ignores_stdout m -> (forall a, ignores_stdout (k a)) ->
  ignores_stdout (bind m k).
Proof.
  intros Hm Hk w w' Hw. unfold bind. destruct (Hm w w' Hw) as [Hr Hs].
  destruct (m w) as [r s], (m w') as [r' s']; simpl in *. subst r'.
  destruct r as [a|e].
  - apply Hk. exact Hs.
  - split; [reflexivity|exact Hs].
Qed.

(** A call that keeps the receiver and ignores the output returns the
    same result when it is made again. *)
Lemma repeatable {A} (m : M (World O E) A) :
  keeps_self m -> ignores_stdout m ->
  forall w, fst (m (snd (m w))) = fst (m w).
Proof.
  intros Hk Hi w. apply Hi. apply Hk.
Qed.

End EffectLemmas.

Ltac effects leaf :=
  repeat (intros;
          match goal with
          | |- preserves _ (bind _ _) => apply preserves_bind
          | |- preserves _ (ret _) => apply preserves_ret
          | |- preserves _ (lift _) => apply preserves_lift
          | |- preserves _ (attr _) => apply preserves_attr
          | |- preserves _ (print _ _) => apply preserves_print
          | |- preserves _ (let (_, _) := ?x in _) => destruct x
          | |- preserves _ (if ?x then _ else _) => destruct x
          | |- ignores_stdout (bind _ _) => apply ignores_stdout_bind
          | |- ignores_stdout (ret _) => apply ignores_stdout_ret
          | |- ignores_stdout (lift _) => apply ignores_stdout_lift
          | |- ignores_stdout (attr _) => apply ignores_stdout_attr
          | |- ignores_stdout (print _ _) => apply ignores_stdout_print
          | |- ignores_stdout (let (_, _) := ?x in _) => destruct x
          | |- ignores_stdout (if ?x then _ else _) => destruct x
          | |- _ => leaf
          end).

Ltac unfold_spec :=
  unfold Spec.Actor_act, Spec.Actor_evaluate, Spec.Critic_estimate,
    Spec.Actor_embed, Spec.diagnostics, Spec.recurrent_stage,
    Spec.MultiModule.

Section ActorEffects.
Context `{Externals}.

Lemma actor_call_base_preserves {B} (f : R_Actor.obj -> B) x :
  (forall b o, f (R_Actor.set_base b o) = f o) ->
  preserves f (R_Actor.call_base x).
Proof.
  intros Hf w. unfold R_Actor.call_base.
  destruct (Encoder_call _ _). simpl. apply Hf.
Qed.

Lemma actor_call_rnn_preserves {B} (f : R_Actor.obj -> B) x a b :
  (forall r o, f (R_Actor.set_rnn r o) = f o) ->
  preserves f (R_Actor.call_rnn x a b).
Proof.
  intros Hf w. unfold R_Actor.call_rnn.
  destruct (R_Actor.rnn (self w)); [|reflexivity].
  destruct (RecurrentUnit_call _ _ _ _). simpl. apply Hf.
Qed.

Lemma actor_call_act_preserves {B} (f : R_Actor.obj -> B) x av det :
  (forall a o, f (R_Actor.set_act a o) = f o) ->
  preserves f (R_Actor.call_act x av det).
Proof.
  intros Hf w. unfold R_Actor.call_act.
  destruct (R_Actor.act (self w)); [|reflexivity].
  destruct (ACTLayer_call _ _ _ _). simpl. apply Hf.
Qed.

Lemma actor_call_act_evaluate_preserves {B} (f : R_Actor.obj -> B) x y av am :
  (forall a o, f (R_Actor.set_act a o) = f o) ->
  preserves f (R_Actor.call_act_evaluate_actions x y av am).
Proof.
  intros Hf w. unfold R_Actor.call_act_evaluate_actions.
  destruct (R_Actor.act (self w)); [|reflexivity].
  destruct (ACTLayer_evaluate_actions _ _ _ _ _). simpl. apply Hf.
Qed.

Lemma RecurrentUnit_call_pure u x a b :
  RIMCell_pure -> RNNLayer_pure -> snd (RecurrentUnit_call u x a b) = u.
Proof.
  intros Hc Hl. destruct u as [c|l]; simpl.
  - specialize (Hc c x a b). destruct (RIMCell_call c x a b); simpl in *.
    now subst.
  - specialize (Hl l x a b). destruct (RNNLayer_call l x a b); simpl in *.
    now subst.
Qed.

Lemma actor_call_base_keeps x :
  Encoder_pure -> keeps_self (R_Actor.call_base x).
Proof.
  intros Hp w. unfold R_Actor.call_base.
  specialize (Hp (R_Actor.base (self w)) x).
  destruct (Encoder_call _ _); simpl in *. subst.
  destruct (self w); reflexivity.
Qed.

Lemma actor_call_rnn_keeps x a b :
  RIMCell_pure -> RNNLayer_pure -> keeps_self (R_Actor.call_rnn x a b).
Proof.
  intros Hc Hl w. unfold R_Actor.call_rnn.
  destruct (R_Actor.rnn (self w)) as [u|] eqn:Hu; [|reflexivity].
  pose proof (RecurrentUnit_call_pure u x a b Hc Hl) as Hp.
  destruct (RecurrentUnit_call _ _ _ _); simpl in *. subst.
  destruct (self w); simpl in *. now subst.
Qed.

Lemma actor_call_act_keeps x av :
  ACTLayer_pure_when_deterministic ->
  keeps_self (R_Actor.call_act x av true).
Proof.
  intros Hp w. unfold R_Actor.call_act.
  destruct (R_Actor.act (self w)) as [a|] eqn:Ha; [|reflexivity].
  specialize (Hp a x av).
  destruct (ACTLayer_call _ _ _ _); simpl in *. subst.
  destruct (self w); simpl in *. now subst.
Qed.

Lemma actor_call_act_evaluate_keeps x y av am :
  ACTLayer_evaluate_pure ->
  keeps_self (R_Actor.call_act_evaluate_actions x y av am).
Proof.
  intros Hp w. unfold R_Actor.call_act_evaluate_actions.
  destruct (R_Actor.act (self w)) as [a|] eqn:Ha; [|reflexivity].
  specialize (Hp a x y av am).
  destruct (ACTLayer_evaluate_actions _ _ _ _ _); simpl in *. subst.
  destruct (self w); simpl in *. now subst.
Qed.

Lemma actor_call_base_ignores x : ignores_stdout (R_Actor.call_base x).
Proof.
  intros w w' Hw. unfold R_Actor.call_base. rewrite Hw.
  destruct (Encoder_call _ _). split; reflexivity.
Qed.

Lemma actor_call_rnn_ignores x a b : ignores_stdout (R_Actor.call_rnn x a b).
Proof.
  intros w w' Hw. unfold R_Actor.call_rnn. rewrite Hw.
  destruct (R_Actor.rnn (self w')); [|split; [reflexivity|exact Hw]].
  destruct (RecurrentUnit_call _ _ _ _). split; reflexivity.
Qed.

Lemma actor_call_act_ignores x av det :
  ignores_stdout (R_Actor.call_act x av det).
Proof.
  intros w w' Hw. unfold R_Actor.call_act. rewrite Hw.
  destruct (R_Actor.act (self w')); [|split; [reflexivity|exact Hw]].
  destruct (ACTLayer_call _ _ _ _). split; reflexivity.
Qed.

Lemma actor_call_act_evaluate_ignores x y av am :
  ignores_stdout (R_Actor.call_act_evaluate_actions x y av am).
Proof.
  intros w w' Hw. unfold R_Actor.call_act_evaluate_actions. rewrite Hw.
  destruct (R_Actor.act (self w')); [|split; [reflexivity|exact Hw]].
  destruct (ACTLayer_evaluate_actions _ _ _ _ _). split; reflexivity.
Qed.

End ActorEffects.

Section CriticEffects.
Context `{Externals}.

Lemma critic_call_base_preserves {B} (f : R_Critic.obj -> B) x :
  (forall b o, f (R_Critic.set_base b o) = f o) ->
  preserves f (R_Critic.call_base x).
Proof.
  intros Hf w. unfold R_Critic.call_base.
  destruct (Encoder_call _ _). simpl. apply Hf.
Qed.

Lemma critic_call_rnn_preserves {B} (f : R_Critic.obj -> B) x a b :
  (forall r o, f (R_Critic.set_rnn r o) = f o) ->
  preserves f (R_Critic.call_rnn x a b).
Proof.
  intros Hf w. unfold R_Critic.call_rnn.
  destruct (R_Critic.rnn (self w)); [|reflexivity].
  destruct (RecurrentUnit_call _ _ _ _). simpl. apply Hf.
Qed.

Lemma critic_call_v_out_preserves {B} (f : R_Critic.obj -> B) x :
  (forall v o, f (R_Critic.set_v_out v o) = f o) ->
  preserves f (R_Critic.call_v_out x).
Proof.
  intros Hf w. unfold R_Critic.call_v_out.
  destruct (ValueHead_call _ _). simpl. apply Hf.
Qed.

Lemma critic_call_base_keeps x :
  Encoder_pure -> keeps_self (R_Critic.call_base x).
Proof.
  intros Hp w. unfold R_Critic.call_base.
  specialize (Hp (R_Critic.base (self w)) x).
  destruct (Encoder_call _ _); simpl in *. subst.
  destruct (self w); reflexivity.
Qed.

Lemma critic_call_rnn_keeps x a b :
  RIMCell_pure -> RNNLayer_pure -> keeps_self (R_Critic.call_rnn x a b).
Proof.
  intros Hc Hl w. unfold R_Critic.call_rnn.
  destruct (R_Critic.rnn (self w)) as [u|] eqn:Hu; [|reflexivity].
  pose proof (RecurrentUnit_call_pure u x a b Hc Hl) as Hp.
  destruct (RecurrentUnit_call _ _ _ _); simpl in *. subst.
  destruct (self w); simpl in *. now subst.
Qed.

Lemma critic_call_v_out_keeps x :
  ValueHead_pure -> keeps_self (R_Critic.call_v_out x).
Proof.
  intros Hp w. unfold R_Critic.call_v_out.
  specialize (Hp (R_Critic.v_out (self w)) x).
  destruct (ValueHead_call _ _); simpl in *. subst.
  destruct (self w); reflexivity.
Qed.

Lemma critic_call_base_ignores x : ignores_stdout (R_Critic.call_base x).
Proof.
  intros w w' Hw. unfold R_Critic.call_base. rewrite Hw.
  destruct (Encoder_call _ _). split; reflexivity.
Qed.

Lemma critic_call_rnn_ignores x a b : ignores_stdout (R_Critic.call_rnn x a b).
Proof.
  intros w w' Hw. unfold R_Critic.call_rnn. rewrite Hw.
  destruct (R_Critic.rnn (self w')); [|split; [reflexivity|exact Hw]].
  destruct (RecurrentUnit_call _ _ _ _). split; reflexivity.
Qed.

Lemma critic_call_v_out_ignores x : ignores_stdout (R_Critic.call_v_out x).
Proof.
  intros w w' Hw. unfold R_Critic.call_v_out. rewrite Hw.
  destruct (ValueHead_call _ _). split; reflexivity.
Qed.

End CriticEffects.

Section CompositeEffects.
Context `{Externals}.

Ltac settings_leaf :=
  first [ apply actor_call_base_preserves
        | apply actor_call_rnn_preserves
        | apply actor_call_act_preserves
        | apply actor_call_act_evaluate_preserves
        | apply critic_call_base_preserves
        | apply critic_call_rnn_preserves
        | apply critic_call_v_out_preserves ];
  intros ? [];  reflexivity.

Ltac ignores_leaf :=
  first [ apply actor_call_base_ignores
        | apply actor_call_rnn_ignores
        | apply actor_call_act_ignores
        | apply actor_call_act_evaluate_ignores
        | apply critic_call_base_ignores
        | apply critic_call_rnn_ignores
        | apply critic_call_v_out_ignores ].

Ltac keeps_leaf :=
  first [ apply actor_call_base_keeps
        | apply actor_call_rnn_keeps
        | apply actor_call_act_keeps
        | apply actor_call_act_evaluate_keeps
        | apply critic_call_base_keeps
        | apply critic_call_rnn_keeps
        | apply critic_call_v_out_keeps ];
  assumption.

(** The encoder and the recurrent stage leave the head and the settings
    of the actor alone. *)
Lemma actor_embed_preserves {B} (f : R_Actor.obj -> B) v method obs h mask :
  (forall b o, f (R_Actor.set_base b o) = f o) ->
  (forall r o, f (R_Actor.set_rnn r o) = f o) ->
  preserves f (Spec.Actor_embed v method obs h mask).
Proof.
  intros Hb Hr. unfold_spec. destruct v.
  all: effects ltac:(first [ apply actor_call_base_preserves; exact Hb
                           | apply actor_call_rnn_preserves; exact Hr ]).
Qed.

Lemma actor_act_settings v obs h mask av det :
  preserves actor_settings (Spec.Actor_act v obs h mask av det).
Proof.
  unfold_spec. destruct v; effects settings_leaf.
Qed.

Lemma actor_evaluate_settings v obs h action mask av am :
  preserves actor_settings (Spec.Actor_evaluate v obs h action mask av am).
Proof.
  unfold_spec. destruct v; effects settings_leaf.
Qed.

Lemma critic_estimate_settings v obs h mask :
  preserves critic_settings (Spec.Critic_estimate v obs h mask).
Proof.
  unfold_spec. destruct v; effects settings_leaf.
Qed.

Lemma actor_act_ignores v obs h mask av det :
  ignores_stdout (Spec.Actor_act v obs h mask av det).
Proof.
  unfold_spec. destruct v; effects ignores_leaf.
Qed.

Lemma actor_evaluate_ignores v obs h action mask av am :
  ignores_stdout (Spec.Actor_evaluate v obs h action mask av am).
Proof.
  unfold_spec. destruct v; effects ignores_leaf.
Qed.

Lemma critic_estimate_ignores v obs h mask :
  ignores_stdout (Spec.Critic_estimate v obs h mask).
Proof.
  unfold_spec. destruct v; effects ignores_leaf.
Qed.

Lemma actor_act_keeps v obs h mask av :
  Encoder_pure -> RIMCell_pure -> RNNLayer_pure ->
  ACTLayer_pure_when_deterministic ->
  keeps_self (Spec.Actor_act v obs h mask av true).
Proof.
  intros He Hc Hl Ha. unfold keeps_self. unfold_spec.
  destruct v; effects keeps_leaf.
Qed.

Lemma actor_evaluate_keeps v obs h action mask av am :
  Encoder_pure -> RIMCell_pure -> RNNLayer_pure -> ACTLayer_evaluate_pure ->
  keeps_self (Spec.Actor_evaluate v obs h action mask av am).
Proof.
  intros He Hc Hl Ha. unfold keeps_self. unfold_spec.
  destruct v; effects keeps_leaf.
Qed.

Lemma critic_estimate_keeps v obs h mask :
  Encoder_pure -> RIMCell_pure -> RNNLayer_pure -> ValueHead_pure ->
  keeps_self (Spec.Critic_estimate v obs h mask).
Proof.
  intros He Hc Hl Hv. unfold keeps_self. unfold_spec.
  destruct v; effects keeps_leaf.
Qed.

End CompositeEffects.

(** ** Slicing and splitting the packed state *)

Lemma firstn_ext {A} (k : nat) (l1 l2 : list A) :
  (forall j, j < k -> nth_error l1 j = nth_error l2 j) ->
  firstn k l1 = firstn k l2.
Proof.
  revert l1 l2. induction k as [|k IH]; intros l1 l2 Hj; [reflexivity|].
  pose proof (Hj 0 ltac:(lia)) as H0.
  destruct l1 as [|x l1], l2 as [|y l2]; simpl in *; try discriminate.
  - reflexivity.
  - injection H0 as ->. f_equal. apply IH. intros j Hlt.
    apply (Hj (S j)). lia.
Qed.

Lemma take_rows_ext {A} (rows w1 w2 k : nat) (d1 d2 : list A) :
  (forall i j, i < rows -> j < k ->
     nth_error d1 (i * w1 + j) = nth_error d2 (i * w2 + j)) ->
  take_rows rows w1 k d1 = take_rows rows w2 k d2.
Proof.
  revert d1 d2. induction rows as [|rows IH]; intros d1 d2 Hij;
    [reflexivity|].
  simpl. f_equal.
  - apply firstn_ext. intros j Hj. apply (Hij 0 j); lia.
  - apply IH. intros i j Hi Hj. rewrite !nth_error_skipn.
    replace (w1 + (i * w1 + j)) with (S i * w1 + j) by lia.
    replace (w2 + (i * w2 + j)) with (S i * w2 + j) by lia.
    apply Hij; lia.
Qed.

Lemma slice_stop_within (stop : Z) (n : nat) :
  (0 <= stop <= Z.of_nat n)%Z -> slice_stop stop n = Z.to_nat stop.
Proof.
  intros Hs. unfold slice_stop.
  destruct (Z.ltb_spec stop 0); lia.
Qed.

(** The slice [t[:, :stop]] of a matrix with at least [stop] columns. *)
Lemma getitem_cols_matrix {A} (t : Tensor A) (b w : nat) (stop : Z) :
  shape t = [b; w] -> (0 <= stop <= Z.of_nat w)%Z ->
  getitem_cols t stop =
  Ok (mkTensor [b; Z.to_nat stop] (take_rows b w (Z.to_nat stop) (data t))).
Proof.
  intros Hsh Hs. unfold getitem_cols. rewrite Hsh. simpl.
  rewrite (slice_stop_within _ _ Hs), !Nat.mul_1_r. reflexivity.
Qed.

Section Split.
Context `{Externals} {S : Type}.

(** Both sub-states are one and the same tensor. *)
Lemma split_packed_state_same hs nu (state h c : Tensor Elt) :
  Spec.split_packed_state hs nu state = Ok (h, c) -> h = c.
Proof.
  unfold Spec.split_packed_state, rbind.
  destruct (getitem_cols state hs); [|discriminate].
  destruct (size0 _); [|discriminate].
  destruct (view _ _); [|discriminate].
  now intros [= <- <-].
Qed.

(** The split of a (b, w) matrix with at least [hs] columns, in closed
    form. *)
Lemma split_packed_state_matrix hs nu (state : Tensor Elt) (b w : nat) :
  shape state = [b; w] -> (0 <= hs <= Z.of_nat w)%Z ->
  Spec.split_packed_state hs nu state =
  if (0 <? nu)%Z && (0 <? b) && ((hs mod nu) =? 0)%Z
  then let sub := mkTensor [b; Z.to_nat nu; Z.to_nat (hs / nu)]
                    (take_rows b w (Z.to_nat hs) (data state)) in
       Ok (sub, sub)
  else Err RuntimeError.
Proof.
  intros Hsh Hs. unfold Spec.split_packed_state.
  rewrite (getitem_cols_matrix _ _ _ _ Hsh Hs). unfold rbind at 1.
  unfold size0 at 1. cbn [shape]. unfold rbind at 1.
  unfold view. rewrite infer_size_batch_units. unfold numel. cbn [shape data].
  cbn [numel_of fold_right]. rewrite Nat.mul_1_r.
  destruct (Z.ltb_spec 0 nu) as [Hnu|]; [|reflexivity].
  destruct (Nat.ltb_spec 0 b) as [Hb|]; [|reflexivity].
  cbn [andb].
  rewrite Nat.Div0.mul_mod_distr_l.
  assert (Hmod : Z.to_nat hs mod Z.to_nat nu = Z.to_nat (hs mod nu)).
  { rewrite Z2Nat.inj_mod; lia. }
  assert (Hdiv : b * Z.to_nat hs / (b * Z.to_nat nu) = Z.to_nat (hs / nu)).
  { rewrite Nat.Div0.div_mul_cancel_l by lia.
    rewrite Z2Nat.inj_div; lia. }
  rewrite Hmod, Hdiv.
  assert (Hrange : (0 <= hs mod nu < nu)%Z) by (apply Z.mod_pos_bound; lia).
  destruct (Z.eqb_spec (hs mod nu) 0) as [Hz|Hz].
  - rewrite Hz. simpl. rewrite Nat.mul_0_r. reflexivity.
  - destruct (Nat.eqb_spec (b * Z.to_nat (hs mod nu)) 0) as [Hn|Hn].
    + exfalso. nia.
    + reflexivity.
Qed.

End Split.

(** ** The path taken and the variant selected *)

Section Paths.
Context `{Externals}.

Lemma actor_rims_path_variant (o : R_Actor.obj) :
  actor_takes_rims_path o = true ->
  Spec.actor_variant o = Spec.MultiModuleLSTM
  \/ Spec.actor_variant o = Spec.MultiModuleGRU.
Proof.
  unfold actor_takes_rims_path, Spec.actor_variant, Spec.selected,
    Spec.first_match.
  destruct (_ || _); [|discriminate].
  destruct (R_Actor._use_rims_policy_LSTM o); [left; reflexivity|].
  destruct (R_Actor._use_rims_policy_GRU o); [right; reflexivity|discriminate].
Qed.

Lemma critic_rims_path_variant (o : R_Critic.obj) :
  critic_takes_rims_path o = true ->
  Spec.critic_variant o = Spec.MultiModuleLSTM
  \/ Spec.critic_variant o = Spec.MultiModuleGRU.
Proof.
  unfold critic_takes_rims_path, Spec.critic_variant, Spec.selected,
    Spec.first_match.
  destruct (_ || _); [|discriminate].
  destruct (R_Critic._use_rims_policy_LSTM o); [left; reflexivity|].
  destruct (R_Critic._use_rims_policy_GRU o); [right; reflexivity|discriminate].
Qed.

(** [evaluate_actions] hands the head the active masks or [None] as the
    flag of the receiver says. *)
Lemma actor_evaluate_refines obs rnn_states action masks av am (w : R_Actor.W) :
  R_Actor.evaluate_actions obs rnn_states action masks av am w =
  Spec.Actor_evaluate (Spec.actor_variant (self w)) obs rnn_states action masks
    av (if R_Actor._use_policy_active_masks (self w)
        then Spec.convert am else None) w.
Proof.
  rewrite actor_evaluate_staged. unfold Spec.Actor_evaluate, bind, attr.
  pose proof (actor_embed_preserves R_Actor._use_policy_active_masks
                (Spec.actor_variant (self w)) "evaluate actions"
                obs rnn_states masks
                ltac:(intros ? []; reflexivity)
                ltac:(intros ? []; reflexivity) w) as Hflag.
  destruct (Spec.Actor_embed _ _ _ _ _ w) as [[[e s]|err] w1]; simpl in *.
  - rewrite Hflag. reflexivity.
  - reflexivity.
Qed.

End Paths.

(** ** Claims *)

Section Claims.
Context `{Externals}.


End Claims.

(** ** Taking a successful call apart *)

Section Inversion.
Context `{Externals}.

Lemma pack_cell_shape (cell s : Tensor Elt) :
  Spec.pack_cell cell = Ok s ->
  data s = data cell
  /\ forall b n q, shape cell = [b; n; q] -> shape s = [b; 1; n * q].
Proof.
  unfold Spec.pack_cell, rbind, size0, view.
  destruct (shape cell) as [|b0 rest] eqn:Hsh; [discriminate|].
  rewrite infer_size_batch_one. unfold rbind, numel. rewrite Hsh.
  destruct (Nat.ltb_spec 0 b0) as [Hb|]; [|discriminate].
  destruct (Nat.eqb_spec (numel_of (b0 :: rest) mod b0) 0); [|discriminate].
  simpl. intros [= <-]. split; [reflexivity|].
  intros b n q [= -> ->]. simpl.
  rewrite Nat.mul_1_r, Nat.mul_comm, Nat.div_mul by lia. reflexivity.
Qed.

Lemma multi_module_inv {S} (call : Tensor Elt -> Tensor Elt -> Tensor Elt ->
                                   M S (Tensor Elt * Tensor Elt))
    hs nu e st (s s' : S) emb' st' :
  Spec.MultiModule call hs nu e st s = (Ok (emb', st'), s') ->
  exists sub x hidden' cell',
    Spec.split_packed_state hs nu st = Ok (sub, sub)
    /\ unsqueeze1 e = Ok x
    /\ call x sub sub s = (Ok (hidden', cell'), s')
    /\ Spec.flatten_hidden hidden' = Ok emb'
    /\ Spec.pack_cell cell' = Ok st'.
Proof.
  unfold Spec.MultiModule, bind, lift, ret.
  destruct (Spec.split_packed_state hs nu st) as [[h c]|] eqn:Hsplit;
    [|discriminate].
  pose proof (split_packed_state_same _ _ _ _ _ Hsplit) as <-.
  destruct (unsqueeze1 e) as [x|] eqn:Hx; [|discriminate].
  destruct (call x h h s) as [[[hidden' cell']|] s1] eqn:Hcall; [|discriminate].
  destruct (Spec.flatten_hidden hidden') eqn:Hf; [|discriminate].
  destruct (Spec.pack_cell cell') eqn:Hp; [|discriminate].
  intros [= <- <- <-].
  exists h, x, hidden', cell'. repeat split; assumption.
Qed.

(** The world in which the encoder of the actor is called. *)
Lemma actor_embed_multi_module_inv v method obs h mask (w w' : R_Actor.W) emb st :
  v = Spec.MultiModuleLSTM \/ v = Spec.MultiModuleGRU ->
  Spec.Actor_embed v method obs h mask w = (Ok (emb, st), w') ->
  exists e w1,
    Spec.MultiModule R_Actor.call_rnn (R_Actor.hidden_size (self w))
      (R_Actor._num_units (self w)) e (to (check h)) w1 = (Ok (emb, st), w').
Proof.
  intros Hv. unfold Spec.Actor_embed, Spec.diagnostics.
  unfold bind at 1 2 3. unfold print at 1 2 3. cbv beta iota.
  unfold bind at 1.
  pose proof (actor_call_base_preserves R_Actor.hidden_size (to (check obs))
                ltac:(intros ? []; reflexivity)) as Hhs.
  pose proof (actor_call_base_preserves R_Actor._num_units (to (check obs))
                ltac:(intros ? []; reflexivity)) as Hnu.
  match goal with
  | |- context [R_Actor.call_base ?x ?w0] =>
      specialize (Hhs w0); specialize (Hnu w0);
      destruct (R_Actor.call_base x w0) as [[e|] w1]; [|discriminate]
  end.
  simpl in Hhs, Hnu.
  unfold bind, attr. cbv beta iota. rewrite Hhs, Hnu.
  destruct Hv as [-> | ->]; simpl; intros Hm; exists e, w1; exact Hm.
Qed.

Lemma actor_act_inv v obs h mask av det (w w' : R_Actor.W) actions lp st :
  Spec.Actor_act v obs h mask av det w = (Ok (actions, lp, st), w') ->
  exists emb w1,
    Spec.Actor_embed v "main forward method" obs h mask w = (Ok (emb, st), w1)
    /\ R_Actor.call_act emb (Spec.convert av) det w1 = (Ok (actions, lp), w').
Proof.
  unfold Spec.Actor_act. unfold bind at 1.
  destruct (Spec.Actor_embed _ _ _ _ _ w) as [[[emb st0]|] w1]; [|discriminate].
  unfold bind, ret.
  destruct (R_Actor.call_act _ _ _ w1) as [[[a l]|] w2] eqn:Hact; [|discriminate].
  intros [= <- <- <- <-]. exists emb, w1. split; [reflexivity|exact Hact].
Qed.

Lemma critic_estimate_multi_module_inv v obs h mask (w w' : R_Critic.W) value st :
  v = Spec.MultiModuleLSTM \/ v = Spec.MultiModuleGRU ->
  Spec.Critic_estimate v obs h mask w = (Ok (value, st), w') ->
  exists e w1 emb w2,
    Spec.MultiModule R_Critic.call_rnn (R_Critic.hidden_size (self w))
      (R_Critic._num_units (self w)) e (to (check h)) w1 = (Ok (emb, st), w2)
    /\ R_Critic.call_v_out emb w2 = (Ok value, w').
Proof.
  intros Hv. unfold Spec.Critic_estimate. unfold bind at 1.
  pose proof (critic_call_base_preserves R_Critic.hidden_size (to (check obs))
                ltac:(intros ? []; reflexivity) w) as Hhs.
  pose proof (critic_call_base_preserves R_Critic._num_units (to (check obs))
                ltac:(intros ? []; reflexivity) w) as Hnu.
  destruct (R_Critic.call_base _ w) as [[e|] w1]; [|discriminate].
  simpl in Hhs, Hnu.
  unfold bind at 1 2. unfold attr. cbv beta iota. rewrite Hhs, Hnu.
  unfold bind at 1.
  assert (Hstage : Spec.recurrent_stage R_Critic.call_rnn v
                     (R_Critic.hidden_size (self w)) (R_Critic._num_units (self w))
                     e (to (check h)) (to (check mask)) w1 =
                   Spec.MultiModule R_Critic.call_rnn
                     (R_Critic.hidden_size (self w)) (R_Critic._num_units (self w))
                     e (to (check h)) w1)
    by (destruct Hv as [-> | ->]; reflexivity).
  rewrite Hstage.
  destruct (Spec.MultiModule _ _ _ _ _ w1) as [[[emb st0]|] w2] eqn:Hm;
    [|discriminate].
  unfold bind, ret.
  destruct (R_Critic.call_v_out emb w2) as [[val|] w3] eqn:Hval; [|discriminate].
  intros [= <- <- <-]. exists e, w1, emb, w2. split; [exact Hm|exact Hval].
Qed.

End Inversion.

Section ClaimsOnThePaths.
Context `{Externals}.

(** C4: on the Multi-Module path the reset mask has no influence: two
    calls of [forward] (of the actor or the critic) or of
    [evaluate_actions] that differ in the [masks] argument only have the
    same outcome -- the same embedding handed on, the same result, the same
    new hidden state and the same state of the module afterwards.  The
    wrapper zeroes nothing. *)
Theorem multi_module_path_ignores_masks
    obs rnn_states action masks1 masks2 av am det
    (wa : R_Actor.W) (wc : R_Critic.W) :
  actor_takes_rims_path (self wa) = true ->
  critic_takes_rims_path (self wc) = true ->
  R_Actor.forward obs rnn_states masks1 av det wa =
  R_Actor.forward obs rnn_states masks2 av det wa
  /\ R_Actor.evaluate_actions obs rnn_states action masks1 av am wa =
     R_Actor.evaluate_actions obs rnn_states action masks2 av am wa
  /\ R_Critic.forward obs rnn_states masks1 wc =
     R_Critic.forward obs rnn_states masks2 wc.
Proof.
  intros Ha Hc.
  rewrite !actor_forward_refines, !actor_evaluate_refines,
    !critic_forward_refines.
  destruct (actor_rims_path_variant _ Ha) as [-> | ->],
           (critic_rims_path_variant _ Hc) as [-> | ->];
    repeat split; reflexivity.
Qed.

(** C5: without a recurrent policy (both [_use_naive_recurrent_policy] and
    [_use_recurrent_policy] off) [R_Actor.forward] is the encoder followed
    by the action head: the hidden state it returns is the input hidden
    state, converted, and the embedding the head receives is the one the
    encoder returned. *)
Theorem disabled_recurrence_passes_through
    obs rnn_states masks av det (w : R_Actor.W) :
  R_Actor._use_naive_recurrent_policy (self w) = false ->
  R_Actor._use_recurrent_policy (self w) = false ->
  R_Actor.forward obs rnn_states masks av det w =
  Spec.Actor_act Spec.Disabled obs rnn_states masks av det w
  /\ forall actions log_probs new_states w',
       R_Actor.forward obs rnn_states masks av det w =
       (Ok (actions, log_probs, new_states), w') ->
       new_states = to (check rnn_states)
       /\ exists embedding w1,
            R_Actor.call_base (to (check obs))
              (snd (Spec.diagnostics "main forward method" (to (check obs)) w))
            = (Ok embedding, w1)
            /\ R_Actor.call_act embedding (Spec.convert av) det w1 =
               (Ok (actions, log_probs), w').
Proof.
  intros Hn Hr.
  assert (Hv : Spec.actor_variant (self w) = Spec.Disabled).
  { unfold Spec.actor_variant, Spec.selected. rewrite Hn, Hr. reflexivity. }
  rewrite actor_forward_refines, Hv. split; [reflexivity|].
  intros actions lp st' w' Hrun.
  destruct (actor_act_inv _ _ _ _ _ _ _ _ _ _ _ Hrun) as (emb & w1 & Hemb & Hact).
  revert Hemb. unfold Spec.Actor_embed. unfold bind at 1.
  destruct (Spec.diagnostics _ _ w) as [[[]|] w0] eqn:Hd;
    [|unfold Spec.diagnostics, bind, print in Hd; discriminate].
  simpl snd. unfold bind at 1.
  destruct (R_Actor.call_base _ w0) as [[e|] w2] eqn:Hb; [|discriminate].
  unfold bind, attr, Spec.recurrent_stage, ret. intros [= <- <- <-].
  split; [reflexivity|].
  exists e, w2. split; [reflexivity|exact Hact].
Qed.

(** C1: on the Multi-Module path, [forward] and [evaluate_actions] of the
    actor and [forward] of the critic run the Multi-Module stage: the
    packed state is split by [split_packed_state], whose two sub-states are
    one and the same reshape of the slice [rnn_states[:, :hidden_size]],
    and it is this pair the cell is called with.  For a packed state that
    is a (batch, width) matrix with at least [hidden_size] columns, the
    sub-state has shape (batch, num_units, hidden_size / num_units) and
    holds the first [hidden_size] columns of every row. *)
Theorem multi_module_substates_share_slice
    obs rnn_states action masks av am det
    (wa : R_Actor.W) (wc : R_Critic.W) :
  actor_takes_rims_path (self wa) = true ->
  critic_takes_rims_path (self wc) = true ->
  (exists v, (v = Spec.MultiModuleLSTM \/ v = Spec.MultiModuleGRU)
     /\ R_Actor.forward obs rnn_states masks av det wa =
        Spec.Actor_act v obs rnn_states masks av det wa
     /\ R_Actor.evaluate_actions obs rnn_states action masks av am wa =
        Spec.Actor_evaluate v obs rnn_states action masks av
          (if R_Actor._use_policy_active_masks (self wa)
           then Spec.convert am else None) wa)
  /\ (exists v, (v = Spec.MultiModuleLSTM \/ v = Spec.MultiModuleGRU)
        /\ R_Critic.forward obs rnn_states masks wc =
           Spec.Critic_estimate v obs rnn_states masks wc)
  /\ (forall actions log_probs new_states wa',
        R_Actor.forward obs rnn_states masks av det wa =
        (Ok (actions, log_probs, new_states), wa') ->
        exists sub x hidden' cell' w1 w2,
          Spec.split_packed_state (R_Actor.hidden_size (self wa))
            (R_Actor._num_units (self wa)) (to (check rnn_states)) =
          Ok (sub, sub)
          /\ R_Actor.call_rnn x sub sub w1 = (Ok (hidden', cell'), w2))
  /\ (forall values new_states wc',
        R_Critic.forward obs rnn_states masks wc =
        (Ok (values, new_states), wc') ->
        exists sub x hidden' cell' w1 w2,
          Spec.split_packed_state (R_Critic.hidden_size (self wc))
            (R_Critic._num_units (self wc)) (to (check rnn_states)) =
          Ok (sub, sub)
          /\ R_Critic.call_rnn x sub sub w1 = (Ok (hidden', cell'), w2))
  /\ (forall hs nu (state h c : Tensor Elt),
        Spec.split_packed_state hs nu state = Ok (h, c) ->
        h = c
        /\ exists slice batch,
             getitem_cols state hs = Ok slice
             /\ size0 slice = Ok batch
             /\ view slice [Z.of_nat batch; nu; (-1)%Z] = Ok h)
  /\ (forall hs nu (state h c : Tensor Elt) b w,
        shape state = [b; w] -> (0 <= hs <= Z.of_nat w)%Z ->
        Spec.split_packed_state hs nu state = Ok (h, c) ->
        h = c
        /\ shape h = [b; Z.to_nat nu; Z.to_nat (hs / nu)]
        /\ data h = take_rows b w (Z.to_nat hs) (data state)).
Proof.
  intros Ha Hc.
  pose proof (actor_rims_path_variant _ Ha) as Hva.
  pose proof (critic_rims_path_variant _ Hc) as Hvc.
  split; [|split; [|split; [|split; [|split]]]].
  - exists (Spec.actor_variant (self wa)). split; [exact Hva|].
    split; [apply actor_forward_refines|apply actor_evaluate_refines].
  - exists (Spec.critic_variant (self wc)). split; [exact Hvc|].
    apply critic_forward_refines.
  - intros actions lp st' wa'. rewrite actor_forward_refines. intros Hrun.
    destruct (actor_act_inv _ _ _ _ _ _ _ _ _ _ _ Hrun)
      as (emb & w1 & Hemb & _).
    destruct (actor_embed_multi_module_inv _ _ _ _ _ _ _ _ _ Hva Hemb)
      as (e & w0 & Hm).
    destruct (multi_module_inv _ _ _ _ _ _ _ _ _ Hm)
      as (sub & x & hidden' & cell' & Hs & _ & Hcall & _).
    exists sub, x, hidden', cell', w0, w1. split; assumption.
  - intros values st' wc'. rewrite critic_forward_refines. intros Hrun.
    destruct (critic_estimate_multi_module_inv _ _ _ _ _ _ _ _ Hvc Hrun)
      as (e & w0 & emb & w2 & Hm & _).
    destruct (multi_module_inv _ _ _ _ _ _ _ _ _ Hm)
      as (sub & x & hidden' & cell' & Hs & _ & Hcall & _).
    exists sub, x, hidden', cell', w0, w2. split; assumption.
  - intros hs nu state h c Hsplit.
    split; [exact (split_packed_state_same _ _ _ _ _ Hsplit)|].
    revert Hsplit. unfold Spec.split_packed_state, rbind.
    destruct (getitem_cols state hs) as [slice|] eqn:Hslice; [|discriminate].
    destruct (size0 slice) as [batch|] eqn:Hsize; [|discriminate].
    destruct (view slice _) as [sub|] eqn:Hview; [|discriminate].
    intros [= <- _]. exists slice, batch.
    split; [reflexivity|]. split; [exact Hsize|exact Hview].
  - intros hs nu state h c b w Hsh Hhs.
    rewrite (split_packed_state_matrix _ _ _ _ _ Hsh Hhs).
    destruct (_ && _); [|discriminate].
    cbv zeta. intros [= <- <-]. repeat split.
Qed.

End ClaimsOnThePaths.


(** ** Columns beyond [hidden_size] *)

Section Columns.
Context `{Externals}.

Lemma getitem_cols_agree (s1 s2 : Tensor Elt) (b w1 w2 : nat) (hs : Z) :
  shape s1 = [b; w1] -> shape s2 = [b; w2] ->
  (0 <= hs <= Z.of_nat (Nat.min w1 w2))%Z ->
  agree_on_columns b (Z.to_nat hs) s1 w1 s2 w2 ->
  getitem_cols (to (check s1)) hs = getitem_cols (to (check s2)) hs.
Proof.
  intros H1 H2 Hhs Hagree.
  rewrite (getitem_cols_matrix (to (check s1)) b w1 hs) by (simpl; auto; lia).
  rewrite (getitem_cols_matrix (to (check s2)) b w2 hs) by (simpl; auto; lia).
  do 2 f_equal. unfold to, check, tmap. cbn [data].
  apply take_rows_ext. intros i j Hi Hj.
  rewrite !nth_error_map. f_equal. apply Hagree; assumption.
Qed.

Lemma split_packed_state_agree (s1 s2 : Tensor Elt) (b w1 w2 : nat) (hs nu : Z) :
  shape s1 = [b; w1] -> shape s2 = [b; w2] ->
  (0 <= hs <= Z.of_nat (Nat.min w1 w2))%Z ->
  agree_on_columns b (Z.to_nat hs) s1 w1 s2 w2 ->
  Spec.split_packed_state hs nu (to (check s1)) =
  Spec.split_packed_state hs nu (to (check s2)).
Proof.
  intros H1 H2 Hhs Hagree. unfold Spec.split_packed_state.
  rewrite (getitem_cols_agree _ _ _ _ _ _ H1 H2 Hhs Hagree). reflexivity.
Qed.





(** What the split gives the cell when it succeeds on a matrix. *)
Lemma split_packed_state_matrix_ok hs nu (state sub c : Tensor Elt) b w :
  shape state = [b; w] -> (0 <= hs <= Z.of_nat w)%Z ->
  Spec.split_packed_state hs nu state = Ok (sub, c) ->
  shape sub = [b; Z.to_nat nu; Z.to_nat (hs / nu)]
  /\ Z.to_nat nu * Z.to_nat (hs / nu) = Z.to_nat hs.
Proof.
  intros Hsh Hhs. rewrite (split_packed_state_matrix _ _ _ _ _ Hsh Hhs).
  destruct (Z.ltb_spec 0 nu) as [Hnu|]; [|discriminate].
  destruct (0 <? b); [|discriminate].
  destruct (Z.eqb_spec (hs mod nu) 0) as [Hm|]; [|discriminate].
  cbv zeta. simpl. intros [= <- _]. split; [reflexivity|].
  rewrite <- Z2Nat.inj_mul by (try apply Z.div_pos; lia).
  f_equal. pose proof (Z.div_mod hs nu ltac:(lia)). lia.
Qed.

End Columns.

(** ** The slice of a packed state of any shape *)

Section Slice.
Context `{Externals}.







End Slice.

Section ClaimOnTheSlice.
Context `{Externals}.


End ClaimOnTheSlice.

(** ** The action head *)

Section Head.
Context `{Externals}.

Lemma build_head_unknown (args : Args Gain) action_space :
  a_env_name args <> "MPE-simple.spread"%string ->
  a_env_name args <> "SISL-multiwalker"%string ->
  build_head args action_space = Ok None.
Proof.
  intros H1 H2. unfold build_head.
  apply String.eqb_neq in H1. apply String.eqb_neq in H2.
  rewrite H1, H2. reflexivity.
Qed.

(** Without a head, what the encoder and the recurrent stage return is
    lost in an [AttributeError]. *)
Lemma actor_act_headless v obs h mask av det (w : R_Actor.W) :
  R_Actor.act (self w) = None ->
  Spec.Actor_act v obs h mask av det w =
  match Spec.Actor_embed v "main forward method" obs h mask w with
  | (Ok _, w1) => (Err (AttributeError "act"), w1)
  | (Err e, w1) => (Err e, w1)
  end.
Proof.
  intros Hnone. unfold Spec.Actor_act. unfold bind at 1.
  pose proof (actor_embed_preserves R_Actor.act v "main forward method"
                obs h mask
                ltac:(intros ? []; reflexivity)
                ltac:(intros ? []; reflexivity) w) as Hact.
  destruct (Spec.Actor_embed _ _ _ _ _ w) as [[[e s]|err] w1]; [|reflexivity].
  simpl in Hact. unfold bind, R_Actor.call_act.
  rewrite Hact, Hnone. reflexivity.
Qed.

Lemma actor_evaluate_headless v obs h action mask av am (w : R_Actor.W) :
  R_Actor.act (self w) = None ->
  Spec.Actor_evaluate v obs h action mask av am w =
  match Spec.Actor_embed v "evaluate actions" obs h mask w with
  | (Ok _, w1) => (Err (AttributeError "act"), w1)
  | (Err e, w1) => (Err e, w1)
  end.
Proof.
  intros Hnone. unfold Spec.Actor_evaluate. unfold bind at 1.
  pose proof (actor_embed_preserves R_Actor.act v "evaluate actions"
                obs h mask
                ltac:(intros ? []; reflexivity)
                ltac:(intros ? []; reflexivity) w) as Hact.
  destruct (Spec.Actor_embed _ _ _ _ _ w) as [[[e s]|err] w1]; [|reflexivity].
  simpl in Hact. unfold R_Actor.call_act_evaluate_actions.
  rewrite Hact, Hnone. reflexivity.
Qed.

End Head.

Section ClaimOnTheHead.
Context `{Externals}.

(** C7: when [env_name] is neither ['MPE-simple.spread'] nor
    ['SISL-multiwalker'], the constructor builds no action head and raises
    nothing on that account: it succeeds whenever the encoder and the
    recurrent unit are built, and the object it returns has no [act]
    attribute.  On an object without that attribute [forward] and
    [evaluate_actions] never return: the call that reaches the head, that
    is, whose encoder and recurrent stage succeed, ends in the
    [AttributeError] for [act]. *)
Theorem unknown_environment_leaves_head_unset
    (args : Args Gain) obs_space action_space device out
    obs rnn_states action masks av am det :
  a_env_name args <> "MPE-simple.spread"%string ->
  a_env_name args <> "SISL-multiwalker"%string ->
  (forall b r,
     build_base args obs_space = Ok b ->
     build_unit (args_variant args) args = Ok r ->
     R_Actor.__init__ args obs_space action_space device out =
     (Ok (actor_of args device b r None),
      out ++ [("environment: "%string, PStr (a_env_name args))]))
  /\ (forall o out',
        R_Actor.__init__ args obs_space action_space device out = (Ok o, out') ->
        R_Actor.act o = None)
  /\ (forall w : R_Actor.W,
        R_Actor.act (self w) = None ->
        is_ok (fst (R_Actor.forward obs rnn_states masks av det w)) = false
        /\ is_ok (fst (R_Actor.evaluate_actions obs rnn_states action masks
                         av am w)) = false
        /\ (forall emb st w1,
              Spec.Actor_embed (Spec.actor_variant (self w))
                "main forward method" obs rnn_states masks w =
              (Ok (emb, st), w1) ->
              R_Actor.forward obs rnn_states masks av det w =
              (Err (AttributeError "act"), w1))
        /\ (forall emb st w1,
              Spec.Actor_embed (Spec.actor_variant (self w))
                "evaluate actions" obs rnn_states masks w =
              (Ok (emb, st), w1) ->
              R_Actor.evaluate_actions obs rnn_states action masks av am w =
              (Err (AttributeError "act"), w1))).
Proof.
  intros H1 H2.
  pose proof (build_head_unknown args action_space H1 H2) as Hhead.
  split; [|split].
  - intros b r Hb Hr. rewrite actor_init_stages, Hb, Hr, Hhead. reflexivity.
  - intros o out'. rewrite actor_init_stages, Hhead.
    destruct (build_base args obs_space); [|discriminate].
    destruct (build_unit _ args); [|discriminate].
    simpl. intros [= <- _]. reflexivity.
  - intros w Hnone.
    rewrite actor_forward_refines, actor_evaluate_refines.
    rewrite (actor_act_headless _ _ _ _ _ _ _ Hnone).
    rewrite (actor_evaluate_headless _ _ _ _ _ _ _ _ Hnone).
    split; [|split; [|split]].
    + destruct (Spec.Actor_embed _ _ _ _ _ w) as [[|] ?]; reflexivity.
    + destruct (Spec.Actor_embed _ _ _ _ _ w) as [[|] ?]; reflexivity.
    + intros emb st w1 ->. reflexivity.
    + intros emb st w1 ->. reflexivity.
Qed.

End ClaimOnTheHead.

Section ClaimOnState.
Context `{Externals}.

(** C8: [forward] and [evaluate_actions] assign no attribute of the
    module: whatever the collaborators do, every setting of the actor and
    of the critic is after the call what it was before.  When the calls of
    the sub-modules leave their own objects alone (the action head in
    deterministic mode), the whole module is unchanged by a call, and the
    same call made again returns the same outputs and the same new hidden
    state: only the standard output has grown. *)
Theorem calls_keep_no_state
    obs rnn_states action masks av am det
    (wa : R_Actor.W) (wc : R_Critic.W) :
  Encoder_pure -> RIMCell_pure -> RNNLayer_pure ->
  ACTLayer_pure_when_deterministic -> ACTLayer_evaluate_pure ->
  ValueHead_pure ->
  (actor_settings (self (snd (R_Actor.forward obs rnn_states masks av det wa)))
   = actor_settings (self wa)
   /\ actor_settings
        (self (snd (R_Actor.evaluate_actions obs rnn_states action masks av am wa)))
      = actor_settings (self wa)
   /\ critic_settings (self (snd (R_Critic.forward obs rnn_states masks wc)))
      = critic_settings (self wc))
  /\ (self (snd (R_Actor.forward obs rnn_states masks av true wa)) = self wa
      /\ fst (R_Actor.forward obs rnn_states masks av true
                (snd (R_Actor.forward obs rnn_states masks av true wa)))
         = fst (R_Actor.forward obs rnn_states masks av true wa))
  /\ (self (snd (R_Actor.evaluate_actions obs rnn_states action masks av am wa))
      = self wa
      /\ fst (R_Actor.evaluate_actions obs rnn_states action masks av am
                (snd (R_Actor.evaluate_actions obs rnn_states action masks
                        av am wa)))
         = fst (R_Actor.evaluate_actions obs rnn_states action masks av am wa))
  /\ (self (snd (R_Critic.forward obs rnn_states masks wc)) = self wc
      /\ fst (R_Critic.forward obs rnn_states masks
                (snd (R_Critic.forward obs rnn_states masks wc)))
         = fst (R_Critic.forward obs rnn_states masks wc)).
Proof.
  intros He Hc Hl Ha Hev Hv.
  split; [|split; [|split]].
  - rewrite actor_forward_refines, actor_evaluate_refines,
      critic_forward_refines.
    split; [apply actor_act_settings|].
    split; [apply actor_evaluate_settings|apply critic_estimate_settings].
  - assert (Hkeep : self (snd (R_Actor.forward obs rnn_states masks av true wa))
                    = self wa).
    { rewrite actor_forward_refines. apply actor_act_keeps; assumption. }
    split; [exact Hkeep|].
    rewrite (actor_forward_refines _ _ _ _ _
               (snd (R_Actor.forward obs rnn_states masks av true wa))).
    rewrite Hkeep, (actor_forward_refines _ _ _ _ _ wa).
    apply repeatable;
      [apply actor_act_keeps; assumption|apply actor_act_ignores].
  - assert (Hkeep : self (snd (R_Actor.evaluate_actions obs rnn_states action
                                 masks av am wa)) = self wa).
    { rewrite actor_evaluate_refines. apply actor_evaluate_keeps; assumption. }
    split; [exact Hkeep|].
    rewrite (actor_evaluate_refines _ _ _ _ _ _
               (snd (R_Actor.evaluate_actions obs rnn_states action masks
                       av am wa))).
    rewrite Hkeep, (actor_evaluate_refines _ _ _ _ _ _ wa).
    apply repeatable;
      [apply actor_evaluate_keeps; assumption|apply actor_evaluate_ignores].
  - assert (Hkeep : self (snd (R_Critic.forward obs rnn_states masks wc))
                    = self wc).
    { rewrite critic_forward_refines. apply critic_estimate_keeps; assumption. }
    split; [exact Hkeep|].
    rewrite (critic_forward_refines _ _ _
               (snd (R_Critic.forward obs rnn_states masks wc))).
    rewrite Hkeep, (critic_forward_refines _ _ _ wc).
    apply repeatable;
      [apply critic_estimate_keeps; assumption|apply critic_estimate_ignores].
Qed.

End ClaimOnState.

(** ** Which unit the constructors build *)

Section Priority.
Context `{Externals}.

Lemma args_variant_requested (args : Args Gain) :
  requested args = true ->
  args_variant args =
  Spec.first_match (a_use_rims_policy_LSTM args) (a_use_rims_policy_GRU args)
    (a_use_lstm_policy args).
Proof.
  unfold requested, args_variant, Spec.selected. intros ->. reflexivity.
Qed.

Lemma actor_init_inv (args : Args Gain) obs_space action_space device out o out' :
  R_Actor.__init__ args obs_space action_space device out = (Ok o, out') ->
  exists b r a,
    build_base args obs_space = Ok b
    /\ build_unit (args_variant args) args = Ok r
    /\ build_head args action_space = Ok a
    /\ o = actor_of args device b r a.
Proof.
  rewrite actor_init_stages.
  destruct (build_base args obs_space) as [b|]; [|discriminate].
  destruct (build_unit _ args) as [r|]; [|discriminate].
  destruct (build_head args action_space) as [a|]; [|discriminate].
  simpl. intros [= <- _]. exists b, r, a. repeat split.
Qed.

Lemma critic_init_inv (args : Args Gain) obs_space device out o out' :
  R_Critic.__init__ args obs_space device out = (Ok o, out') ->
  exists b r v,
    build_base args obs_space = Ok b
    /\ build_unit (args_variant args) args = Ok r
    /\ build_v_out args device = Ok v
    /\ o = critic_of args device b r v.
Proof.
  rewrite critic_init_stages.
  destruct (build_base args obs_space) as [b|]; [|discriminate].
  destruct (build_unit _ args) as [r|]; [|discriminate].
  destruct (build_v_out args device) as [v|]; [|discriminate].
  simpl. intros [= <- _]. exists b, r, v. repeat split.
Qed.

Lemma actor_variant_settings (o o' : R_Actor.obj) :
  actor_settings o = actor_settings o' ->
  Spec.actor_variant o = Spec.actor_variant o'.
Proof.
  unfold actor_settings, Spec.actor_variant.
  intros [= _ _ _ _ _ -> -> -> -> -> _ _ _]. reflexivity.
Qed.

Lemma critic_variant_settings (o o' : R_Critic.obj) :
  critic_settings o = critic_settings o' ->
  Spec.critic_variant o = Spec.critic_variant o'.
Proof.
  unfold critic_settings, Spec.critic_variant.
  intros [= _ _ -> -> -> -> -> _ _ _ _]. reflexivity.
Qed.

End Priority.

Section ClaimOnPriority.
Context `{Externals}.

(** C6: when a recurrent policy is requested the variant flags are tried
    in the order Multi-Module-LSTM, Multi-Module-GRU, Simple-Recurrent and
    the first that is set wins, whatever the others say.  This is the unit
    a successful constructor has assigned to [self.rnn], for the actor and
    for the critic, and it is the variant every later [forward] and
    [evaluate_actions] runs, on any state of the object with the settings
    the constructor gave it. *)
Theorem first_selected_variant_wins
    (args : Args Gain) obs_space action_space device out
    obs rnn_states action masks av am det :
  requested args = true ->
  let v := Spec.first_match (a_use_rims_policy_LSTM args)
             (a_use_rims_policy_GRU args) (a_use_lstm_policy args) in
  (forall o out',
     R_Actor.__init__ args obs_space action_space device out = (Ok o, out') ->
     build_unit v args = Ok (R_Actor.rnn o)
     /\ Spec.actor_variant o = v
     /\ forall w : R_Actor.W,
          actor_settings (self w) = actor_settings o ->
          R_Actor.forward obs rnn_states masks av det w =
          Spec.Actor_act v obs rnn_states masks av det w
          /\ R_Actor.evaluate_actions obs rnn_states action masks av am w =
             Spec.Actor_evaluate v obs rnn_states action masks av
               (if R_Actor._use_policy_active_masks (self w)
                then Spec.convert am else None) w)
  /\ (forall o out',
        R_Critic.__init__ args obs_space device out = (Ok o, out') ->
        build_unit v args = Ok (R_Critic.rnn o)
        /\ Spec.critic_variant o = v
        /\ forall w : R_Critic.W,
             critic_settings (self w) = critic_settings o ->
             R_Critic.forward obs rnn_states masks w =
             Spec.Critic_estimate v obs rnn_states masks w)
  /\ (a_use_rims_policy_LSTM args = true -> v = Spec.MultiModuleLSTM)
  /\ (a_use_rims_policy_LSTM args = false ->
      a_use_rims_policy_GRU args = true -> v = Spec.MultiModuleGRU)
  /\ (a_use_rims_policy_LSTM args = false ->
      a_use_rims_policy_GRU args = false ->
      a_use_lstm_policy args = true -> v = Spec.SimpleRecurrent).
Proof.
  intros Hreq v.
  pose proof (args_variant_requested args Hreq) as Hv. fold v in Hv.
  split; [|split; [|split; [|split]]].
  - intros o out' Hinit.
    destruct (actor_init_inv _ _ _ _ _ _ _ Hinit) as (b & r & a & _ & Hr & _ & ->).
    rewrite Hv in Hr.
    assert (Hvo : Spec.actor_variant (actor_of args device b r a) = v)
      by (rewrite <- Hv; reflexivity).
    split; [exact Hr|]. split; [exact Hvo|].
    intros w Hw.
    rewrite actor_forward_refines, actor_evaluate_refines.
    rewrite (actor_variant_settings _ _ Hw), Hvo. split; reflexivity.
  - intros o out' Hinit.
    destruct (critic_init_inv _ _ _ _ _ _ Hinit) as (b & r & vo & _ & Hr & _ & ->).
    rewrite Hv in Hr.
    assert (Hvo : Spec.critic_variant (critic_of args device b r vo) = v)
      by (rewrite <- Hv; reflexivity).
    split; [exact Hr|]. split; [exact Hvo|].
    intros w Hw.
    rewrite critic_forward_refines.
    rewrite (critic_variant_settings _ _ Hw), Hvo. reflexivity.
  - unfold v. intros ->. reflexivity.
  - unfold v. intros -> ->. reflexivity.
  - unfold v. intros -> -> ->. reflexivity.
Qed.

End ClaimOnPriority.

(** ** Construction with an invalid configuration *)

Section Invalid.
Context `{Externals}.

Lemma build_unit_multi_module (args : Args Gain) :
  selects_multi_module args = true ->
  (a_num_units args <> 0)%Z ->
  build_unit (args_variant args) args =
  rbind (RIMCell_new (if cuda_is_available then cuda else cpu)
           (a_hidden_size args) (a_hidden_size args / a_num_units args)
           (a_num_units args) 1 (cell_kind args) 64
           (a_hidden_size args / a_num_units args))
        (fun cell => Ok (Some (RIMCell_obj cell))).
Proof.
  unfold selects_multi_module, requested, args_variant, Spec.selected,
    Spec.first_match, cell_kind, build_unit, build_cell, floordiv.
  intros Hsel Hnu. apply Z.eqb_neq in Hnu.
  destruct (_ || _); [|discriminate]. simpl in Hsel.
  destruct (a_use_rims_policy_LSTM args).
  - rewrite Hnu. unfold rbind. destruct (RIMCell_new _ _ _ _ _ _ _ _); reflexivity.
  - destruct (a_use_rims_policy_GRU args); [|discriminate].
    rewrite Hnu. unfold rbind. destruct (RIMCell_new _ _ _ _ _ _ _ _); reflexivity.
Qed.

(** The reshape of a slice of [hs] columns into [nu] units fails when
    [nu] does not divide [hs]. *)
Lemma split_packed_state_indivisible hs nu (state : Tensor Elt) b w :
  shape state = [b; w] -> (0 <= hs <= Z.of_nat w)%Z ->
  (hs mod nu <> 0)%Z ->
  Spec.split_packed_state hs nu state = Err RuntimeError.
Proof.
  intros Hsh Hhs Hmod. rewrite (split_packed_state_matrix _ _ _ _ _ Hsh Hhs).
  apply Z.eqb_neq in Hmod. rewrite Hmod, andb_false_r. reflexivity.
Qed.

Lemma actor_embed_indivisible v method obs state mask (w : R_Actor.W) b wd emb base' :
  v = Spec.MultiModuleLSTM \/ v = Spec.MultiModuleGRU ->
  shape state = [b; wd] ->
  (0 <= R_Actor.hidden_size (self w) <= Z.of_nat wd)%Z ->
  (R_Actor.hidden_size (self w) mod R_Actor._num_units (self w) <> 0)%Z ->
  Encoder_call (R_Actor.base (self w)) (to (check obs)) = (Ok emb, base') ->
  fst (Spec.Actor_embed v method obs state mask w) = Err RuntimeError.
Proof.
  intros Hv Hsh Hhs Hmod Henc.
  assert (Hsplit : Spec.split_packed_state (R_Actor.hidden_size (self w))
                     (R_Actor._num_units (self w)) (to (check state)) =
                   Err RuntimeError)
    by (eapply split_packed_state_indivisible; simpl; eauto).
  unfold Spec.Actor_embed, Spec.diagnostics, bind, print, attr,
    R_Actor.call_base. simpl. rewrite Henc.
  destruct w as [o out]. destruct o. simpl in *.
  destruct Hv as [-> | ->]; unfold Spec.recurrent_stage, Spec.MultiModule,
    bind, lift; rewrite Hsplit; reflexivity.
Qed.

End Invalid.

Section ClaimsOnConstruction.
Context `{Externals}.

(** C2, as amended: a hidden size that the number of units does not
    divide is no obstacle to construction.  With a Multi-Module variant
    selected and [num_units] not zero, [R_Actor.__init__] hands the cell
    constructor the floor of hidden_size / num_units as the size of a unit
    and succeeds whenever the encoder, the cell and the head are built.
    The first [forward] on a (batch, width) hidden state of at least
    [hidden_size] columns then fails, in the reshape to
    (batch, num_units, -1), once the encoder has returned. *)
Theorem indivisible_hidden_size_fails_at_first_call
    (args : Args Gain) obs_space action_space device out
    obs rnn_states masks av det (w : R_Actor.W) batch width emb base' :
  selects_multi_module args = true ->
  (a_num_units args <> 0)%Z ->
  actor_takes_rims_path (self w) = true ->
  shape rnn_states = [batch; width] ->
  (0 <= R_Actor.hidden_size (self w) <= Z.of_nat width)%Z ->
  (R_Actor.hidden_size (self w) mod R_Actor._num_units (self w) <> 0)%Z ->
  Encoder_call (R_Actor.base (self w)) (to (check obs)) = (Ok emb, base') ->
  (forall b cell a,
     build_base args obs_space = Ok b ->
     RIMCell_new (if cuda_is_available then cuda else cpu)
       (a_hidden_size args) (a_hidden_size args / a_num_units args)
       (a_num_units args) 1 (cell_kind args) 64
       (a_hidden_size args / a_num_units args) = Ok cell ->
     build_head args action_space = Ok a ->
     R_Actor.__init__ args obs_space action_space device out =
     (Ok (actor_of args device b (Some (RIMCell_obj cell)) a),
      out ++ [("environment: "%string, PStr (a_env_name args))]))
  /\ fst (R_Actor.forward obs rnn_states masks av det w) = Err RuntimeError.
Proof.
  intros Hsel Hnu Hpath Hsh Hhs Hmod Henc. split.
  - intros b cell a Hb Hcell Ha.
    rewrite actor_init_stages, Hb, (build_unit_multi_module _ Hsel Hnu),
      Hcell, Ha. reflexivity.
  - rewrite actor_forward_refines. unfold Spec.Actor_act, bind.
    pose proof (actor_embed_indivisible _ "main forward method" obs rnn_states
                  masks w batch width emb base'
                  (actor_rims_path_variant _ Hpath) Hsh Hhs Hmod Henc) as Hfail.
    destruct (Spec.Actor_embed _ _ _ _ _ w) as [[|] ?]; simpl in Hfail;
      [discriminate|].
    simpl. injection Hfail as ->. reflexivity.
Qed.

(** C3, as amended: a recurrent policy requested with no variant flag, or
    with several, is no obstacle to construction either.  With no variant
    flag the constructors of the actor and of the critic succeed whenever
    the encoder and the head are built and leave [self.rnn] unassigned;
    with several flags they build the first in the order Multi-Module-LSTM,
    Multi-Module-GRU, Simple-Recurrent and succeed whenever that unit, the
    encoder and the head are built. *)
Theorem invalid_selection_builds_silently
    (args : Args Gain) obs_space action_space device out :
  requested args = true ->
  variants_set args <> 1 ->
  (variants_set args = 0 ->
   (forall b a,
      build_base args obs_space = Ok b ->
      build_head args action_space = Ok a ->
      R_Actor.__init__ args obs_space action_space device out =
      (Ok (actor_of args device b None a),
       out ++ [("environment: "%string, PStr (a_env_name args))]))
   /\ (forall b v,
         build_base args obs_space = Ok b ->
         build_v_out args device = Ok v ->
         R_Critic.__init__ args obs_space device out =
         (Ok (critic_of args device b None v), out)))
  /\ (1 < variants_set args ->
      (forall b r a,
         build_base args obs_space = Ok b ->
         build_unit (Spec.first_match (a_use_rims_policy_LSTM args)
                       (a_use_rims_policy_GRU args) (a_use_lstm_policy args))
           args = Ok r ->
         build_head args action_space = Ok a ->
         R_Actor.__init__ args obs_space action_space device out =
         (Ok (actor_of args device b r a),
          out ++ [("environment: "%string, PStr (a_env_name args))]))
      /\ (forall b r v,
            build_base args obs_space = Ok b ->
            build_unit (Spec.first_match (a_use_rims_policy_LSTM args)
                          (a_use_rims_policy_GRU args) (a_use_lstm_policy args))
              args = Ok r ->
            build_v_out args device = Ok v ->
            R_Critic.__init__ args obs_space device out =
            (Ok (critic_of args device b r v), out))
      /\ Spec.first_match (a_use_rims_policy_LSTM args)
           (a_use_rims_policy_GRU args) (a_use_lstm_policy args)
         <> Spec.Disabled).
Proof.
  intros Hreq _.
  pose proof (args_variant_requested args Hreq) as Hv.
  split.
  - intros Hzero.
    assert (Hnone : args_variant args = Spec.Disabled).
    { rewrite Hv. revert Hzero. unfold variants_set, Spec.first_match.
      destruct (a_use_rims_policy_LSTM args), (a_use_rims_policy_GRU args),
        (a_use_lstm_policy args); simpl; intros; (reflexivity || lia). }
    split.
    + intros b a Hb Ha. rewrite actor_init_stages, Hb, Hnone, Ha. reflexivity.
    + intros b v Hb Hvo. rewrite critic_init_stages, Hb, Hnone, Hvo. reflexivity.
  - intros Hmany. split; [|split].
    + intros b r a Hb Hr Ha.
      rewrite actor_init_stages, Hb, Hv, Hr, Ha. reflexivity.
    + intros b r v Hb Hr Hvo.
      rewrite critic_init_stages, Hb, Hv, Hr, Hvo. reflexivity.
    + revert Hmany. unfold variants_set, Spec.first_match.
      destruct (a_use_rims_policy_LSTM args), (a_use_rims_policy_GRU args),
        (a_use_lstm_policy args); simpl; intros; (discriminate || lia).
Qed.

End ClaimsOnConstruction.

(** ** Further properties: the other branches of the recurrent stage *)

Section OtherBranches.
Context `{Externals}.

Lemma actor_simple_path_variant (o : R_Actor.obj) :
  actor_takes_simple_path o = true ->
  Spec.actor_variant o = Spec.SimpleRecurrent.
Proof.
  unfold actor_takes_simple_path, Spec.actor_variant, Spec.selected,
    Spec.first_match.
  destruct (_ || _); [|discriminate].
  destruct (R_Actor._use_rims_policy_LSTM o),
    (R_Actor._use_rims_policy_GRU o), (R_Actor._use_lstm_policy o);
    simpl; intros; (reflexivity || discriminate).
Qed.

Lemma critic_simple_path_variant (o : R_Critic.obj) :
  critic_takes_simple_path o = true ->
  Spec.critic_variant o = Spec.SimpleRecurrent.
Proof.
  unfold critic_takes_simple_path, Spec.critic_variant, Spec.selected,
    Spec.first_match.
  destruct (_ || _); [|discriminate].
  destruct (R_Critic._use_rims_policy_LSTM o),
    (R_Critic._use_rims_policy_GRU o), (R_Critic._use_lstm_policy o);
    simpl; intros; (reflexivity || discriminate).
Qed.

Lemma actor_no_branch_variant (o : R_Actor.obj) :
  actor_takes_no_branch o = true ->
  Spec.actor_variant o = Spec.Disabled.
Proof.
  unfold actor_takes_no_branch, Spec.actor_variant, Spec.selected,
    Spec.first_match.
  destruct (_ || _); [|discriminate].
  destruct (R_Actor._use_rims_policy_LSTM o),
    (R_Actor._use_rims_policy_GRU o), (R_Actor._use_lstm_policy o);
    simpl; intros; (reflexivity || discriminate).
Qed.

Lemma critic_no_branch_variant (o : R_Critic.obj) :
  critic_takes_no_branch o = true ->
  Spec.critic_variant o = Spec.Disabled.
Proof.
  unfold critic_takes_no_branch, Spec.critic_variant, Spec.selected,
    Spec.first_match.
  destruct (_ || _); [|discriminate].
  destruct (R_Critic._use_rims_policy_LSTM o),
    (R_Critic._use_rims_policy_GRU o), (R_Critic._use_lstm_policy o);
    simpl; intros; (reflexivity || discriminate).
Qed.

Lemma diagnostics_run {O} method (obs : Tensor Elt) (w : World O Elt) :
  Spec.diagnostics method obs w =
  (Ok tt,
   mkWorld (self w)
     (((stdout w ++ [((method ++ ": obs before base")%string, PTensor obs)])
       ++ [((method ++ ": nan mask obs")%string, PMask (tmap isnan obs))])
      ++ [((method ++ ": number of nans")%string,
           PCount (sum_mask (tmap isnan obs)))])).
Proof. reflexivity. Qed.

(** The encoder and the layer behind a successful Simple-Recurrent
    stage. *)
Lemma actor_embed_simple_inv method obs h mask (w w' : R_Actor.W) emb' st' :
  Spec.Actor_embed Spec.SimpleRecurrent method obs h mask w =
  (Ok (emb', st'), w') ->
  exists emb w1,
    R_Actor.call_base (to (check obs))
      (snd (Spec.diagnostics method (to (check obs)) w)) = (Ok emb, w1)
    /\ R_Actor.call_rnn emb (to (check h)) (to (check mask)) w1 =
       (Ok (emb', st'), w').
Proof.
  unfold Spec.Actor_embed. unfold bind at 1. rewrite diagnostics_run.
  cbv beta iota. simpl snd. unfold bind at 1.
  destruct (R_Actor.call_base _ _) as [[e|] w1] eqn:Hb; [|discriminate].
  unfold bind, attr, Spec.recurrent_stage. cbv beta iota.
  intros Hrnn. exists e, w1. split; [reflexivity|exact Hrnn].
Qed.

Lemma actor_embed_disabled_inv method obs h mask (w w' : R_Actor.W) emb' st' :
  Spec.Actor_embed Spec.Disabled method obs h mask w = (Ok (emb', st'), w') ->
  st' = to (check h)
  /\ R_Actor.call_base (to (check obs))
       (snd (Spec.diagnostics method (to (check obs)) w)) = (Ok emb', w').
Proof.
  unfold Spec.Actor_embed. unfold bind at 1. rewrite diagnostics_run.
  cbv beta iota. simpl snd. unfold bind at 1.
  destruct (R_Actor.call_base _ _) as [[e|] w1] eqn:Hb; [|discriminate].
  unfold bind, attr, Spec.recurrent_stage, ret. cbv beta iota.
  intros [= <- <- <-]. split; reflexivity.
Qed.

Lemma critic_estimate_simple_inv obs h mask (w w' : R_Critic.W) value st' :
  Spec.Critic_estimate Spec.SimpleRecurrent obs h mask w =
  (Ok (value, st'), w') ->
  exists emb w1 emb' w2,
    R_Critic.call_base (to (check obs)) w = (Ok emb, w1)
    /\ R_Critic.call_rnn emb (to (check h)) (to (check mask)) w1 =
       (Ok (emb', st'), w2)
    /\ R_Critic.call_v_out emb' w2 = (Ok value, w').
Proof.
  unfold Spec.Critic_estimate. unfold bind at 1.
  destruct (R_Critic.call_base _ w) as [[e|] w1] eqn:Hb; [|discriminate].
  unfold bind at 1 2. unfold attr. cbv beta iota. unfold bind at 1.
  unfold Spec.recurrent_stage.
  destruct (R_Critic.call_rnn _ _ _ w1) as [[[emb' st0]|] w2] eqn:Hr;
    [|discriminate].
  unfold bind, ret.
  destruct (R_Critic.call_v_out emb' w2) as [[val|] w3] eqn:Hv; [|discriminate].
  intros [= <- <- <-]. exists e, w1, emb', w2. repeat split; assumption.
Qed.

Lemma critic_estimate_disabled_inv obs h mask (w w' : R_Critic.W) value st' :
  Spec.Critic_estimate Spec.Disabled obs h mask w = (Ok (value, st'), w') ->
  st' = to (check h)
  /\ exists emb w1,
       R_Critic.call_base (to (check obs)) w = (Ok emb, w1)
       /\ R_Critic.call_v_out emb w1 = (Ok value, w').
Proof.
  unfold Spec.Critic_estimate. unfold bind at 1.
  destruct (R_Critic.call_base _ w) as [[e|] w1] eqn:Hb; [|discriminate].
  unfold bind at 1 2. unfold attr. cbv beta iota. unfold bind at 1.
  unfold Spec.recurrent_stage, ret. unfold bind.
  destruct (R_Critic.call_v_out e w1) as [[val|] w3] eqn:Hv; [|discriminate].
  intros [= <- <- <-]. split; [reflexivity|].
  exists e, w1. split; [reflexivity|exact Hv].
Qed.

(** X1: on the Simple-Recurrent path ([_use_lstm_policy] set and neither
    Multi-Module flag) the layer in [self.rnn] is called with the
    embedding the encoder returned, the whole converted hidden state and
    the converted masks; the embedding it returns goes to the head and
    the state it returns is the new hidden state of the call.  The actor
    and the critic do the same. *)
Theorem simple_recurrent_path_calls_layer
    obs rnn_states masks av det (wa : R_Actor.W) (wc : R_Critic.W) :
  actor_takes_simple_path (self wa) = true ->
  critic_takes_simple_path (self wc) = true ->
  R_Actor.forward obs rnn_states masks av det wa =
  Spec.Actor_act Spec.SimpleRecurrent obs rnn_states masks av det wa
  /\ R_Critic.forward obs rnn_states masks wc =
     Spec.Critic_estimate Spec.SimpleRecurrent obs rnn_states masks wc
  /\ (forall actions log_probs new_states wa',
        R_Actor.forward obs rnn_states masks av det wa =
        (Ok (actions, log_probs, new_states), wa') ->
        exists emb w1 emb' w2,
          R_Actor.call_base (to (check obs))
            (snd (Spec.diagnostics "main forward method" (to (check obs)) wa))
          = (Ok emb, w1)
          /\ R_Actor.call_rnn emb (to (check rnn_states)) (to (check masks)) w1
             = (Ok (emb', new_states), w2)
          /\ R_Actor.call_act emb' (Spec.convert av) det w2 =
             (Ok (actions, log_probs), wa'))
  /\ (forall values new_states wc',
        R_Critic.forward obs rnn_states masks wc =
        (Ok (values, new_states), wc') ->
        exists emb w1 emb' w2,
          R_Critic.call_base (to (check obs)) wc = (Ok emb, w1)
          /\ R_Critic.call_rnn emb (to (check rnn_states)) (to (check masks)) w1
             = (Ok (emb', new_states), w2)
          /\ R_Critic.call_v_out emb' w2 = (Ok values, wc')).
Proof.
  intros Ha Hc.
  rewrite actor_forward_refines, critic_forward_refines.
  rewrite (actor_simple_path_variant _ Ha), (critic_simple_path_variant _ Hc).
  split; [reflexivity|]. split; [reflexivity|]. split.
  - intros actions lp st' wa' Hrun.
    destruct (actor_act_inv _ _ _ _ _ _ _ _ _ _ _ Hrun)
      as (emb' & w2 & Hemb & Hact).
    destruct (actor_embed_simple_inv _ _ _ _ _ _ _ _ Hemb)
      as (emb & w1 & Hb & Hr).
    exists emb, w1, emb', w2. repeat split; assumption.
  - intros values st' wc' Hrun.
    apply (critic_estimate_simple_inv _ _ _ _ _ _ _ Hrun).
Qed.

(** X2: a recurrent policy requested with none of the three variant flags
    takes no branch of the recurrent stage: [forward] of the actor and of
    the critic then behave as without recurrence.  The hidden state
    returned is the input hidden state, converted, and the head is called
    with the embedding of the encoder. *)
Theorem recurrence_without_variant_passes_through
    obs rnn_states masks av det (wa : R_Actor.W) (wc : R_Critic.W) :
  actor_takes_no_branch (self wa) = true ->
  critic_takes_no_branch (self wc) = true ->
  R_Actor.forward obs rnn_states masks av det wa =
  Spec.Actor_act Spec.Disabled obs rnn_states masks av det wa
  /\ R_Critic.forward obs rnn_states masks wc =
     Spec.Critic_estimate Spec.Disabled obs rnn_states masks wc
  /\ (forall actions log_probs new_states wa',
        R_Actor.forward obs rnn_states masks av det wa =
        (Ok (actions, log_probs, new_states), wa') ->
        new_states = to (check rnn_states)
        /\ exists emb w1,
             R_Actor.call_base (to (check obs))
               (snd (Spec.diagnostics "main forward method" (to (check obs)) wa))
             = (Ok emb, w1)
             /\ R_Actor.call_act emb (Spec.convert av) det w1 =
                (Ok (actions, log_probs), wa'))
  /\ (forall values new_states wc',
        R_Critic.forward obs rnn_states masks wc =
        (Ok (values, new_states), wc') ->
        new_states = to (check rnn_states)
        /\ exists emb w1,
             R_Critic.call_base (to (check obs)) wc = (Ok emb, w1)
             /\ R_Critic.call_v_out emb w1 = (Ok values, wc')).
Proof.
  intros Ha Hc.
  rewrite actor_forward_refines, critic_forward_refines.
  rewrite (actor_no_branch_variant _ Ha), (critic_no_branch_variant _ Hc).
  split; [reflexivity|]. split; [reflexivity|]. split.
  - intros actions lp st' wa' Hrun.
    destruct (actor_act_inv _ _ _ _ _ _ _ _ _ _ _ Hrun)
      as (emb & w1 & Hemb & Hact).
    destruct (actor_embed_disabled_inv _ _ _ _ _ _ _ _ Hemb) as [-> Hb].
    split; [reflexivity|]. exists emb, w1. split; assumption.
  - intros values st' wc' Hrun.
    apply (critic_estimate_disabled_inv _ _ _ _ _ _ _ Hrun).
Qed.

(** X3: without a recurrent policy (both [_use_naive_recurrent_policy]
    and [_use_recurrent_policy] off) [R_Critic.forward] is the encoder
    followed by the value head: the values are what [self.v_out] returns
    on the embedding of the encoder, and the hidden state returned is the
    input hidden state, converted. *)
Theorem critic_without_recurrence_passes_through
    obs rnn_states masks (w : R_Critic.W) :
  R_Critic._use_naive_recurrent_policy (self w) = false ->
  R_Critic._use_recurrent_policy (self w) = false ->
  R_Critic.forward obs rnn_states masks w =
  Spec.Critic_estimate Spec.Disabled obs rnn_states masks w
  /\ forall values new_states w',
       R_Critic.forward obs rnn_states masks w = (Ok (values, new_states), w') ->
       new_states = to (check rnn_states)
       /\ exists emb w1,
            R_Critic.call_base (to (check obs)) w = (Ok emb, w1)
            /\ R_Critic.call_v_out emb w1 = (Ok values, w').
Proof.
  intros Hn Hr.
  assert (Hv : Spec.critic_variant (self w) = Spec.Disabled).
  { unfold Spec.critic_variant, Spec.selected. rewrite Hn, Hr. reflexivity. }
  rewrite critic_forward_refines, Hv. split; [reflexivity|].
  intros values st' w' Hrun.
  apply (critic_estimate_disabled_inv _ _ _ _ _ _ _ Hrun).
Qed.

End OtherBranches.

(** ** Further properties: hidden states the Multi-Module block rejects
    or reshapes *)

Lemma take_rows_all {A} (rows width : nat) (d : list A) :
  length d = rows * width -> take_rows rows width width d = d.
Proof.
  revert d. induction rows as [|rows IH]; intros d Hlen; simpl in *.
  - destruct d; [reflexivity|discriminate].
  - rewrite IH.
    + apply firstn_skipn.
    + rewrite length_skipn. lia.
Qed.

Lemma slice_stop_all (stop : Z) (n : nat) :
  (Z.of_nat n <= stop)%Z -> slice_stop stop n = n.
Proof.
  intros Hs. unfold slice_stop. destruct (Z.ltb_spec stop 0); lia.
Qed.

Section Malformed.
Context `{Externals}.

Lemma split_packed_state_low_rank hs nu (state : Tensor Elt) :
  length (shape state) < 2 ->
  Spec.split_packed_state hs nu state = Err IndexError.
Proof.
  unfold Spec.split_packed_state, getitem_cols.
  destruct (shape state) as [|b [|w rest]]; simpl; intros; (reflexivity || lia).
Qed.

Lemma split_packed_state_degenerate hs nu (state : Tensor Elt) b w :
  shape state = [b; w] -> (0 <= hs <= Z.of_nat w)%Z ->
  b = 0 \/ (nu <= 0)%Z ->
  Spec.split_packed_state hs nu state = Err RuntimeError.
Proof.
  intros Hsh Hhs Hdeg. rewrite (split_packed_state_matrix _ _ _ _ _ Hsh Hhs).
  destruct Hdeg as [-> | Hnu].
  - rewrite andb_false_r. reflexivity.
  - destruct (Z.ltb_spec 0 nu); [lia|reflexivity].
Qed.

(** The split of a stacked (b, n, f) state of at most [hs] layers. *)
Lemma split_packed_state_stacked hs nu (state sub c : Tensor Elt) b n f :
  shape state = [b; n; f] -> (Z.of_nat n <= hs)%Z ->
  Spec.split_packed_state hs nu state = Ok (sub, c) ->
  shape sub = [b; Z.to_nat nu; n * f / Z.to_nat nu]
  /\ (n * f) mod Z.to_nat nu = 0
  /\ 0 < b /\ (0 < nu)%Z
  /\ data sub = take_rows b (n * f) (n * f) (data state).
Proof.
  intros Hsh Hhs. unfold Spec.split_packed_state, getitem_cols.
  rewrite Hsh. cbv zeta. rewrite (slice_stop_all _ _ Hhs).
  unfold rbind at 1. unfold size0 at 1. cbn [shape]. unfold rbind at 1.
  unfold view. rewrite infer_size_batch_units. unfold numel. cbn [shape data].
  cbn [numel_of fold_right]. rewrite !Nat.mul_1_r.
  destruct (Z.ltb_spec 0 nu) as [Hnu|]; [|discriminate].
  destruct (Nat.ltb_spec 0 b) as [Hb|]; [|discriminate].
  cbn [andb].
  rewrite Nat.Div0.mul_mod_distr_l, Nat.Div0.div_mul_cancel_l by lia.
  destruct (Nat.eqb_spec (b * ((n * f) mod Z.to_nat nu)) 0) as [Hm|];
    [|discriminate].
  simpl. intros [= <- _]. simpl.
  repeat split; try assumption. nia.
Qed.

(** An error of the split is the error of the call, once the encoder has
    returned. *)
Lemma actor_embed_split_error v method obs state mask (w : R_Actor.W)
    emb base' e :
  v = Spec.MultiModuleLSTM \/ v = Spec.MultiModuleGRU ->
  Spec.split_packed_state (R_Actor.hidden_size (self w))
    (R_Actor._num_units (self w)) (to (check state)) = Err e ->
  Encoder_call (R_Actor.base (self w)) (to (check obs)) = (Ok emb, base') ->
  fst (Spec.Actor_embed v method obs state mask w) = Err e.
Proof.
  intros Hv Hsplit Henc.
  unfold Spec.Actor_embed, Spec.diagnostics, bind, print, attr,
    R_Actor.call_base. simpl. rewrite Henc.
  destruct w as [o out]. destruct o. simpl in *.
  destruct Hv as [-> | ->]; unfold Spec.recurrent_stage, Spec.MultiModule,
    bind, lift; rewrite Hsplit; reflexivity.
Qed.

Lemma actor_calls_split_error obs state action masks av am det
    (w : R_Actor.W) emb base' e :
  actor_takes_rims_path (self w) = true ->
  Spec.split_packed_state (R_Actor.hidden_size (self w))
    (R_Actor._num_units (self w)) (to (check state)) = Err e ->
  Encoder_call (R_Actor.base (self w)) (to (check obs)) = (Ok emb, base') ->
  fst (R_Actor.forward obs state masks av det w) = Err e
  /\ fst (R_Actor.evaluate_actions obs state action masks av am w) = Err e.
Proof.
  intros Hpath Hsplit Henc.
  pose proof (actor_rims_path_variant _ Hpath) as Hv.
  rewrite actor_forward_refines, actor_evaluate_refines.
  unfold Spec.Actor_act, Spec.Actor_evaluate, bind.
  pose proof (actor_embed_split_error _ "main forward method" obs state masks
                w emb base' e Hv Hsplit Henc) as Hf.
  pose proof (actor_embed_split_error _ "evaluate actions" obs state masks
                w emb base' e Hv Hsplit Henc) as He.
  destruct (Spec.Actor_embed _ "main forward method" _ _ _ w) as [[|] ?];
    simpl in Hf; [discriminate|].
  destruct (Spec.Actor_embed _ "evaluate actions" _ _ _ w) as [[|] ?];
    simpl in He; [discriminate|].
  injection Hf as ->. injection He as ->. split; reflexivity.
Qed.

(** X4: on the Multi-Module path a hidden state of rank below two cannot be
    sliced by [rnn_states[:, :hidden_size]]: once the encoder has returned,
    [forward] and [evaluate_actions] raise [IndexError], and neither the
    cell nor the head is reached. *)
Theorem multi_module_rejects_state_of_low_rank
    obs rnn_states action masks av am det (w : R_Actor.W) emb base' :
  actor_takes_rims_path (self w) = true ->
  length (shape rnn_states) < 2 ->
  Encoder_call (R_Actor.base (self w)) (to (check obs)) = (Ok emb, base') ->
  fst (R_Actor.forward obs rnn_states masks av det w) = Err IndexError
  /\ fst (R_Actor.evaluate_actions obs rnn_states action masks av am w)
     = Err IndexError.
Proof.
  intros Hpath Hrank Henc.
  apply (actor_calls_split_error _ _ _ _ _ _ _ _ emb base'); try assumption.
  apply split_packed_state_low_rank. exact Hrank.
Qed.

(** X5: on the Multi-Module path a (batch, width) hidden state with no
    rows, or a module whose [num_units] is zero or negative, makes the
    reshape to (batch, num_units, -1) fail: once the encoder has returned,
    [forward] and [evaluate_actions] raise [RuntimeError]. *)
Theorem multi_module_rejects_empty_batch_and_no_units
    obs rnn_states action masks av am det (w : R_Actor.W)
    batch width emb base' :
  actor_takes_rims_path (self w) = true ->
  shape rnn_states = [batch; width] ->
  (0 <= R_Actor.hidden_size (self w) <= Z.of_nat width)%Z ->
  batch = 0 \/ (R_Actor._num_units (self w) <= 0)%Z ->
  Encoder_call (R_Actor.base (self w)) (to (check obs)) = (Ok emb, base') ->
  fst (R_Actor.forward obs rnn_states masks av det w) = Err RuntimeError
  /\ fst (R_Actor.evaluate_actions obs rnn_states action masks av am w)
     = Err RuntimeError.
Proof.
  intros Hpath Hsh Hhs Hdeg Henc.
  apply (actor_calls_split_error _ _ _ _ _ _ _ _ emb base'); try assumption.
  apply (split_packed_state_degenerate _ _ _ batch width); assumption.
Qed.

(** X11: the slice [rnn_states[:, :hidden_size]] cuts the second
    dimension.  For a stacked hidden state of shape (batch, layers,
    features) with at most [hidden_size] layers it cuts nothing, whatever
    the number of features: when [forward] on the Multi-Module path
    returns, the cell was called with sub-states of shape
    (batch, num_units, layers * features / num_units), which hold every
    entry of a well-formed state. *)
Theorem stacked_state_is_cut_along_layers
    obs rnn_states masks av det (w w' : R_Actor.W)
    batch layers features actions log_probs new_states :
  actor_takes_rims_path (self w) = true ->
  shape rnn_states = [batch; layers; features] ->
  (Z.of_nat layers <= R_Actor.hidden_size (self w))%Z ->
  R_Actor.forward obs rnn_states masks av det w =
  (Ok (actions, log_probs, new_states), w') ->
  exists x sub hidden' cell' w1 w2,
    R_Actor.call_rnn x sub sub w1 = (Ok (hidden', cell'), w2)
    /\ shape sub =
       [batch; Z.to_nat (R_Actor._num_units (self w));
        layers * features / Z.to_nat (R_Actor._num_units (self w))]
    /\ (layers * features) mod Z.to_nat (R_Actor._num_units (self w)) = 0
    /\ (length (data rnn_states) = batch * (layers * features) ->
        data sub = data (to (check rnn_states))).
Proof.
  intros Hpath Hsh Hhs. rewrite actor_forward_refines. intros Hrun.
  pose proof (actor_rims_path_variant _ Hpath) as Hv.
  destruct (actor_act_inv _ _ _ _ _ _ _ _ _ _ _ Hrun) as (emb & w1 & Hemb & _).
  destruct (actor_embed_multi_module_inv _ _ _ _ _ _ _ _ _ Hv Hemb)
    as (e & w0 & Hm).
  destruct (multi_module_inv _ _ _ _ _ _ _ _ _ Hm)
    as (sub & x & hidden' & cell' & Hsplit & _ & Hcall & _).
  destruct (split_packed_state_stacked _ _ (to (check rnn_states)) _ _
              batch layers features Hsh Hhs Hsplit)
    as (Hshape & Hmod & _ & _ & Hdata).
  exists x, sub, hidden', cell', w0, w1.
  repeat split; try assumption.
  intros Hlen. rewrite Hdata. apply take_rows_all.
  unfold to, check, tmap. cbn [data]. rewrite length_map. exact Hlen.
Qed.

End Malformed.

(** ** Further properties: construction *)

Section MoreConstruction.
Context `{Externals}.

(** X6: with a Multi-Module variant selected and [num_units] zero the
    constructors of the actor and of the critic raise
    [ZeroDivisionError], from [hidden_size // num_units], as soon as the
    encoder is built: no cell is constructed. *)
Theorem zero_units_is_division_by_zero
    (args : Args Gain) obs_space action_space device out b :
  selects_multi_module args = true ->
  a_num_units args = 0%Z ->
  build_base args obs_space = Ok b ->
  R_Actor.__init__ args obs_space action_space device out =
  (Err ZeroDivisionError,
   out ++ [("environment: "%string, PStr (a_env_name args))])
  /\ R_Critic.__init__ args obs_space device out = (Err ZeroDivisionError, out).
Proof.
  intros Hsel Hnu Hb.
  assert (Hunit : build_unit (args_variant args) args = Err ZeroDivisionError).
  { revert Hsel.
    unfold selects_multi_module, requested, args_variant, Spec.selected,
      Spec.first_match, build_unit, build_cell, floordiv.
    rewrite Hnu. destruct (_ || _); [|discriminate]. simpl.
    destruct (a_use_rims_policy_LSTM args); [reflexivity|].
    destruct (a_use_rims_policy_GRU args); [reflexivity|discriminate]. }
  rewrite actor_init_stages, critic_init_stages, Hb, Hunit. split; reflexivity.
Qed.

Lemma build_unit_class v (args : Args Gain) r :
  build_unit v args = Ok r -> unit_class r = variant_class v.
Proof.
  unfold build_unit, build_cell, build_layer, rbind.
  destruct v.
  - destruct (floordiv _ _); [|discriminate].
    destruct (RIMCell_new _ _ _ _ _ _ _ _); [|discriminate].
    now intros [= <-].
  - destruct (floordiv _ _); [|discriminate].
    destruct (RIMCell_new _ _ _ _ _ _ _ _); [|discriminate].
    now intros [= <-].
  - destruct (RNNLayer_new _ _ _ _); [|discriminate]. now intros [= <-].
  - now intros [= <-].
Qed.

(** X12: the action head is chosen by the exact name of the environment.
    An actor built for ['MPE-simple.spread'] holds the head [mpe_act]
    returned for (action_space, hidden_size, use_orthogonal, gain), an
    actor built for ['SISL-multiwalker'] the head [multiwalker_act]
    returned for the same arguments. *)
Theorem known_environment_builds_its_head
    (args : Args Gain) obs_space action_space device out o out' :
  R_Actor.__init__ args obs_space action_space device out = (Ok o, out') ->
  (a_env_name args = "MPE-simple.spread"%string ->
   exists a, R_Actor.act o = Some a
             /\ mpe_act action_space (a_hidden_size args)
                  (a_use_orthogonal args) (a_gain args) = Ok a)
  /\ (a_env_name args = "SISL-multiwalker"%string ->
      exists a, R_Actor.act o = Some a
                /\ multiwalker_act action_space (a_hidden_size args)
                     (a_use_orthogonal args) (a_gain args) = Ok a).
Proof.
  intros Hinit.
  destruct (actor_init_inv _ _ _ _ _ _ _ Hinit) as (b & r & a & _ & _ & Ha & ->).
  revert Ha. unfold build_head, rbind. split; intros Henv; rewrite Henv in Ha.
  - simpl in Ha. destruct (mpe_act _ _ _ _) as [h|]; [|discriminate].
    injection Ha as <-. exists h. split; reflexivity.
  - simpl in Ha. destruct (multiwalker_act _ _ _ _) as [h|]; [|discriminate].
    injection Ha as <-. exists h. split; reflexivity.
Qed.

End MoreConstruction.

(** ** Further properties: what a call leaves behind *)

Section OutputLemmas.
Context {O E : Type}.

Lemma prints_ret {A} (a : A) : prints (ret a : M (World O E) A) [].
Proof. intros w. simpl. now rewrite app_nil_r. Qed.

Lemma prints_lift {A} (r : result A) : prints (lift r : M (World O E) A) [].
Proof. intros w. simpl. now rewrite app_nil_r. Qed.

Lemma prints_attr {A} (g : O -> A) : prints (attr g : M (World O E) A) [].
Proof. intros w. simpl. now rewrite app_nil_r. Qed.

Lemma prints_bind_silent {A B} (m : M (World O E) A)
    (k : A -> M (World O E) B) evs :
  prints m evs -> (forall a, prints (k a) []) -> prints (bind m k) evs.
Proof.
  intros Hm Hk w. unfold bind. specialize (Hm w).
  destruct (m w) as [[a|e] w1]; simpl in *.
  - rewrite Hk, app_nil_r. exact Hm.
  - exact Hm.
Qed.

Lemma prints_print_bind {B} label (v : Printed E)
    (k : unit -> M (World O E) B) evs :
  (forall a, prints (k a) evs) ->
  prints (bind (print label v) k) ((label, v) :: evs).
Proof.
  intros Hk w. unfold bind, print. rewrite Hk. simpl.
  rewrite <- app_assoc. reflexivity.
Qed.

Lemma prints_print label (v : Printed E) :
  prints (print label v : M (World O E) unit) [(label, v)].
Proof. intros w. reflexivity. Qed.

End OutputLemmas.

Ltac silent leaf :=
  repeat (intros;
          match goal with
          | |- prints (bind (print _ _) _) (_ :: _) => apply prints_print_bind
          | |- prints (bind _ _) _ => apply prints_bind_silent
          | |- prints (print _ _) _ => apply prints_print
          | |- prints (ret _) _ => apply prints_ret
          | |- prints (lift _) _ => apply prints_lift
          | |- prints (attr _) _ => apply prints_attr
          | |- prints (let (_, _) := ?x in _) _ => destruct x
          | |- _ => leaf
          end).

Section CallsLeaveBehind.
Context `{Externals}.

Lemma actor_call_base_silent x : prints (R_Actor.call_base x) [].
Proof.
  intros w. unfold R_Actor.call_base. destruct (Encoder_call _ _).
  simpl. now rewrite app_nil_r.
Qed.

Lemma actor_call_rnn_silent x a b : prints (R_Actor.call_rnn x a b) [].
Proof.
  intros w. unfold R_Actor.call_rnn.
  destruct (R_Actor.rnn (self w)); [destruct (RecurrentUnit_call _ _ _ _)|];
    simpl; now rewrite app_nil_r.
Qed.

Lemma actor_call_act_silent x av det : prints (R_Actor.call_act x av det) [].
Proof.
  intros w. unfold R_Actor.call_act.
  destruct (R_Actor.act (self w)); [destruct (ACTLayer_call _ _ _ _)|];
    simpl; now rewrite app_nil_r.
Qed.

Lemma actor_call_act_evaluate_silent x y av am :
  prints (R_Actor.call_act_evaluate_actions x y av am) [].
Proof.
  intros w. unfold R_Actor.call_act_evaluate_actions.
  destruct (R_Actor.act (self w));
    [destruct (ACTLayer_evaluate_actions _ _ _ _ _)|];
    simpl; now rewrite app_nil_r.
Qed.

Lemma critic_call_base_silent x : prints (R_Critic.call_base x) [].
Proof.
  intros w. unfold R_Critic.call_base. destruct (Encoder_call _ _).
  simpl. now rewrite app_nil_r.
Qed.

Lemma critic_call_rnn_silent x a b : prints (R_Critic.call_rnn x a b) [].
Proof.
  intros w. unfold R_Critic.call_rnn.
  destruct (R_Critic.rnn (self w)); [destruct (RecurrentUnit_call _ _ _ _)|];
    simpl; now rewrite app_nil_r.
Qed.

Lemma critic_call_v_out_silent x : prints (R_Critic.call_v_out x) [].
Proof.
  intros w. unfold R_Critic.call_v_out. destruct (ValueHead_call _ _).
  simpl. now rewrite app_nil_r.
Qed.

Ltac silent_calls :=
  first [ apply actor_call_base_silent
        | apply actor_call_rnn_silent
        | apply actor_call_act_silent
        | apply actor_call_act_evaluate_silent
        | apply critic_call_base_silent
        | apply critic_call_rnn_silent
        | apply critic_call_v_out_silent ].

Lemma actor_act_prints v obs h mask av det :
  prints (Spec.Actor_act v obs h mask av det)
    (diagnostic_lines "main forward method" obs).
Proof.
  unfold diagnostic_lines. unfold_spec. destruct v; silent silent_calls.
Qed.

Lemma actor_evaluate_prints v obs h action mask av am :
  prints (Spec.Actor_evaluate v obs h action mask av am)
    (diagnostic_lines "evaluate actions" obs).
Proof.
  unfold diagnostic_lines. unfold_spec. destruct v; silent silent_calls.
Qed.

Lemma critic_estimate_prints v obs h mask :
  prints (Spec.Critic_estimate v obs h mask) [].
Proof.
  unfold_spec. destruct v; silent silent_calls.
Qed.

(** X9: whether it returns or raises, [R_Actor.forward] adds to the
    standard output its three diagnostic lines -- the converted
    observation, its NaN mask and the number of NaN entries -- and nothing
    else; [evaluate_actions] adds the same three under its own labels.  A
    NaN in the observation is counted, not refused.  [R_Critic.forward]
    prints nothing. *)
Theorem calls_print_their_diagnostics
    obs rnn_states action masks av am det (wa : R_Actor.W) (wc : R_Critic.W) :
  stdout (snd (R_Actor.forward obs rnn_states masks av det wa)) =
  (stdout wa ++ diagnostic_lines "main forward method" obs)%list
  /\ stdout (snd (R_Actor.evaluate_actions obs rnn_states action masks av am wa))
     = (stdout wa ++ diagnostic_lines "evaluate actions" obs)%list
  /\ stdout (snd (R_Critic.forward obs rnn_states masks wc)) = stdout wc.
Proof.
  rewrite actor_forward_refines, actor_evaluate_refines, critic_forward_refines.
  split; [apply actor_act_prints|]. split; [apply actor_evaluate_prints|].
  rewrite critic_estimate_prints. apply app_nil_r.
Qed.

(** X13: an exception of the encoder is the exception of the call.  When
    [self.base] raises [e], [forward] of the actor raises [e] after its
    three diagnostic lines and [forward] of the critic raises [e]; the
    recurrent unit and the head are not called, so [self.rnn], [self.act]
    and [self.v_out] are what they were. *)
Theorem encoder_error_ends_the_call
    obs rnn_states masks av det (wa : R_Actor.W) (wc : R_Critic.W)
    e ba e' bc :
  Encoder_call (R_Actor.base (self wa)) (to (check obs)) = (Err e, ba) ->
  Encoder_call (R_Critic.base (self wc)) (to (check obs)) = (Err e', bc) ->
  R_Actor.forward obs rnn_states masks av det wa =
  (Err e,
   mkWorld (R_Actor.set_base ba (self wa))
     (stdout wa ++ diagnostic_lines "main forward method" obs))
  /\ R_Critic.forward obs rnn_states masks wc =
     (Err e', mkWorld (R_Critic.set_base bc (self wc)) (stdout wc)).
Proof.
  intros Ha Hc. split.
  - unfold R_Actor.forward, bind, print, R_Actor.call_base. simpl.
    rewrite Ha. unfold diagnostic_lines. rewrite <- !app_assoc. reflexivity.
  - unfold R_Critic.forward, bind, R_Critic.call_base. rewrite Hc. reflexivity.
Qed.

Lemma actor_call_rnn_class x a b :
  preserves (fun o => unit_class (R_Actor.rnn o)) (R_Actor.call_rnn x a b).
Proof.
  intros w. unfold R_Actor.call_rnn.
  destruct (R_Actor.rnn (self w)) as [[c|l]|] eqn:Hr; simpl.
  - destruct (RIMCell_call c x a b). simpl.
    destruct (self w); reflexivity.
  - destruct (RNNLayer_call l x a b). simpl.
    destruct (self w); reflexivity.
  - rewrite Hr. reflexivity.
Qed.

Lemma critic_call_rnn_class x a b :
  preserves (fun o => unit_class (R_Critic.rnn o)) (R_Critic.call_rnn x a b).
Proof.
  intros w. unfold R_Critic.call_rnn.
  destruct (R_Critic.rnn (self w)) as [[c|l]|] eqn:Hr; simpl.
  - destruct (RIMCell_call c x a b). simpl.
    destruct (self w); reflexivity.
  - destruct (RNNLayer_call l x a b). simpl.
    destruct (self w); reflexivity.
  - rewrite Hr. reflexivity.
Qed.

Ltac class_calls :=
  first [ apply actor_call_rnn_class
        | apply critic_call_rnn_class
        | apply actor_call_base_preserves; intros ? []; reflexivity
        | apply actor_call_act_preserves; intros ? []; reflexivity
        | apply actor_call_act_evaluate_preserves; intros ? []; reflexivity
        | apply critic_call_base_preserves; intros ? []; reflexivity
        | apply critic_call_v_out_preserves; intros ? []; reflexivity ].

Lemma actor_act_class v obs h mask av det :
  preserves (fun o => unit_class (R_Actor.rnn o))
    (Spec.Actor_act v obs h mask av det).
Proof. unfold_spec. destruct v; effects class_calls. Qed.

Lemma actor_evaluate_class v obs h action mask av am :
  preserves (fun o => unit_class (R_Actor.rnn o))
    (Spec.Actor_evaluate v obs h action mask av am).
Proof. unfold_spec. destruct v; effects class_calls. Qed.

Lemma critic_estimate_class v obs h mask :
  preserves (fun o => unit_class (R_Critic.rnn o))
    (Spec.Critic_estimate v obs h mask).
Proof. unfold_spec. destruct v; effects class_calls. Qed.

(** X10: the object in [self.rnn] is of the class the branches of
    [forward] expect, and stays so.  A constructed actor or critic holds a
    [RIMCell] exactly when its calls take the Multi-Module branch, an
    [RNNLayer] exactly when they take the Simple-Recurrent branch, and no
    unit when they take neither; no call of [forward] or
    [evaluate_actions] changes the class of the unit or removes it. *)
Theorem recurrent_unit_class_is_fixed
    (args : Args Gain) obs_space action_space device out
    (oa : R_Actor.obj) outa (oc : R_Critic.obj) outc
    obs rnn_states action masks av am det :
  R_Actor.__init__ args obs_space action_space device out = (Ok oa, outa) ->
  R_Critic.__init__ args obs_space device out = (Ok oc, outc) ->
  unit_class (R_Actor.rnn oa) = variant_class (Spec.actor_variant oa)
  /\ unit_class (R_Critic.rnn oc) = variant_class (Spec.critic_variant oc)
  /\ (forall w : R_Actor.W,
        unit_class (R_Actor.rnn
          (self (snd (R_Actor.forward obs rnn_states masks av det w))))
        = unit_class (R_Actor.rnn (self w))
        /\ unit_class (R_Actor.rnn
             (self (snd (R_Actor.evaluate_actions obs rnn_states action masks
                           av am w))))
           = unit_class (R_Actor.rnn (self w)))
  /\ (forall w : R_Critic.W,
        unit_class (R_Critic.rnn
          (self (snd (R_Critic.forward obs rnn_states masks w))))
        = unit_class (R_Critic.rnn (self w))).
Proof.
  intros Ha Hc.
  destruct (actor_init_inv _ _ _ _ _ _ _ Ha) as (b & r & a & _ & Hr & _ & ->).
  destruct (critic_init_inv _ _ _ _ _ _ Hc) as (b' & r' & v & _ & Hr' & _ & ->).
  split; [exact (build_unit_class _ _ _ Hr)|].
  split; [exact (build_unit_class _ _ _ Hr')|].
  split.
  - intros w. rewrite actor_forward_refines, actor_evaluate_refines.
    split; [apply actor_act_class|apply actor_evaluate_class].
  - intros w. rewrite critic_forward_refines. apply critic_estimate_class.
Qed.

End CallsLeaveBehind.

(** ** Further properties: from one call to the next *)

Section NextCall.
Context `{Externals}.

(** What [pack_cell] makes of a cell sub-state is split back into that
    sub-state, converted. *)
Lemma split_of_packed hs nu (cell st : Tensor Elt) b n q :
  Spec.pack_cell cell = Ok st ->
  shape cell = [b; n; q] ->
  length (data cell) = b * (n * q) ->
  0 < n * q ->
  hs = Z.of_nat (n * q) -> nu = Z.of_nat n ->
  Spec.split_packed_state hs nu (to (check st)) =
  Ok (to (check cell), to (check cell)).
Proof.
  intros Hpack Hsh Hlen Hpos -> ->.
  destruct (pack_cell_shape _ _ Hpack) as [Hdata Hshape].
  specialize (Hshape _ _ _ Hsh).
  assert (Hb : 0 < b).
  { revert Hpack. unfold Spec.pack_cell, rbind, size0, view. rewrite Hsh.
    rewrite infer_size_batch_one.
    destruct (Nat.ltb_spec 0 b); [intros _; assumption|discriminate]. }
  unfold Spec.split_packed_state, getitem_cols, to, check, tmap.
  cbn [shape data]. rewrite Hshape, Hdata. cbv zeta.
  rewrite slice_stop_all by lia.
  unfold rbind at 1. unfold size0 at 1. cbn [shape]. unfold rbind at 1.
  unfold view. rewrite infer_size_batch_units. unfold numel. cbn [shape data].
  cbn [numel_of fold_right]. rewrite !Nat.mul_1_r, Nat.mul_1_l, Nat2Z.id.
  rewrite take_rows_all by (rewrite length_map; exact Hlen).
  destruct (Z.ltb_spec 0 (Z.of_nat n)) as [_|]; [|nia].
  destruct (Nat.ltb_spec 0 b) as [_|]; [|lia].
  cbn [andb].
  rewrite Nat.Div0.mul_mod_distr_l, Nat.Div0.div_mul_cancel_l by lia.
  rewrite (Nat.mul_comm n q), Nat.Div0.mod_mul, Nat.div_mul by nia.
  rewrite Nat.mul_0_r. simpl. rewrite Hsh. reflexivity.
Qed.

(** X7: the hidden state returned by a call on the Multi-Module path is a
    packed state for the next call.  When the cell returns a well-formed
    cell sub-state of shape (batch, num_units, q) with
    num_units * q = hidden_size, the state [forward] returns is split by
    the next call into that cell sub-state, converted, for both arguments
    of the cell: the hidden sub-state the cell returned is not carried
    over. *)
Theorem returned_state_feeds_next_call
    obs rnn_states masks av det (w w' : R_Actor.W)
    actions log_probs new_states :
  actor_takes_rims_path (self w) = true ->
  R_Actor.forward obs rnn_states masks av det w =
  (Ok (actions, log_probs, new_states), w') ->
  exists x sub hidden' cell' w1 w2,
    R_Actor.call_rnn x sub sub w1 = (Ok (hidden', cell'), w2)
    /\ Spec.pack_cell cell' = Ok new_states
    /\ forall b n q,
         shape cell' = [b; n; q] ->
         length (data cell') = b * (n * q) ->
         0 < n * q ->
         R_Actor.hidden_size (self w) = Z.of_nat (n * q) ->
         R_Actor._num_units (self w) = Z.of_nat n ->
         Spec.split_packed_state (R_Actor.hidden_size (self w))
           (R_Actor._num_units (self w)) (to (check new_states)) =
         Ok (to (check cell'), to (check cell')).
Proof.
  intros Hpath. rewrite actor_forward_refines. intros Hrun.
  pose proof (actor_rims_path_variant _ Hpath) as Hv.
  destruct (actor_act_inv _ _ _ _ _ _ _ _ _ _ _ Hrun) as (emb & w1 & Hemb & _).
  destruct (actor_embed_multi_module_inv _ _ _ _ _ _ _ _ _ Hv Hemb)
    as (e & w0 & Hm).
  destruct (multi_module_inv _ _ _ _ _ _ _ _ _ Hm)
    as (sub & x & hidden' & cell' & _ & _ & Hcall & _ & Hpack).
  exists x, sub, hidden', cell', w0, w1.
  split; [exact Hcall|]. split; [exact Hpack|].
  intros b n q Hsh Hlen Hpos Hhs Hnu.
  apply (split_of_packed _ _ _ _ b n q); assumption.
Qed.

Ltac ignores_calls :=
  first [ apply actor_call_base_ignores
        | apply actor_call_rnn_ignores
        | apply actor_call_act_ignores
        | apply actor_call_act_evaluate_ignores ].

(** The labels of the diagnostics do not reach the embedding. *)
Lemma actor_embed_label v method1 method2 obs h mask (w : R_Actor.W) :
  fst (Spec.Actor_embed v method1 obs h mask w) =
  fst (Spec.Actor_embed v method2 obs h mask w)
  /\ self (snd (Spec.Actor_embed v method1 obs h mask w)) =
     self (snd (Spec.Actor_embed v method2 obs h mask w)).
Proof.
  unfold Spec.Actor_embed. unfold bind at 1 6. rewrite !diagnostics_run.
  cbv beta iota.
  match goal with
  | |- fst (?rest ?w1) = fst (?rest' ?w2) /\ _ =>
      assert (Hrest : ignores_stdout rest)
  end.
  { unfold Spec.recurrent_stage, Spec.MultiModule.
    destruct v; effects ignores_calls. }
  apply Hrest. reflexivity.
Qed.

(** X8: [forward] and [evaluate_actions] compute one embedding.  When
    [forward] returns, the embedding and the module its head is called on
    are those on which [evaluate_actions], for the same observation,
    hidden state and masks, calls the head's [evaluate_actions]; the two
    calls differ in the labels of their diagnostic lines only. *)
Theorem forward_and_evaluate_share_embedding
    obs rnn_states action masks av am det (w w' : R_Actor.W)
    actions log_probs new_states :
  R_Actor.forward obs rnn_states masks av det w =
  (Ok (actions, log_probs, new_states), w') ->
  exists emb w1 w2,
    self w1 = self w2
    /\ R_Actor.call_act emb (Spec.convert av) det w1 =
       (Ok (actions, log_probs), w')
    /\ R_Actor.evaluate_actions obs rnn_states action masks av am w =
       R_Actor.call_act_evaluate_actions emb (to (check action))
         (Spec.convert av)
         (if R_Actor._use_policy_active_masks (self w)
          then Spec.convert am else None) w2.
Proof.
  rewrite actor_forward_refines, actor_evaluate_refines. intros Hrun.
  destruct (actor_act_inv _ _ _ _ _ _ _ _ _ _ _ Hrun) as (emb & w1 & Hemb & Hact).
  destruct (actor_embed_label (Spec.actor_variant (self w))
              "main forward method" "evaluate actions" obs rnn_states masks w)
    as [Hfst Hself].
  rewrite Hemb in Hfst, Hself. simpl in Hfst, Hself.
  unfold Spec.Actor_evaluate, bind.
  destruct (Spec.Actor_embed _ "evaluate actions" _ _ _ w) as [r2 w2].
  simpl in Hfst, Hself. subst r2.
  exists emb, w1, w2. split; [exact Hself|]. split; [exact Hact|reflexivity].
Qed.

End NextCall.

(** ** Runs on the sample collaborators *)

#[local] Existing Instance Sample.collaborators.

(** A run of C4 on the sample collaborators: an actor and a critic on the
    Multi-Module path, two different masks. *)
Lemma multi_module_path_ignores_masks_witness :
  R_Actor.forward (Sample.iota 2 3) (Sample.iota 2 10) (Sample.iota 2 1)
    None true Sample.rims_actor =
  R_Actor.forward (Sample.iota 2 3) (Sample.iota 2 10) (mkTensor [2; 1] [0%Z; 0%Z])
    None true Sample.rims_actor
  /\ R_Actor.evaluate_actions (Sample.iota 2 3) (Sample.iota 2 10)
       (Sample.iota 2 1) (Sample.iota 2 1) None None Sample.rims_actor =
     R_Actor.evaluate_actions (Sample.iota 2 3) (Sample.iota 2 10)
       (Sample.iota 2 1) (mkTensor [2; 1] [0%Z; 0%Z]) None None Sample.rims_actor
  /\ R_Critic.forward (Sample.iota 2 3) (Sample.iota 2 10) (Sample.iota 2 1)
       Sample.rims_critic =
     R_Critic.forward (Sample.iota 2 3) (Sample.iota 2 10)
       (mkTensor [2; 1] [0%Z; 0%Z]) Sample.rims_critic.
Proof.
  apply (@multi_module_path_ignores_masks Sample.collaborators); reflexivity.
Defined.

(** A run of C5 on the sample collaborators. *)
Lemma disabled_recurrence_passes_through_witness :
  R_Actor.forward (Sample.iota 2 3) (Sample.iota 2 8) (Sample.iota 2 1)
    None true Sample.plain_actor =
  Spec.Actor_act Spec.Disabled (Sample.iota 2 3) (Sample.iota 2 8)
    (Sample.iota 2 1) None true Sample.plain_actor
  /\ forall actions log_probs new_states w',
       R_Actor.forward (Sample.iota 2 3) (Sample.iota 2 8) (Sample.iota 2 1)
         None true Sample.plain_actor =
       (Ok (actions, log_probs, new_states), w') ->
       new_states = to (check (Sample.iota 2 8))
       /\ exists embedding w1,
            R_Actor.call_base (to (check (Sample.iota 2 3)))
              (snd (Spec.diagnostics "main forward method"
                      (to (check (Sample.iota 2 3))) Sample.plain_actor))
            = (Ok embedding, w1)
            /\ R_Actor.call_act embedding (Spec.convert None) true w1 =
               (Ok (actions, log_probs), w').
Proof.
  apply (@disabled_recurrence_passes_through Sample.collaborators);
    reflexivity.
Defined.

(** A run of C1 on the sample collaborators: the actor on the
    Multi-Module path splits the packed state and calls its cell with one
    sub-state twice. *)
Lemma multi_module_substates_share_slice_witness :
  (exists v, (v = Spec.MultiModuleLSTM \/ v = Spec.MultiModuleGRU)
     /\ R_Actor.forward (Sample.iota 2 3) (Sample.iota 2 10) (Sample.iota 2 1)
          None true Sample.rims_actor =
        Spec.Actor_act v (Sample.iota 2 3) (Sample.iota 2 10) (Sample.iota 2 1)
          None true Sample.rims_actor
     /\ R_Actor.evaluate_actions (Sample.iota 2 3) (Sample.iota 2 10)
          (Sample.iota 2 1) (Sample.iota 2 1) None None Sample.rims_actor =
        Spec.Actor_evaluate v (Sample.iota 2 3) (Sample.iota 2 10)
          (Sample.iota 2 1) (Sample.iota 2 1) None
          (if R_Actor._use_policy_active_masks (self Sample.rims_actor)
           then Spec.convert None else None) Sample.rims_actor)
  /\ (exists v, (v = Spec.MultiModuleLSTM \/ v = Spec.MultiModuleGRU)
        /\ R_Critic.forward (Sample.iota 2 3) (Sample.iota 2 10)
             (Sample.iota 2 1) Sample.rims_critic =
           Spec.Critic_estimate v (Sample.iota 2 3) (Sample.iota 2 10)
             (Sample.iota 2 1) Sample.rims_critic).
Proof.
  destruct (@multi_module_substates_share_slice Sample.collaborators
              (Sample.iota 2 3) (Sample.iota 2 10) (Sample.iota 2 1)
              (Sample.iota 2 1) None None true
              Sample.rims_actor Sample.rims_critic eq_refl eq_refl)
    as (Ha & Hc & _).
  split; [exact Ha|exact Hc].
Defined.



(** A run of C7 on the sample collaborators: the environment "football". *)
Lemma unknown_environment_leaves_head_unset_witness :
  R_Actor.act (self Sample.headless_actor) = None
  /\ R_Actor.forward (Sample.iota 2 3) (Sample.iota 2 8) (Sample.iota 2 1)
       None true Sample.headless_actor =
     (Err (AttributeError "act"),
      snd (Spec.Actor_embed Spec.Disabled "main forward method"
             (Sample.iota 2 3) (Sample.iota 2 8) (Sample.iota 2 1)
             Sample.headless_actor)).
Proof.
  destruct (@unknown_environment_leaves_head_unset Sample.collaborators
              (Sample.args "football" 8 4 false false false false false)
              [4] 5 cpu []
              (Sample.iota 2 3) (Sample.iota 2 8) (Sample.iota 2 1)
              (Sample.iota 2 1) None None true
              ltac:(discriminate) ltac:(discriminate))
    as (_ & Hunset & Hfail).
  split.
  - apply (Hunset _ [("environment: "%string, PStr "football"%string)]).
    reflexivity.
  - destruct (Hfail Sample.headless_actor eq_refl) as (_ & _ & Hforward & _).
    eapply Hforward. reflexivity.
Defined.

(** A run of C8 on the sample collaborators, none of which changes its
    object. *)
Lemma calls_keep_no_state_witness :
  self (snd (R_Actor.forward (Sample.iota 2 3) (Sample.iota 2 10)
               (Sample.iota 2 1) None true Sample.rims_actor))
  = self Sample.rims_actor
  /\ fst (R_Actor.forward (Sample.iota 2 3) (Sample.iota 2 10)
            (Sample.iota 2 1) None true
            (snd (R_Actor.forward (Sample.iota 2 3) (Sample.iota 2 10)
                    (Sample.iota 2 1) None true Sample.rims_actor)))
     = fst (R_Actor.forward (Sample.iota 2 3) (Sample.iota 2 10)
              (Sample.iota 2 1) None true Sample.rims_actor).
Proof.
  exact (proj1 (proj2
    (@calls_keep_no_state Sample.collaborators
       (Sample.iota 2 3) (Sample.iota 2 10) (Sample.iota 2 1) (Sample.iota 2 1)
       None None true Sample.rims_actor Sample.rims_critic
       (fun _ _ => eq_refl) (fun _ _ _ _ => eq_refl) (fun _ _ _ _ => eq_refl)
       (fun _ _ _ => eq_refl) (fun _ _ _ _ _ => eq_refl)
       (fun _ _ => eq_refl)))).
Defined.

(** A run of C6 on the sample collaborators: all three variant flags are
    set, and the constructor has built the LSTM-flavoured Multi-Module
    cell. *)
Lemma first_selected_variant_wins_witness :
  build_unit Spec.MultiModuleLSTM
    (Sample.args "MPE-simple.spread" 8 4 false true true true true) =
  Ok (R_Actor.rnn
        (Sample.built_actor "MPE-simple.spread" 8 4 false true true true true))
  /\ Spec.actor_variant
       (Sample.built_actor "MPE-simple.spread" 8 4 false true true true true) =
     Spec.MultiModuleLSTM.
Proof.
  destruct (@first_selected_variant_wins Sample.collaborators
              (Sample.args "MPE-simple.spread" 8 4 false true true true true)
              [4] 5 cpu []
              (Sample.iota 2 3) (Sample.iota 2 10) (Sample.iota 2 1)
              (Sample.iota 2 1) None None true eq_refl)
    as (Hactor & _).
  destruct (Hactor
              (Sample.built_actor "MPE-simple.spread" 8 4 false true true true true)
              [("environment: "%string, PStr "MPE-simple.spread"%string)]
              eq_refl)
    as (Hunit & Hvariant & _).
  split; [exact Hunit|exact Hvariant].
Defined.

(** C2 fails on the source: with hidden size 63 in 4 units the actor is
    built, its cell with units of size 15. *)
Lemma indivisible_is_not_fatal :
  ~ indivisible_is_fatal Sample.collaborators.
Proof.
  intros Hfatal.
  specialize (Hfatal
                (Sample.args "MPE-simple.spread" 63 4 false true true false false)
                [4] 5 cpu [] eq_refl ltac:(discriminate)).
  discriminate Hfatal.
Qed.

(** A run of amended C2 on the sample collaborators: the actor of hidden
    size 63 in 4 units is built, and its first [forward] fails. *)
Lemma indivisible_hidden_size_fails_at_first_call_witness :
  R_Actor.__init__
    (Sample.args "MPE-simple.spread" 63 4 false true true false false)
    [4] 5 cpu [] =
  (Ok (actor_of
         (Sample.args "MPE-simple.spread" 63 4 false true true false false)
         cpu tt (Some (RIMCell_obj (Sample.mkCell 63 15 4 1 LSTM 64 15)))
         (Some "mpe_act"%string)),
   [("environment: "%string, PStr "MPE-simple.spread"%string)])
  /\ fst (R_Actor.forward (Sample.iota 2 3) (Sample.iota 2 63) (Sample.iota 2 1)
            None true
            (mkWorld (Sample.built_actor "MPE-simple.spread" 63 4
                        false true true false false) []))
     = Err RuntimeError.
Proof.
  destruct (@indivisible_hidden_size_fails_at_first_call Sample.collaborators
              (Sample.args "MPE-simple.spread" 63 4 false true true false false)
              [4] 5 cpu []
              (Sample.iota 2 3) (Sample.iota 2 63) (Sample.iota 2 1) None true
              (mkWorld (Sample.built_actor "MPE-simple.spread" 63 4
                          false true true false false) [])
              2 63 (Sample.iota 2 3) tt
              eq_refl ltac:(discriminate) eq_refl eq_refl
              ltac:(simpl; lia) ltac:(discriminate) eq_refl)
    as (Hbuilt & Hfails).
  split; [|exact Hfails].
  apply Hbuilt; reflexivity.
Defined.

(** C3 fails on the source: a recurrent policy with no variant flag is
    built, by both constructors. *)
Lemma invalid_selection_is_not_fatal :
  ~ invalid_selection_is_fatal Sample.collaborators.
Proof.
  intros Hfatal.
  destruct (Hfatal
              (Sample.args "MPE-simple.spread" 8 4 false true false false false)
              [4] 5 cpu [] eq_refl ltac:(discriminate)) as [Hactor _].
  discriminate Hactor.
Qed.

(** A run of amended C3 on the sample collaborators: no variant flag. *)
Lemma invalid_selection_builds_silently_witness :
  R_Actor.__init__
    (Sample.args "MPE-simple.spread" 8 4 false true false false false)
    [4] 5 cpu [] =
  (Ok (actor_of
         (Sample.args "MPE-simple.spread" 8 4 false true false false false)
         cpu tt None (Some "mpe_act"%string)),
   [("environment: "%string, PStr "MPE-simple.spread"%string)])
  /\ R_Critic.__init__
       (Sample.args "MPE-simple.spread" 8 4 false true false false false)
       [4] cpu [] =
     (Ok (critic_of
            (Sample.args "MPE-simple.spread" 8 4 false true false false false)
            cpu tt None tt),
      []).
Proof.
  destruct (@invalid_selection_builds_silently Sample.collaborators
              (Sample.args "MPE-simple.spread" 8 4 false true false false false)
              [4] 5 cpu [] eq_refl ltac:(discriminate))
    as (Hzero & _).
  destruct (Hzero eq_refl) as (Hactor & Hcritic).
  split; [apply Hactor; reflexivity|apply Hcritic; reflexivity].
Defined.

(** A run of X1 on the sample collaborators. *)
Lemma simple_recurrent_path_calls_layer_witness :
  R_Actor.forward (Sample.iota 2 3) (Sample.iota 2 8) (Sample.iota 2 1)
    None true MoreSamples.simple_actor =
  Spec.Actor_act Spec.SimpleRecurrent (Sample.iota 2 3) (Sample.iota 2 8)
    (Sample.iota 2 1) None true MoreSamples.simple_actor
  /\ R_Critic.forward (Sample.iota 2 3) (Sample.iota 2 8) (Sample.iota 2 1)
       MoreSamples.simple_critic =
     Spec.Critic_estimate Spec.SimpleRecurrent (Sample.iota 2 3)
       (Sample.iota 2 8) (Sample.iota 2 1) MoreSamples.simple_critic.
Proof.
  destruct (@simple_recurrent_path_calls_layer Sample.collaborators
              (Sample.iota 2 3) (Sample.iota 2 8) (Sample.iota 2 1) None true
              MoreSamples.simple_actor MoreSamples.simple_critic
              eq_refl eq_refl) as (Ha & Hc & _).
  split; [exact Ha|exact Hc].
Defined.

(** A run of X2 on the sample collaborators. *)
Lemma recurrence_without_variant_passes_through_witness :
  R_Actor.forward (Sample.iota 2 3) (Sample.iota 2 8) (Sample.iota 2 1)
    None true MoreSamples.flagless_actor =
  Spec.Actor_act Spec.Disabled (Sample.iota 2 3) (Sample.iota 2 8)
    (Sample.iota 2 1) None true MoreSamples.flagless_actor
  /\ R_Critic.forward (Sample.iota 2 3) (Sample.iota 2 8) (Sample.iota 2 1)
       MoreSamples.flagless_critic =
     Spec.Critic_estimate Spec.Disabled (Sample.iota 2 3)
       (Sample.iota 2 8) (Sample.iota 2 1) MoreSamples.flagless_critic.
Proof.
  destruct (@recurrence_without_variant_passes_through Sample.collaborators
              (Sample.iota 2 3) (Sample.iota 2 8) (Sample.iota 2 1) None true
              MoreSamples.flagless_actor MoreSamples.flagless_critic
              eq_refl eq_refl) as (Ha & Hc & _).
  split; [exact Ha|exact Hc].
Defined.

(** A run of X3 on the sample collaborators. *)
Lemma critic_without_recurrence_passes_through_witness :
  R_Critic.forward (Sample.iota 2 3) (Sample.iota 2 8) (Sample.iota 2 1)
    MoreSamples.plain_critic =
  Spec.Critic_estimate Spec.Disabled (Sample.iota 2 3) (Sample.iota 2 8)
    (Sample.iota 2 1) MoreSamples.plain_critic.
Proof.
  exact (proj1 (@critic_without_recurrence_passes_through Sample.collaborators
                  (Sample.iota 2 3) (Sample.iota 2 8) (Sample.iota 2 1)
                  MoreSamples.plain_critic eq_refl eq_refl)).
Defined.

(** A run of X4 on the sample collaborators: a hidden state of rank one. *)
Lemma multi_module_rejects_state_of_low_rank_witness :
  fst (R_Actor.forward (Sample.iota 2 3) MoreSamples.flat_state
         (Sample.iota 2 1) None true Sample.rims_actor) = Err IndexError
  /\ fst (R_Actor.evaluate_actions (Sample.iota 2 3) MoreSamples.flat_state
            (Sample.iota 2 1) (Sample.iota 2 1) None None Sample.rims_actor)
     = Err IndexError.
Proof.
  apply (@multi_module_rejects_state_of_low_rank Sample.collaborators
           (Sample.iota 2 3) MoreSamples.flat_state (Sample.iota 2 1)
           (Sample.iota 2 1) None None true Sample.rims_actor
           (Sample.iota 2 3) tt eq_refl ltac:(simpl; lia) eq_refl).
Defined.

(** A run of X5 on the sample collaborators: a hidden state with no rows. *)
Lemma multi_module_rejects_empty_batch_and_no_units_witness :
  fst (R_Actor.forward (Sample.iota 2 3) MoreSamples.empty_state
         (Sample.iota 2 1) None true Sample.rims_actor) = Err RuntimeError
  /\ fst (R_Actor.evaluate_actions (Sample.iota 2 3) MoreSamples.empty_state
            (Sample.iota 2 1) (Sample.iota 2 1) None None Sample.rims_actor)
     = Err RuntimeError.
Proof.
  apply (@multi_module_rejects_empty_batch_and_no_units Sample.collaborators
           (Sample.iota 2 3) MoreSamples.empty_state (Sample.iota 2 1)
           (Sample.iota 2 1) None None true Sample.rims_actor
           0 8 (Sample.iota 2 3) tt eq_refl eq_refl
           ltac:(simpl; lia) (or_introl eq_refl) eq_refl).
Defined.

(** A run of X11 on the sample collaborators: a state of two layers of
    eight features goes to the cell as four units of four entries. *)
Lemma stacked_state_is_cut_along_layers_witness :
  exists x sub hidden' cell' w1 w2,
    R_Actor.call_rnn x sub sub w1 = (Ok (hidden', cell'), w2)
    /\ shape sub = [2; 4; 4]
    /\ (2 * 8) mod 4 = 0
    /\ (length (data MoreSamples.stacked_state) = 2 * (2 * 8) ->
        data sub = data (to (check MoreSamples.stacked_state))).
Proof.
  eapply (@stacked_state_is_cut_along_layers Sample.collaborators
            (Sample.iota 2 3) MoreSamples.stacked_state (Sample.iota 2 1)
            None true Sample.rims_actor _ 2 2 8 _ _ _
            eq_refl eq_refl ltac:(simpl; lia)).
  lazy. reflexivity.
Defined.

(** A run of X6 on the sample collaborators: four flags, no unit. *)
Lemma zero_units_is_division_by_zero_witness :
  R_Actor.__init__
    (Sample.args "MPE-simple.spread" 8 0 false true true false false)
    [4] 5 cpu [] =
  (Err ZeroDivisionError,
   [("environment: "%string, PStr "MPE-simple.spread"%string)])
  /\ R_Critic.__init__
       (Sample.args "MPE-simple.spread" 8 0 false true true false false)
       [4] cpu [] = (Err ZeroDivisionError, []).
Proof.
  apply (@zero_units_is_division_by_zero Sample.collaborators
           (Sample.args "MPE-simple.spread" 8 0 false true true false false)
           [4] 5 cpu [] tt eq_refl eq_refl eq_refl).
Defined.

(** A run of X12 on the sample collaborators. *)
Lemma known_environment_builds_its_head_witness :
  exists a,
    R_Actor.act (self Sample.plain_actor) = Some a
    /\ mpe_act 5 8%Z true 1%Z = Ok a.
Proof.
  apply (proj1 (@known_environment_builds_its_head Sample.collaborators
                  (Sample.args "MPE-simple.spread" 8 4 false false false false false)
                  [4] 5 cpu [] (self Sample.plain_actor)
                  [("environment: "%string, PStr "MPE-simple.spread"%string)]
                  eq_refl)).
  reflexivity.
Defined.

(** A run of X10 on the sample collaborators. *)
Lemma recurrent_unit_class_is_fixed_witness :
  unit_class (R_Actor.rnn (self Sample.rims_actor)) = rim_cell
  /\ unit_class (R_Critic.rnn
       (Sample.built_critic 8 4 false true true false false)) = rim_cell.
Proof.
  destruct (@recurrent_unit_class_is_fixed Sample.collaborators
              (Sample.args "MPE-simple.spread" 8 4 false true true false false)
              [4] 5 cpu []
              (self Sample.rims_actor)
              [("environment: "%string, PStr "MPE-simple.spread"%string)]
              (Sample.built_critic 8 4 false true true false false) []
              (Sample.iota 2 3) (Sample.iota 2 10) (Sample.iota 2 1)
              (Sample.iota 2 1) None None true eq_refl eq_refl)
    as (Ha & Hc & _).
  split; [exact Ha|exact Hc].
Defined.

(** A run of X7 on the sample collaborators: the state returned for
    [iota 2 10] is split into the cell sub-state of that call. *)
Lemma returned_state_feeds_next_call_witness :
  exists x sub hidden' cell' w1 w2,
    R_Actor.call_rnn x sub sub w1 = (Ok (hidden', cell'), w2)
    /\ Spec.pack_cell cell' = Ok MoreSamples.returned_state
    /\ forall b n q,
         shape cell' = [b; n; q] ->
         length (data cell') = b * (n * q) ->
         0 < n * q ->
         R_Actor.hidden_size (self Sample.rims_actor) = Z.of_nat (n * q) ->
         R_Actor._num_units (self Sample.rims_actor) = Z.of_nat n ->
         Spec.split_packed_state (R_Actor.hidden_size (self Sample.rims_actor))
           (R_Actor._num_units (self Sample.rims_actor))
           (to (check MoreSamples.returned_state)) =
         Ok (to (check cell'), to (check cell')).
Proof.
  eapply (@returned_state_feeds_next_call Sample.collaborators
            (Sample.iota 2 3) (Sample.iota 2 10) (Sample.iota 2 1) None true
            Sample.rims_actor _ _ _ MoreSamples.returned_state eq_refl).
  lazy. reflexivity.
Defined.

(** A run of X8 on the sample collaborators. *)
Lemma forward_and_evaluate_share_embedding_witness :
  exists emb w1 w2,
    self w1 = self w2
    /\ R_Actor.call_act emb (Spec.convert None) true w1 =
       (Ok (to (check (Sample.iota 2 3)), to (check (Sample.iota 2 3))),
        snd (R_Actor.forward (Sample.iota 2 3) (Sample.iota 2 8)
               (Sample.iota 2 1) None true Sample.plain_actor))
    /\ R_Actor.evaluate_actions (Sample.iota 2 3) (Sample.iota 2 8)
         (Sample.iota 2 1) (Sample.iota 2 1) None None Sample.plain_actor =
       R_Actor.call_act_evaluate_actions emb (to (check (Sample.iota 2 1)))
         (Spec.convert None)
         (if R_Actor._use_policy_active_masks (self Sample.plain_actor)
          then Spec.convert None else None) w2.
Proof.
  eapply (@forward_and_evaluate_share_embedding Sample.collaborators
            (Sample.iota 2 3) (Sample.iota 2 8) (Sample.iota 2 1)
            (Sample.iota 2 1) None None true Sample.plain_actor).
  lazy. reflexivity.
Defined.

(** A run of X13 on collaborators whose encoder raises. *)
Lemma encoder_error_ends_the_call_witness :
  @R_Actor.forward MoreSamples.broken_encoder
    (Sample.iota 2 3) (Sample.iota 2 10) (Sample.iota 2 1) None true
    MoreSamples.broken_actor =
  (Err (ExternalError 1),
   mkWorld (@R_Actor.set_base MoreSamples.broken_encoder tt
              (self MoreSamples.broken_actor))
     (stdout MoreSamples.broken_actor ++
      @diagnostic_lines MoreSamples.broken_encoder "main forward method"
        (Sample.iota 2 3)))
  /\ @R_Critic.forward MoreSamples.broken_encoder
       (Sample.iota 2 3) (Sample.iota 2 10) (Sample.iota 2 1)
       MoreSamples.broken_critic =
     (Err (ExternalError 1),
      mkWorld (@R_Critic.set_base MoreSamples.broken_encoder tt
                 (self MoreSamples.broken_critic))
        (stdout MoreSamples.broken_critic)).
Proof.
  apply (@encoder_error_ends_the_call MoreSamples.broken_encoder
           (Sample.iota 2 3) (Sample.iota 2 10) (Sample.iota 2 1) None true
           MoreSamples.broken_actor MoreSamples.broken_critic
           (ExternalError 1) tt (ExternalError 1) tt eq_refl eq_refl).
Defined.
